(** * The transaction log and bundling engine of [src/server/db.js]

    A shallow embedding of the exported operations of [db.js]
    ([createDatabase], [openDatabase], [doCommand], [batch],
    [bundleTransactionLog], [getBundle]) and of the helpers they are
    built from ([findDatabaseByDatabaseId], [getDatabase],
    [putTransaction], [rollbackTransaction]).

    The operations are [async] functions that talk to collaborators which
    live outside [db.js]: the DynamoDB document client, the S3 client, the
    in-process cache of transaction logs ([memcache]), the WebSocket
    registry ([connections]), the logger and the response builder.  Each
    operation is embedded as a finite tree of collaborator calls ([prog]);
    the tree is then run against a model of the collaborators, either one
    call at a time ([run]) or several calls interleaved at their [await]s
    ([steps]). *)

From Stdlib Require Import Ascii String ZArith.
From stdpp Require Import base decidable countable gmap strings list pretty.

Open Scope string_scope.
Open Scope list_scope.
Open Scope Z_scope.

(** ** JavaScript values *)

Module Js.

(** Numbers.  Sequence numbers are integral doubles; the model keeps the
    integers, which print in decimal, and [NaN], which is what the
    validation code tests for. *)
Inductive num : Type :=
  | NaN
  | Int (z : Z).

(** Bytes are kept as 8-bit characters: the content of a [Buffer] is a
    [string], and a text is kept as the bytes of its UTF-8 encoding. *)
#[warnings="-register-all"] Inductive value : Type :=
  | VUndefined
  | VNull
  | VBool (b : bool)
  | VNum (n : num)
  | VStr (s : string)
  | VObj (fields : list (string * value))
  | VArr (items : list value)
  | VBuf (bytes : string).

(** [o[name]] on an object literal: the value bound to [name], or
    [undefined] when the object has no such property. *)
Fixpoint assoc (name : string) (fields : list (string * value)) : value :=
  match fields with
  | [] => VUndefined
  | (k, v) :: rest => if String.eqb k name then v else assoc name rest
  end.

(** [{ ...o, name: v }]: rebinds [name] when the object has it, adds it
    otherwise. *)
Fixpoint rebind (name : string) (v : value) (fields : list (string * value))
  : list (string * value) :=
  match fields with
  | [] => [(name, v)]
  | (k, x) :: rest =>
      if String.eqb k name then (k, v) :: rest else (k, x) :: rebind name v rest
  end.

(** [v.name] where [v] is known not to be [undefined] or [null]: objects
    answer with the bound value, arrays, strings and buffers know their
    [length], every other read is [undefined]. *)
Definition read (v : value) (name : string) : value :=
  match v with
  | VObj fields => assoc name fields
  | VArr items =>
      if String.eqb name "length" then VNum (Int (Z.of_nat (length items)))
      else VUndefined
  | VStr s | VBuf s =>
      if String.eqb name "length" then VNum (Int (Z.of_nat (String.length s)))
      else VUndefined
  | _ => VUndefined
  end.

(** [v[i]] for a numeric index [i]. *)
Definition index (v : value) (i : nat) : value :=
  match v with
  | VObj fields => assoc (pretty i) fields
  | VArr items => nth i items VUndefined
  | VStr s =>
      match String.get i s with
      | Some c => VStr (String c EmptyString)
      | None => VUndefined
      end
  | VBuf bytes =>
      match String.get i bytes with
      | Some c => VNum (Int (Z.of_N (N_of_ascii c)))
      | None => VUndefined
      end
  | _ => VUndefined
  end.

Definition nullish (v : value) : bool :=
  match v with
  | VUndefined | VNull => true
  | _ => false
  end.

(** [!v] is [negb (truthy v)]. *)
Definition truthy (v : value) : bool :=
  match v with
  | VUndefined | VNull => false
  | VBool b => b
  | VNum NaN => false
  | VNum (Int z) => negb (z =? 0)
  | VStr s => negb (String.eqb s "")
  | VObj _ | VArr _ | VBuf _ => true
  end.

Definition falsy (v : value) : bool := negb (truthy v).

(** [typeof v] *)
Definition typeof (v : value) : string :=
  match v with
  | VUndefined => "undefined"
  | VBool _ => "boolean"
  | VNum _ => "number"
  | VStr _ => "string"
  | VNull | VObj _ | VArr _ | VBuf _ => "object"
  end.

(** *** Decoding bytes as text

    [buffer.toString()] decodes the bytes as UTF-8.  A well-formed
    sequence decodes to the character it encodes, which the model keeps
    as these same bytes; bytes that belong to no well-formed sequence are
    replaced by U+FFFD, one replacement for each maximal prefix of a
    sequence that breaks off. *)

(** U+FFFD in UTF-8. *)
Definition replacement : string :=
  String "239"%char (String "191"%char (String "189"%char EmptyString)).

(** What a byte starts: a character of its own, a sequence with [needed]
    more bytes the first of which is in the range from [lower] to
    [upper], or nothing. *)
Inductive lead : Type :=
  | Single
  | Lead (needed : nat) (lower upper : N)
  | Stray.

Definition classify (b : N) : lead :=
  if (b <=? 127)%N then Single
  else if (194 <=? b)%N && (b <=? 223)%N then Lead 1 128 191
  else if (224 <=? b)%N && (b <=? 239)%N then
    Lead 2 (if (b =? 224)%N then 160%N else 128%N) (if (b =? 237)%N then 159%N else 191%N)
  else if (240 <=? b)%N && (b <=? 244)%N then
    Lead 3 (if (b =? 240)%N then 144%N else 128%N) (if (b =? 244)%N then 143%N else 191%N)
  else Stray.

(** The decoder, with [seen] the bytes of the sequence it is in and
    [needed] the number of bytes that sequence still takes, the next of
    them in the range from [lower] to [upper].  A byte that cannot
    continue the sequence ends it with a replacement and is read again as
    the start of a sequence. *)
Fixpoint decode_from (bytes seen : string) (needed : nat) (lower upper : N) : string :=
  match bytes with
  | EmptyString =>
      match needed with
      | O => EmptyString
      | S _ => replacement
      end
  | String c rest =>
      let start :=
        match classify (N_of_ascii c) with
        | Single => String c (decode_from rest EmptyString 0 128 191)
        | Lead n lo hi => decode_from rest (String c EmptyString) n lo hi
        | Stray => replacement +:+ decode_from rest EmptyString 0 128 191
        end in
      match needed with
      | O => start
      | S n =>
          if (lower <=? N_of_ascii c)%N && (N_of_ascii c <=? upper)%N then
            match n with
            | O => seen +:+ String c (decode_from rest EmptyString 0 128 191)
            | S _ => decode_from rest (seen +:+ String c EmptyString) n 128 191
            end
          else replacement +:+ start
      end
  end.

Definition utf8_decode (bytes : string) : string := decode_from bytes EmptyString 0 128 191.




(** [String(v)], the conversion a template literal applies to its holes. *)
Fixpoint ToString (v : value) : string :=
  match v with
  | VUndefined => "undefined"
  | VNull => "null"
  | VBool true => "true"
  | VBool false => "false"
  | VNum NaN => "NaN"
  | VNum (Int z) => pretty z
  | VStr s => s
  | VObj _ => "[object Object]"
  | VArr items =>
      (fix join (l : list value) : string :=
         match l with
         | [] => ""
         | x :: rest =>
             let sx := match x with
                       | VUndefined | VNull => ""
                       | _ => ToString x
                       end in
             match rest with
             | [] => sx
             | _ => sx +:+ "," +:+ join rest
             end
         end) items
  | VBuf bytes => utf8_decode bytes
  end.

Definition ToPrimitive (v : value) : value :=
  match v with
  | VObj _ | VArr _ | VBuf _ => VStr (ToString v)
  | _ => v
  end.

(** The string grammar of [Number(...)] (ECMAScript StringToNumber) is a
    built-in of the language; the development is parametric in it. *)
Class Builtins : Type := { StringToNumber : string -> num }.

Section Conversions.
Context `{Builtins}.

(** [Number(v)]. *)
Definition Number (v : value) : num :=
  match v with
  | VUndefined => NaN
  | VNull => Int 0
  | VBool true => Int 1
  | VBool false => Int 0
  | VNum n => n
  | VStr s => StringToNumber s
  | VObj _ => NaN
  | VArr _ | VBuf _ => StringToNumber (ToString v)
  end.

(** [a >= b]: both operands become primitives; two strings compare as
    strings, anything else as numbers, and a comparison with [NaN] is
    false. *)
Definition ge (a b : value) : bool :=
  match ToPrimitive a, ToPrimitive b with
  | VStr s, VStr t => negb (String.ltb s t)
  | pa, pb =>
      match Number pa, Number pb with
      | Int x, Int y => y <=? x
      | _, _ => false
      end
  end.
End Conversions.

(** [a === b] where one side is a primitive literal.  Objects, arrays and
    buffers are compared by identity and are never identical to a
    literal. *)
Definition strict_equals (a b : value) : bool :=
  match a, b with
  | VUndefined, VUndefined | VNull, VNull => true
  | VBool x, VBool y => Bool.eqb x y
  | VNum (Int x), VNum (Int y) => x =? y
  | VStr s, VStr t => String.eqb s t
  | _, _ => false
  end.

(** [hay.includes(needle)] on strings. *)
Fixpoint includes (needle hay : string) : bool :=
  String.prefix needle hay ||
  match hay with
  | EmptyString => false
  | String _ rest => includes needle rest
  end.

(** *** Values on their way to DynamoDB

    The document client turns the JavaScript values of a request into
    attribute values.  An attribute whose value is [undefined] is left
    out, in the item and in every object nested in it; the elements of
    a list are marshalled one by one. *)
Definition kept (f : value -> value) : list (string * value) -> list (string * value) :=
  fix attributes (fields : list (string * value)) : list (string * value) :=
    match fields with
    | [] => []
    | (k, VUndefined) :: rest => attributes rest
    | (k, x) :: rest => (k, f x) :: attributes rest
    end.

Fixpoint marshal (v : value) : value :=
  match v with
  | VObj fields => VObj (kept marshal fields)
  | VArr items => VArr (List.map marshal items)
  | _ => v
  end.

(** *** Values as keys of finite maps *)

Definition leaf : Type := bool + (Z + string).

Fixpoint encode (v : value) : gen_tree leaf :=
  match v with
  | VUndefined => GenNode 0 []
  | VNull => GenNode 1 []
  | VBool b => GenLeaf (inl b)
  | VNum NaN => GenNode 2 []
  | VNum (Int z) => GenLeaf (inr (inl z))
  | VStr s => GenLeaf (inr (inr s))
  | VObj fields =>
      GenNode 3
        (List.map (fun kv => GenNode 5 [GenLeaf (inr (inr (fst kv))); encode (snd kv)])
           fields)
  | VArr items => GenNode 4 (List.map encode items)
  | VBuf bytes => GenNode 6 [GenLeaf (inr (inr bytes))]
  end.

Fixpoint decode (t : gen_tree leaf) : value :=
  match t with
  | GenLeaf (inl b) => VBool b
  | GenLeaf (inr (inl z)) => VNum (Int z)
  | GenLeaf (inr (inr s)) => VStr s
  | GenNode 0 _ => VUndefined
  | GenNode 1 _ => VNull
  | GenNode 2 _ => VNum NaN
  | GenNode 3 l =>
      VObj (List.map
              (fun t' => match t' with
                         | GenNode _ [GenLeaf (inr (inr k)); tv] => (k, decode tv)
                         | _ => ("", VUndefined)
                         end) l)
  | GenNode 4 l => VArr (List.map decode l)
  | GenNode 6 (GenLeaf (inr (inr bytes)) :: _) => VBuf bytes
  | GenNode _ _ => VUndefined
  end.

Fixpoint decode_encode (v : value) {struct v} : decode (encode v) = v.
Proof.
  destruct v as [| |b|[|z]|s|fields|items|bytes]; simpl; try reflexivity.
  - f_equal. induction fields as [|[k x] fields IHf]; simpl; [reflexivity|].
    rewrite decode_encode, IHf. reflexivity.
  - f_equal. induction items as [|x items IHi]; simpl; [reflexivity|].
    rewrite decode_encode, IHi. reflexivity.
Qed.

#[global] Instance value_eq_dec : EqDecision value.
Proof.
  intros a b. destruct (decide (encode a = encode b)) as [E|N].
  - left. rewrite <- (decode_encode a), <- (decode_encode b), E. reflexivity.
  - right. intros ->. apply N. reflexivity.
Defined.

#[global] Instance value_countable : Countable value :=
  inj_countable' encode decode decode_encode.

End Js.

Import Js.

(** ** Errors and responses *)

(** What a rejected promise or a [throw] carries: the [name], [message]
    and [statusCode] the code inspects. *)
Record error : Type := mkError {
  name : string;
  message : string;
  statusCode : value
}.

(** [new Error(msg)]. *)
Definition Error (msg : string) : error := mkError "Error" msg VUndefined.

(** Reading a property of [undefined] or [null]. *)
Definition TypeError (msg : string) : error := mkError "TypeError" msg VUndefined.

(** [`${e}`], that is [Error.prototype.toString]. *)
Definition error_to_string (e : error) : string :=
  if String.eqb (name e) "" then message e
  else if String.eqb (message e) "" then name e
  else name e +:+ ": " +:+ message e.

(** The entries of [statusCodes] that [db.js] uses. *)
Inductive status : Type :=
  | Bad_Request
  | Not_Found
  | Conflict
  | Internal_Server_Error.

(** The two calls into [responseBuilder], kept as constructors. *)
Inductive response : Type :=
  | errorResponse (s : status) (msg : string)
  | successResponse (data : value).

#[global] Instance error_eq_dec : EqDecision error.
Proof. solve_decision. Defined.
#[global] Instance status_eq_dec : EqDecision status.
Proof. solve_decision. Defined.
#[global] Instance response_eq_dec : EqDecision response.
Proof. solve_decision. Defined.

(** ** Calls to the collaborators *)

(** The three DynamoDB tables named in [setup]. *)
Inductive table : Type :=
  | databaseTable
  | userDatabaseTable
  | transactionsTable.

#[global] Instance table_eq_dec : EqDecision table.
Proof. solve_decision. Defined.

#[global] Instance table_countable : Countable table :=
  inj_countable'
    (fun t => match t with
              | databaseTable => 0%nat
              | userDatabaseTable => 1%nat
              | transactionsTable => 2%nat
              end)
    (fun n => match n with
              | O => databaseTable
              | S O => userDatabaseTable
              | _ => transactionsTable
              end)
    (fun t => match t with
              | databaseTable | userDatabaseTable | transactionsTable => eq_refl
              end).

(** Condition expressions, with their attribute names and values
    substituted. *)
Inductive condition : Type :=
  | attribute_not_exists (attr : string)
  | attribute_is (attr : string) (v : value)
  | attribute_lt (attr : string) (v : value)
  | cond_or (a b : condition).

Record put_params : Type := Put {
  put_table : table;
  put_item : value;
  put_condition : condition
}.

Record update_params : Type := Update {
  update_table : table;
  update_key : value;
  update_attr : string;
  update_value : value;
  update_condition : condition
}.

#[global] Instance condition_eq_dec : EqDecision condition.
Proof. solve_decision. Defined.
#[global] Instance put_params_eq_dec : EqDecision put_params.
Proof. solve_decision. Defined.
#[global] Instance update_params_eq_dec : EqDecision update_params.
Proof. solve_decision. Defined.

(** Calls whose promise the code awaits: the document client and S3. *)
Inductive io : Type :=
  | ddb_transactWrite (items : list put_params)
  | ddb_get (t : table) (key : value)
  | ddb_put (p : put_params)
  | ddb_update (p : update_params)
  | s3_upload (key : string) (body : value)
  | s3_getObject (key : string).

(** Calls that return at once: the cache of transaction logs, the
    WebSocket registry and the logger. *)
Inductive sync : Type :=
  | memcache_initTransactionLog (dbId : value)
  | memcache_pushTransaction (transaction : value)
  | memcache_transactionPersistedToDdb (transaction : value)
  | memcache_transactionRolledBack (transaction : value)
  | memcache_setBundleSeqNo (dbId : value) (bundleSeqNo : value)
  | connections_push (dbId : value) (userId : value)
  | logger_info (msg : string)
  | logger_warn (msg : string).

#[global] Instance io_eq_dec : EqDecision io.
Proof. solve_decision. Defined.
#[global] Instance sync_eq_dec : EqDecision sync.
Proof. solve_decision. Defined.

(** ** Programs *)

(** An [async] function body: it returns, throws, calls a collaborator,
    awaits a promise (which resolves to a value or rejects with an error)
    or calls another [async] function without awaiting it. *)
Inductive prog (A : Type) : Type :=
  | Ret (a : A)
  | Throw (e : error)
  | Sync (c : sync) (k : value -> prog A)
  | Await (c : io) (k : error + value -> prog A)
  | Fork (bg : prog unit) (k : prog A).

Arguments Ret {A} a.
Arguments Throw {A} e.
Arguments Sync {A} c k.
Arguments Await {A} c k.
Arguments Fork {A} bg k.

Fixpoint bind {A B : Type} (p : prog A) (f : A -> prog B) : prog B :=
  match p with
  | Ret a => f a
  | Throw e => Throw e
  | Sync c k => Sync c (fun v => bind (k v) f)
  | Await c k => Await c (fun r => bind (k r) f)
  | Fork bg k => Fork bg (bind k f)
  end.

(** [try { p } catch (e) { handler e }]. *)
Fixpoint try_catch {A : Type} (p : prog A) (handler : error -> prog A) : prog A :=
  match p with
  | Ret a => Ret a
  | Throw e => handler e
  | Sync c k => Sync c (fun v => try_catch (k v) handler)
  | Await c k => Await c (fun r => try_catch (k r) handler)
  | Fork bg k => Fork bg (try_catch k handler)
  end.

Definition call (c : sync) : prog value := Sync c Ret.

(** [await c]: the value the promise resolves to; a rejection is thrown. *)
Definition await (c : io) : prog value :=
  Await c (fun r => match r with
                    | inl e => Throw e
                    | inr v => Ret v
                    end).

(** [f(...)] for an [async] function [f], not awaited. *)
Definition fork (bg : prog unit) : prog unit := Fork bg (Ret tt).

(** [v.name], which throws when [v] is [undefined] or [null]. *)
Definition prop (v : value) (name : string) : prog value :=
  if nullish v
  then Throw (TypeError ("Cannot read property '" +:+ name +:+ "' of " +:+ ToString v))
  else Ret (read v name).

Declare Scope prog_scope.
Delimit Scope prog_scope with prog.
Notation "x <- p ;; q" := (bind p (fun x => q))
  (at level 100, p at next level, right associativity) : prog_scope.
Notation "p ;; q" := (bind p (fun _ => q))
  (at level 100, right associativity) : prog_scope.
Notation "'try' p 'catch' e => h" := (try_catch p (fun e => h))
  (at level 100, e name, p at level 200, h at level 200) : prog_scope.
Open Scope prog_scope.

(** ** The functions of [db.js] *)

Section Source.
Context `{Builtins}.

(** [const getS3DbStateKey = (databaseId, bundleSeqNo) =>
    `${databaseId}/${bundleSeqNo}`] *)
Definition getS3DbStateKey (databaseId bundleSeqNo : value) : string :=
  ToString databaseId +:+ "/" +:+ ToString bundleSeqNo.

Definition createDatabase
    (userId dbNameHash dbId encryptedDbName encryptedDbKey encryptedMetadata : value)
  : prog response :=
  if falsy dbNameHash then Ret (errorResponse Bad_Request "Missing database name hash") else
  if falsy dbId then Ret (errorResponse Bad_Request "Missing database id") else
  if falsy encryptedDbName then Ret (errorResponse Bad_Request "Missing database name") else
  if falsy encryptedDbKey then Ret (errorResponse Bad_Request "Missing database key") else
  let database := VObj [
    ("database-id", dbId);
    ("owner-id", userId);
    ("database-name", encryptedDbName);
    ("metadata", encryptedMetadata) ] in
  let userDatabase := VObj [
    ("user-id", userId);
    ("database-name-hash", dbNameHash);
    ("database-id", dbId);
    ("encrypted-db-key", encryptedDbKey) ] in
  let params := [
    Put databaseTable database (attribute_not_exists "database-id");
    Put userDatabaseTable userDatabase (attribute_not_exists "user-id") ] in
  try
    await (ddb_transactWrite params) ;;
    call (memcache_initTransactionLog dbId) ;;
    Ret (successResponse (VStr "Success!"))
  catch e =>
    if negb (String.eqb (message e) "") && includes "ConditionalCheckFailed" (message e)
    then Ret (errorResponse Conflict "Database already exists")
    else Ret (errorResponse Internal_Server_Error
                ("Failed to create database with " +:+ error_to_string e)).

Definition findDatabaseByDatabaseId (dbId : value) : prog value :=
  let databaseParams := VObj [("database-id", dbId)] in
  dbResponse <- await (ddb_get databaseTable databaseParams) ;;
  if falsy dbResponse || falsy (read dbResponse "Item") then Ret VNull
  else Ret (read dbResponse "Item").

Definition rollbackTransaction (transaction : value) : prog unit :=
  databaseId <- prop transaction "database-id" ;;
  sequenceNo <- prop transaction "sequence-no" ;;
  itemId <- prop transaction "item-id" ;;
  let transactionWithRollbackCommand := VObj [
    ("database-id", databaseId);
    ("sequence-no", sequenceNo);
    ("item-id", itemId);
    ("command", VStr "rollback") ] in
  let rollbackTransactionParams :=
    Put transactionsTable transactionWithRollbackCommand
      (cond_or (attribute_not_exists "database-id")
               (attribute_is "command" (VStr "rollback"))) in
  try
    await (ddb_put rollbackTransactionParams) ;;
    call (memcache_transactionRolledBack transactionWithRollbackCommand) ;;
    Ret tt
  catch e =>
    if String.eqb (name e) "ConditionalCheckFailedException" then
      call (memcache_transactionPersistedToDdb transaction) ;;
      call (logger_info "Failed to rollback -- transaction already persisted to disk") ;;
      Ret tt
    else
      call (logger_warn ("Failed to rollback with " +:+ error_to_string e)) ;;
      Ret tt.

Definition putTransaction (transaction userId : value) : prog value :=
  transactionWithSequenceNo <- call (memcache_pushTransaction transaction) ;;
  let params :=
    Put transactionsTable transactionWithSequenceNo
      (attribute_not_exists "database-id") in
  (try
     await (ddb_put params) ;;
     call (memcache_transactionPersistedToDdb transactionWithSequenceNo)
   catch e =>
     call (logger_warn
             ("Transaction " +:+ ToString (read transactionWithSequenceNo "sequence-no")
              +:+ " failed with " +:+ error_to_string e +:+ "! Rolling back...")) ;;
     fork (rollbackTransaction transactionWithSequenceNo) ;;
     Throw (Error ("Failed with " +:+ error_to_string e +:+ "."))) ;;
  call (connections_push (read transaction "database-id") userId) ;;
  Ret (read transactionWithSequenceNo "sequence-no").

Definition doCommand (command userId databaseId key record : value) : prog response :=
  if falsy databaseId then Ret (errorResponse Bad_Request "Missing database id") else
  if falsy key then Ret (errorResponse Bad_Request "Missing item key") else
  if falsy record then Ret (errorResponse Bad_Request "Missing record") else
  let transaction := VObj [
    ("database-id", databaseId);
    ("key", key);
    ("command", command);
    ("record", record) ] in
  try
    sequenceNo <- putTransaction transaction userId ;;
    Ret (successResponse (VObj [("sequenceNo", sequenceNo)]))
  catch e =>
    Ret (errorResponse Internal_Server_Error
           ("Failed to " +:+ ToString command +:+ " with " +:+ error_to_string e)).

(** The [for] loop of [batch], [n] iterations from index [i] on: it
    leaves the function with a response, throws, or ends with [ops]. *)
Fixpoint batch_loop (operations : value) (n i : nat) (ops : list value)
  : prog (response + list value) :=
  match n with
  | O => Ret (inr ops)
  | S n' =>
      let operation := index operations i in
      key <- prop operation "itemKey" ;;
      record <- prop operation "encryptedItem" ;;
      command <- prop operation "command" ;;
      if falsy key then
        Ret (inl (errorResponse Bad_Request
                    ("Operation " +:+ pretty i +:+ " missing item key"))) else
      if falsy record then
        Ret (inl (errorResponse Bad_Request
                    ("Operation " +:+ pretty i +:+ " missing record"))) else
      if falsy command then
        Ret (inl (errorResponse Bad_Request
                    ("Operation " +:+ pretty i +:+ " missing command"))) else
      let result := VObj [("key", key); ("record", record); ("command", command)] in
      batch_loop operations n' (S i) (ops ++ [result])
  end.

(** How often [i < operations.length] holds, counting [i] up from 0. *)
Definition iterations (len : value) : nat :=
  match Number len with
  | Int n => Z.to_nat n
  | NaN => O
  end.

Definition batch (userId databaseId operations : value) : prog response :=
  if falsy databaseId then Ret (errorResponse Bad_Request "Missing database id") else
  if falsy operations || falsy (read operations "length")
  then Ret (errorResponse Bad_Request "Missing operations") else
  looped <- batch_loop operations (iterations (read operations "length")) 0 [] ;;
  match looped with
  | inl early => Ret early
  | inr ops =>
      try
        let command := VStr "Batch" in
        let transaction := VObj [
          ("database-id", databaseId);
          ("command", command);
          ("operations", VArr ops) ] in
        sequenceNo <- putTransaction transaction userId ;;
        Ret (successResponse (VObj [("sequenceNo", sequenceNo)]))
      catch e =>
        Ret (errorResponse Internal_Server_Error
               ("Failed to batch with " +:+ error_to_string e))
  end.

(** The [bundleParams] of [bundleTransactionLog]: the guarded update of
    the bundle pointer. *)
Definition bundleParams (databaseId bundleSeqNo : value) : update_params :=
  Update databaseTable (VObj [("database-id", databaseId)])
    "bundle-seq-no" bundleSeqNo
    (cond_or (attribute_not_exists "bundle-seq-no")
             (attribute_lt "bundle-seq-no" bundleSeqNo)).

Definition bundleTransactionLog (databaseId seqNo bundle : value) : prog response :=
  let bundleSeqNo := VNum (Number seqNo) in
  if falsy bundleSeqNo && negb (strict_equals bundleSeqNo (VNum (Int 0)))
  then Ret (errorResponse Bad_Request "Missing bundle sequence number") else
  try
    database <- findDatabaseByDatabaseId databaseId ;;
    if falsy database then Ret (errorResponse Not_Found "Database not found") else
    let lastBundleSeqNo := read database "bundle-seq-no" in
    if ge lastBundleSeqNo bundleSeqNo
    then Ret (errorResponse Bad_Request
                "Bundle sequence no must be greater than current bundle") else
    call (logger_info ("Uploading db " +:+ ToString databaseId
                       +:+ "'s state to S3 at bundle seq no "
                       +:+ ToString bundleSeqNo +:+ "...")) ;;
    await (s3_upload (getS3DbStateKey databaseId bundleSeqNo) bundle) ;;
    call (logger_info "Setting bundle sequence number on user...") ;;
    let bundleParams := bundleParams databaseId bundleSeqNo in
    await (ddb_update bundleParams) ;;
    call (memcache_setBundleSeqNo databaseId bundleSeqNo) ;;
    Ret (successResponse (VObj []))
  catch e =>
    Ret (errorResponse Internal_Server_Error
           ("Failed to bundle with " +:+ error_to_string e)).

(** [getBundle] answers with a response or, on success, with the text
    that [toString] makes of the bytes of the stored object. *)
Definition getBundle (databaseId bundleSeqNo : value) : prog (response + string) :=
  if falsy bundleSeqNo && negb (strict_equals bundleSeqNo (VNum (Int 0)))
  then Ret (inl (errorResponse Bad_Request "Missing bundle sequence number")) else
  try
    let key := getS3DbStateKey databaseId bundleSeqNo in
    (try
       result <- await (s3_getObject key) ;;
       body <- prop result "Body" ;;
       if nullish body
       then Throw (TypeError "Cannot read property 'toString' of undefined")
       else Ret (inr (ToString body))
     catch e =>
       let statusCode := statusCode e in
       let error := message e in
       if strict_equals statusCode (VNum (Int 404))
          && strict_equals (VStr error) (VStr "Not Found")
       then Ret (inl (errorResponse Not_Found
                        ("Failed to query db state with " +:+ error)))
       else Ret (inl (errorResponse Internal_Server_Error
                        ("Failed to query db state with " +:+ error))))
  catch e =>
    Ret (inl (errorResponse Internal_Server_Error
                ("Failed to query db state with " +:+ error_to_string e))).
End Source.

(** ** Opening a database *)

(** The own properties of a value that a spread copies, in the order it
    copies them (the properties of an object literal in the order they
    were created; the elements of an array, the characters of a string
    and the bytes of a buffer under their indices). *)
Definition own_properties (v : value) : list (string * value) :=
  match v with
  | VObj fields => fields
  | VArr items => imap (fun i x => (pretty i, x)) items
  | VStr s =>
      imap (fun i c => (pretty i, VStr (String c EmptyString))) (list_ascii_of_string s)
  | VBuf bytes =>
      imap (fun i c => (pretty i, VNum (Int (Z.of_N (N_of_ascii c)))))
        (list_ascii_of_string bytes)
  | _ => []
  end.

(** Copying the own properties of [source] onto [target]: for each name
    of [source], in order, [target[name] = source[name]]. *)
Definition assign (target : list (string * value)) (source : value)
  : list (string * value) :=
  let properties := own_properties source in
  foldl (fun acc k => rebind k (assoc k properties) acc) target (fst <$> properties).

(** [{ ...a, ...b }] *)
Definition spread (a b : value) : value := VObj (assign (assign [] a) b).

(** Modelled from the spec: the binding of a connection to a database by
    the WebSocket registry (section 6: [bindConnection(userId,
    connectionId, dbId, bundleSeqNo, dbNameHash, dbKey) -> bool]),
    [connections.openDatabase] in the code.  The development is
    parametric in the answer of the registry; what the registry keeps of
    the binding is not modelled. *)
Class Connections : Type := {
  connections_openDatabase :
    value -> value -> value -> value -> value -> value -> value
}.

Section Opening.
Context `{Connections}.

Definition getDatabase (userId dbNameHash : value) : prog value :=
  let userDatabaseParams :=
    VObj [("user-id", userId); ("database-name-hash", dbNameHash)] in
  userDbResponse <- await (ddb_get userDatabaseTable userDatabaseParams) ;;
  if falsy userDbResponse || falsy (read userDbResponse "Item") then Ret VNull else
  let userDb := read userDbResponse "Item" in
  let dbId := read userDb "database-id" in
  database <- findDatabaseByDatabaseId dbId ;;
  if falsy database then Ret VNull else
  Ret (spread userDb database).

Definition openDatabase (userId connectionId dbNameHash : value) : prog response :=
  if falsy dbNameHash
  then Ret (errorResponse Bad_Request "Missing database name hash") else
  try
    database <- getDatabase userId dbNameHash ;;
    if falsy database then Ret (errorResponse Not_Found "Database not found") else
    let dbId := read database "database-id" in
    let bundleSeqNo := read database "bundle-seq-no" in
    let dbKey := read database "encrypted-db-key" in
    if truthy (connections_openDatabase userId connectionId dbId bundleSeqNo
                 dbNameHash dbKey)
    then Ret (successResponse (VStr "Success!"))
    else Throw (Error "Unable to open database")
  catch e =>
    Ret (errorResponse Internal_Server_Error
           ("Failed to create database with " +:+ error_to_string e)).
End Opening.

(** ** The collaborators *)

(** One entry per collaborator call, oldest first: a call that returned
    at once with its result, or an awaited call with the way its promise
    settled. *)
Inductive event : Type :=
  | Called (c : sync) (result : value)
  | Completed (c : io) (settled : error + value).

(** Modelled from the spec: the status the Sequencer ([memcache]) keeps
    for a slot (section 3: [assigned], [persisted], [rolled-back]). *)
Inductive txstatus : Type :=
  | assigned
  | persisted
  | rolled_back.

Record world : Type := World {
  (** the DynamoDB tables, by table and primary key *)
  ddb : gmap (table * list value) value;
  (** the bucket of database states: the bytes of each object *)
  s3 : gmap string string;
  (** the Sequencer: next number per database, status per slot, bundle
      pointer per database *)
  nextSeqNo : gmap value Z;
  statusOf : gmap (value * value) txstatus;
  bundleSeqNoOf : gmap value value;
  (** the calls made so far *)
  trace : list event
}.

Definition with_ddb (d : gmap (table * list value) value) (w : world) : world :=
  World d (s3 w) (nextSeqNo w) (statusOf w) (bundleSeqNoOf w) (trace w).
Definition with_s3 (s : gmap string string) (w : world) : world :=
  World (ddb w) s (nextSeqNo w) (statusOf w) (bundleSeqNoOf w) (trace w).
Definition emit (e : event) (w : world) : world :=
  World (ddb w) (s3 w) (nextSeqNo w) (statusOf w) (bundleSeqNoOf w) (trace w ++ [e]).

(** *** DynamoDB *)

(** Modelled from the spec: the primary keys of the tables, which [setup]
    declares (section 6: log entries keyed by (database-id, sequence-no),
    registry entries by database-id and by (user-id, database-name-hash)). *)
Definition key_schema (t : table) : list string :=
  match t with
  | databaseTable => ["database-id"]
  | userDatabaseTable => ["user-id"; "database-name-hash"]
  | transactionsTable => ["database-id"; "sequence-no"]
  end.

(** The primary key of an item or of the [Key] of a request, as the
    document client sends it. *)
Definition key_of (t : table) (item : value) : list value :=
  List.map (fun attr => marshal (read item attr)) (key_schema t).

Definition item_at (w : world) (t : table) (key : value) : option value :=
  ddb w !! (t, key_of t key).

(** A condition is evaluated against the item stored under the key of the
    request, if there is one.  A stored item always has the key attributes
    of its table; any other attribute that reads [undefined] is an
    attribute the item does not have. *)
Fixpoint holds (t : table) (c : condition) (existing : option value) : bool :=
  match c with
  | attribute_not_exists attr =>
      match existing with
      | None => true
      | Some item =>
          negb (bool_decide (attr ∈ key_schema t))
          && bool_decide (read item attr = VUndefined)
      end
  | attribute_is attr v =>
      match existing with
      | None => false
      | Some item => bool_decide (read item attr = v)
      end
  | attribute_lt attr v =>
      match existing with
      | None => false
      | Some item =>
          match read item attr, v with
          | VNum (Int x), VNum (Int y) => x <? y
          | VStr s, VStr t => String.ltb s t
          | _, _ => false
          end
      end
  | cond_or a b => holds t a existing || holds t b existing
  end.

Definition ConditionalCheckFailedException : error :=
  mkError "ConditionalCheckFailedException" "The conditional request failed"
    (VNum (Int 400)).

Fixpoint cancellation_reasons (oks : list bool) : string :=
  match oks with
  | [] => ""
  | ok :: rest =>
      (if ok then "None" else "ConditionalCheckFailed") +:+
      match rest with
      | [] => ""
      | _ => ", " +:+ cancellation_reasons rest
      end
  end.

Definition TransactionCanceledException (oks : list bool) : error :=
  mkError "TransactionCanceledException"
    ("Transaction cancelled, please refer cancellation reasons for specific reasons ["
     +:+ cancellation_reasons oks +:+ "]")
    (VNum (Int 400)).

Definition put_allowed (w : world) (p : put_params) : bool :=
  holds (put_table p) (put_condition p) (item_at w (put_table p) (put_item p)).

(** What is stored is the item as the document client marshals it. *)
Definition store_item (p : put_params) (d : gmap (table * list value) value)
  : gmap (table * list value) value :=
  <[(put_table p, key_of (put_table p) (put_item p)) := marshal (put_item p)]> d.

(** [SET attr = v] on the item under [key]; an item that is not there yet
    is created from the key. *)
Definition set_attribute (existing : option value) (key : value) (attr : string) (v : value)
  : value :=
  match default (marshal key) existing with
  | VObj fields => VObj (rebind attr (marshal v) fields)
  | _ => VObj [(attr, marshal v)]
  end.

(** *** S3 *)

(** How [getObject] fails when the bucket has no object under the key. *)
Definition NoSuchKey : error :=
  mkError "NoSuchKey" "The specified key does not exist." (VNum (Int 404)).

(** The bytes [upload] stores for a body: the UTF-8 encoding of a string,
    the content of a buffer.  The managed upload refuses any other body
    (streams are not modelled): a falsy one as missing, another one as
    unsupported. *)
Definition body_bytes (body : value) : option string :=
  match body with
  | VStr text => Some text
  | VBuf bytes => Some bytes
  | _ => None
  end.

Definition refused_body (body : value) : error :=
  if truthy body then Error ("Unsupported body payload " +:+ typeof body)
  else Error "params.Body is required".

(** What a request does to the stores when the service processes it, and
    how its promise then settles.  A request the service refuses before
    it looks at the stores (a key attribute that is not there, an
    attribute value it does not take) is not told apart here: it is one
    of the calls that fail without being processed, [Fault e false]
    below. *)
Definition process (c : io) (w : world) : (error + value) * world :=
  match c with
  | ddb_transactWrite items =>
      let oks := List.map (put_allowed w) items in
      if forallb id oks
      then (inr (VObj []), with_ddb (foldl (fun d p => store_item p d) (ddb w) items) w)
      else (inl (TransactionCanceledException oks), w)
  | ddb_get t key =>
      match item_at w t key with
      | Some item => (inr (VObj [("Item", item)]), w)
      | None => (inr (VObj []), w)
      end
  | ddb_put p =>
      if put_allowed w p
      then (inr (VObj []), with_ddb (store_item p (ddb w)) w)
      else (inl ConditionalCheckFailedException, w)
  | ddb_update p =>
      let existing := item_at w (update_table p) (update_key p) in
      if holds (update_table p) (update_condition p) existing
      then (inr (VObj []),
            with_ddb (<[(update_table p, key_of (update_table p) (update_key p))
                        := set_attribute existing (update_key p)
                             (update_attr p) (update_value p)]> (ddb w)) w)
      else (inl ConditionalCheckFailedException, w)
  | s3_upload key body =>
      match body_bytes body with
      | Some bytes => (inr (VObj [("Key", VStr key)]), with_s3 (<[key := bytes]> (s3 w)) w)
      | None => (inl (refused_body body), w)
      end
  | s3_getObject key =>
      match s3 w !! key with
      | Some bytes => (inr (VObj [("Body", VBuf bytes)]), w)
      | None => (inl NoSuchKey, w)
      end
  end.

(** How the environment treats one awaited request: the service processes
    it and answers, or the call fails with [e]; in the second case the
    request may or may not have been processed before the failure
    ([applied]), since a reply can be lost after the write landed. *)
Inductive outcome : Type :=
  | Answer
  | Fault (e : error) (applied : bool).

Definition settle (c : io) (o : outcome) (w : world) : (error + value) * world :=
  match o with
  | Answer => process c w
  | Fault e false => (inl e, w)
  | Fault e true => (inl e, snd (process c w))
  end.

Definition do_io (c : io) (o : outcome) (w : world) : (error + value) * world :=
  let '(r, w') := settle c o w in (r, emit (Completed c r) w').

(** *** The Sequencer, the notifier and the logger *)

Definition with_prop (o : value) (name : string) (v : value) : value :=
  match o with
  | VObj fields => VObj (rebind name v fields)
  | _ => VObj [(name, v)]
  end.

(** Modelled from the spec: the first number of an empty log (section 8:
    the first commit on a new database returns sequence-no 1). *)
Definition firstSeqNo : Z := 1.

Definition next_of (w : world) (dbId : value) : Z :=
  default firstSeqNo (nextSeqNo w !! dbId).

Definition slot_of (transaction : value) : value * value :=
  (read transaction "database-id", read transaction "sequence-no").

(** Modelled from the spec: the Sequencer of section 4.2 and section 6,
    [memcache] in the code.  [initTransactionLog] starts an empty log;
    [pushTransaction] hands out the next number of the database, marks
    the slot [assigned] and returns the transaction with its number;
    [transactionPersistedToDdb] and [transactionRolledBack] set the status
    of a slot, [persisted] being final; [setBundleSeqNo] records the
    bundle pointer.  The notifier and the logger keep no state here. *)
Definition react (c : sync) (w : world) : value * world :=
  match c with
  | memcache_initTransactionLog dbId =>
      (VUndefined,
       World (ddb w) (s3 w) (<[dbId := firstSeqNo]> (nextSeqNo w))
         (statusOf w) (bundleSeqNoOf w) (trace w))
  | memcache_pushTransaction transaction =>
      let dbId := read transaction "database-id" in
      let n := next_of w dbId in
      let numbered := with_prop transaction "sequence-no" (VNum (Int n)) in
      (numbered,
       World (ddb w) (s3 w) (<[dbId := n + 1]> (nextSeqNo w))
         (<[(dbId, VNum (Int n)) := assigned]> (statusOf w))
         (bundleSeqNoOf w) (trace w))
  | memcache_transactionPersistedToDdb transaction =>
      (VUndefined,
       World (ddb w) (s3 w) (nextSeqNo w)
         (<[slot_of transaction := persisted]> (statusOf w))
         (bundleSeqNoOf w) (trace w))
  | memcache_transactionRolledBack transaction =>
      (VUndefined,
       World (ddb w) (s3 w) (nextSeqNo w)
         (match statusOf w !! slot_of transaction with
          | Some persisted => statusOf w
          | _ => <[slot_of transaction := rolled_back]> (statusOf w)
          end)
         (bundleSeqNoOf w) (trace w))
  | memcache_setBundleSeqNo dbId bundleSeqNo =>
      (VUndefined,
       World (ddb w) (s3 w) (nextSeqNo w) (statusOf w)
         (<[dbId := bundleSeqNo]> (bundleSeqNoOf w)) (trace w))
  | connections_push _ _ | logger_info _ | logger_warn _ => (VUndefined, w)
  end.

Definition do_sync (c : sync) (w : world) : value * world :=
  let '(v, w') := react c w in (v, emit (Called c v) w').

(** ** Running programs *)

(** How a call ends: its promise is fulfilled with a value or rejected. *)
Inductive completion (A : Type) : Type :=
  | Returned (a : A)
  | Thrown (e : error).
Arguments Returned {A} a.
Arguments Thrown {A} e.

(** A call between two of its steps: over, or suspended at an [await]
    whose request has been issued. *)
Inductive pending (A : Type) : Type :=
  | Finished (r : completion A)
  | Awaiting (c : io) (k : error + value -> prog A).
Arguments Finished {A} r.
Arguments Awaiting {A} c k.

(** The code that runs without interruption: everything up to the next
    [await].  A function called without [await] runs the same way up to
    its own first [await] and is then left suspended beside its caller. *)
Fixpoint exec {A : Type} (p : prog A) (w : world)
  : pending A * world * list (pending unit) :=
  match p with
  | Ret a => (Finished (Returned a), w, [])
  | Throw e => (Finished (Thrown e), w, [])
  | Sync c k => let '(v, w') := do_sync c w in exec (k v) w'
  | Await c k => (Awaiting c k, w, [])
  | Fork bg k =>
      let '(b, w1, bs) := exec bg w in
      let '(r, w2, bs') := exec k w1 in
      (r, w2, bs ++ b :: bs')
  end.

(** One call run to its end with nothing else in between: the awaited
    requests settle as [os] says, one outcome per request in the order
    they are issued (a request beyond the list is answered).  Functions
    the call started without awaiting are returned still suspended. *)
Fixpoint run {A : Type} (p : prog A) (os : list outcome) (w : world)
  : completion A * world * list (pending unit) :=
  match p with
  | Ret a => (Returned a, w, [])
  | Throw e => (Thrown e, w, [])
  | Sync c k => let '(v, w') := do_sync c w in run (k v) os w'
  | Await c k =>
      let '(r, w') := do_io c (hd Answer os) w in run (k r) (tl os) w'
  | Fork bg k =>
      let '(b, w1, bs) := exec bg w in
      let '(r, w2, bs') := run k os w1 in
      (r, w2, bs ++ b :: bs')
  end.

Definition result_of {A B C : Type} (x : A * B * C) : A := fst (fst x).
Definition world_of {A B C : Type} (x : A * B * C) : B := snd (fst x).
Definition forked_of {A B C : Type} (x : A * B * C) : C := snd x.

Definition empty_world : world := World ∅ ∅ ∅ ∅ ∅ [].

(** *** An instance of the built-ins

    Decimal integer literals with an optional sign; the empty string is 0,
    as in JavaScript.  Used to evaluate the model on examples. *)
Definition digit_of (c : ascii) : option Z :=
  let n := Z.of_N (N_of_ascii c) in
  if (48 <=? n) && (n <=? 57) then Some (n - 48) else None.

Fixpoint digits (s : string) (acc : Z) : option Z :=
  match s with
  | EmptyString => Some acc
  | String c rest =>
      match digit_of c with
      | Some d => digits rest (10 * acc + d)
      | None => None
      end
  end.

Definition decimal (s : string) : num :=
  match s with
  | EmptyString => Int 0
  | String "-"%char (String c rest) =>
      match digits (String c rest) 0 with
      | Some z => Int (- z)
      | None => NaN
      end
  | String "+"%char (String c rest) | String c rest =>
      match digits (String c rest) 0 with
      | Some z => Int z
      | None => NaN
      end
  end.

#[global] Instance decimal_builtins : Builtins := {| StringToNumber := decimal |}.

(** ** Calls in flight together

    The server runs one piece of code at a time and switches between
    calls only at an [await].  A commit call is invoked, runs up to its
    first [await], and is taken up again when the awaited request
    settles; between the two, other calls may be invoked or taken up.
    A request acts on the stores at the moment it settles. *)

Inductive request : Type :=
  | DoCommand (command userId databaseId key record : value)
  | Batch (userId databaseId operations : value).

Definition database_of (rq : request) : value :=
  match rq with
  | DoCommand _ _ databaseId _ _ => databaseId
  | Batch _ databaseId _ => databaseId
  end.

Inductive thread : Type :=
  | Caller (id : nat) (p : pending response)
  | Background (p : pending unit).

Record system : Type := System {
  env : world;
  (** the calls suspended at an [await] *)
  waiting : list thread;
  (** what each finished call gave its caller, oldest first *)
  replies : list (nat * completion response);
  (** the number of calls invoked so far; the next call gets it as id *)
  issued : nat
}.

Inductive action : Type :=
  | Invoke (rq : request)
  | Complete (i : nat) (o : outcome).

Definition backgrounds (bs : list (pending unit)) : list thread :=
  flat_map (fun b => match b with
                     | Finished _ => []
                     | Awaiting _ _ => [Background b]
                     end) bs.

Definition park (id : nat) (x : pending response * world * list (pending unit))
    (others : list thread) (done : list (nat * completion response)) (count : nat)
  : system :=
  let '(p, w, bs) := x in
  match p with
  | Finished r => System w (others ++ backgrounds bs) (done ++ [(id, r)]) count
  | Awaiting _ _ => System w (others ++ Caller id p :: backgrounds bs) done count
  end.

Section Interleaving.
Context `{Builtins}.

Definition body (rq : request) : prog response :=
  match rq with
  | DoCommand command userId databaseId key record =>
      doCommand command userId databaseId key record
  | Batch userId databaseId operations => batch userId databaseId operations
  end.

Definition step (s : system) (a : action) : system :=
  match a with
  | Invoke rq =>
      park (issued s) (exec (body rq) (env s)) (waiting s) (replies s) (S (issued s))
  | Complete i o =>
      match waiting s !! i with
      | Some (Caller id (Awaiting c k)) =>
          let '(r, w) := do_io c o (env s) in
          park id (exec (k r) w) (delete i (waiting s)) (replies s) (issued s)
      | Some (Background (Awaiting c k)) =>
          let '(r, w) := do_io c o (env s) in
          let '(p, w', bs) := exec (k r) w in
          System w' (delete i (waiting s) ++ backgrounds (p :: bs))
            (replies s) (issued s)
      | _ => s
      end
  end.

Definition steps (s : system) (acts : list action) : system := foldl step s acts.
End Interleaving.

(** The requests a schedule invokes, in order: the call with id [i] is
    the [i]-th of them when the system starts with no call issued. *)
Definition invoked (acts : list action) : list request :=
  flat_map (fun a => match a with
                     | Invoke rq => [rq]
                     | Complete _ _ => []
                     end) acts.

(** The sequence numbers [memcache.pushTransaction] handed out for the
    database [dbId], oldest first. *)
Definition handed_out (dbId : value) (events : list event) : list value :=
  flat_map (fun e => match e with
                     | Called (memcache_pushTransaction transaction) numbered =>
                         if decide (read transaction "database-id" = dbId)
                         then [read numbered "sequence-no"]
                         else []
                     | _ => []
                     end) events.

Definition idle (w : world) : system := System w [] [] 0.

(** ** Vocabulary of the statements *)

(** The world of the scenarios of section 8: database D1 of owner U1,
    name hash H1 and key K1, just created. *)
Definition D1 : value := VStr "D1".
Definition U1 : value := VStr "U1".

Definition created_D1 : world :=
  world_of (run (createDatabase U1 (VStr "H1") D1 (VStr "name") (VStr "K1") VUndefined)
              [] empty_world).

(** An operation of a batch lacks a required field. *)
Definition missing_field (operation : value) : bool :=
  falsy (read operation "itemKey") || falsy (read operation "encryptedItem")
  || falsy (read operation "command").



(** [getBundle] and [bundleTransactionLog] take a sequence number for
    present when it is truthy or is 0. *)
Definition present (bundleSeqNo : value) : Prop :=
  truthy bundleSeqNo = true \/ bundleSeqNo = VNum (Int 0).

(** The Database and UserDatabase records [createDatabase] writes. *)
Definition Database_record (userId dbId encryptedDbName encryptedMetadata : value) : value :=
  VObj [ ("database-id", dbId); ("owner-id", userId);
         ("database-name", encryptedDbName); ("metadata", encryptedMetadata) ].

Definition UserDatabase_record (userId dbNameHash dbId encryptedDbKey : value) : value :=
  VObj [ ("user-id", userId); ("database-name-hash", dbNameHash);
         ("database-id", dbId); ("encrypted-db-key", encryptedDbKey) ].

(** The slot of the log a transaction occupies, and the rollback marker
    [rollbackTransaction] builds for it. *)
Definition slot (transaction : value) : table * list value :=
  (transactionsTable,
   [marshal (read transaction "database-id"); marshal (read transaction "sequence-no")]).

Definition rollback_marker (transaction : value) : value :=
  VObj [ ("database-id", read transaction "database-id");
         ("sequence-no", read transaction "sequence-no");
         ("item-id", read transaction "item-id");
         ("command", VStr "rollback") ].

Definition rollback_put (transaction : value) : io :=
  ddb_put (Put transactionsTable (rollback_marker transaction)
             (cond_or (attribute_not_exists "database-id")
                      (attribute_is "command" (VStr "rollback")))).

(** What [rollbackTransaction] does once it has read the database-id,
    the sequence-no and the item-id of its transaction. *)
Definition rollback_write (transaction : value) : prog unit :=
  try
    await (rollback_put transaction) ;;
    call (memcache_transactionRolledBack (rollback_marker transaction)) ;;
    Ret tt
  catch e =>
    if String.eqb (name e) "ConditionalCheckFailedException" then
      call (memcache_transactionPersistedToDdb transaction) ;;
      call (logger_info "Failed to rollback -- transaction already persisted to disk") ;;
      Ret tt
    else
      call (logger_warn ("Failed to rollback with " +:+ error_to_string e)) ;;
      Ret tt.

(** A slot a rollback marker may be written to: it is empty, or the
    record in it has the command [rollback]. *)
Definition open_to_rollback (w : world) (transaction : value) : Prop :=
  ddb w !! slot transaction = None \/
  exists item, ddb w !! slot transaction = Some item /\
               read item "command" = VStr "rollback".

(** *** Commits *)

(** What [batch] keeps of an operation, and an operation it accepts. *)
Definition entry (operation : value) : value :=
  VObj [ ("key", read operation "itemKey");
         ("record", read operation "encryptedItem");
         ("command", read operation "command") ].

Definition complete (operation : value) : bool :=
  negb (nullish operation) && negb (missing_field operation).



(** A commit request that passes the validation of [doCommand] or of
    [batch] (the operations being an array): the name the error message
    gives the command, the transaction that is committed, and the user. *)
Definition accepted (rq : request) : option (string * value * value) :=
  match rq with
  | DoCommand command userId databaseId key record =>
      if truthy databaseId && truthy key && truthy record
      then Some (ToString command,
                 VObj [ ("database-id", databaseId); ("key", key);
                        ("command", command); ("record", record) ],
                 userId)
      else None
  | Batch userId databaseId (VArr (op :: ops)) =>
      if truthy databaseId && forallb complete (op :: ops)
      then Some ("batch",
                 VObj [ ("database-id", databaseId); ("command", VStr "Batch");
                        ("operations", VArr (List.map entry (op :: ops))) ],
                 userId)
      else None
  | Batch _ _ _ => None
  end.

(** The number a transaction gets and the transaction with its number,
    as [memcache.pushTransaction] returns it in the world [w]. *)
Definition number_in (w : world) (transaction : value) : value :=
  VNum (Int (next_of w (read transaction "database-id"))).

Definition numbered_in (w : world) (transaction : value) : value :=
  with_prop transaction "sequence-no" (number_in w transaction).

(** The guarded write of [putTransaction]. *)
Definition commit_put (numbered : value) : io :=
  ddb_put (Put transactionsTable numbered (attribute_not_exists "database-id")).

(** The message [putTransaction] logs when the write of [numbered] fails
    with [e], and the error it throws. *)
Definition rolling_back (numbered : value) (e : error) : string :=
  "Transaction " +:+ ToString (read numbered "sequence-no")
  +:+ " failed with " +:+ error_to_string e +:+ "! Rolling back...".

Definition commit_failure (e : error) : error :=
  Error ("Failed with " +:+ error_to_string e +:+ ".").

(** What [doCommand] and [batch] do with a transaction once their
    validation has passed. *)
Definition commit (label : string) (transaction userId : value) : prog response :=
  try
    sequenceNo <- putTransaction transaction userId ;;
    Ret (successResponse (VObj [("sequenceNo", sequenceNo)]))
  catch e =>
    Ret (errorResponse Internal_Server_Error
           ("Failed to " +:+ label +:+ " with " +:+ error_to_string e)).

(** *** Interleaved commits *)

(** A piece of code that leaves the counters of the Sequencer alone and
    hands out no number for the database [D]. *)
Definition calm (D : value) (w w' : world) : Prop :=
  nextSeqNo w' = nextSeqNo w /\
  exists events, trace w' = trace w ++ events /\ handed_out D events = [].

(** A suspended background function that, once its request settles,
    runs calmly to its end and starts nothing. *)
Definition settles_quietly (D : value) (p : pending unit) : Prop :=
  match p with
  | Finished _ => True
  | Awaiting _ k =>
      forall r w, exists c w', exec (k r) w = (Finished c, w', []) /\ calm D w w'
  end.

(** A suspended commit call that, once its request settles, runs calmly
    to a response; when it holds the number [n], a success response
    carries [n]. *)
Definition answers (D : value) (ticket : option Z) (p : pending response) : Prop :=
  match p with
  | Finished _ => True
  | Awaiting _ k =>
      forall r w, exists resp w' bs,
        exec (k r) w = (Finished (Returned resp), w', bs) /\
        calm D w w' /\
        Forall (settles_quietly D) bs /\
        match ticket with
        | Some n =>
            forall d, resp = successResponse d ->
                      d = VObj [("sequenceNo", VNum (Int n))]
        | None => True
        end
  end.

(** The invariant of a schedule started in [w0]: [rqs] are the requests
    invoked so far and [tickets] pairs the callers that commit to [D]
    with the numbers they were handed, oldest first. *)
Definition thread_ok (D : value) (rqs : list request) (tickets : list (nat * Z))
    (th : thread) : Prop :=
  match th with
  | Caller id p =>
      exists rq, rqs !! id = Some rq /\
        if decide (database_of rq = D)
        then exists n, (id, n) ∈ tickets /\ answers D (Some n) p
        else answers D None p
  | Background p => settles_quietly D p
  end.

Definition reply_ok (D : value) (rqs : list request) (tickets : list (nat * Z))
    (reply : nat * completion response) : Prop :=
  exists rq, rqs !! fst reply = Some rq /\
    forall d,
      snd reply = Returned (successResponse d) ->
      database_of rq = D ->
      exists n, (fst reply, n) ∈ tickets /\ d = VObj [("sequenceNo", VNum (Int n))].

Definition counted (D : value) (w0 : world) (tickets : list (nat * Z)) (w : world)
  : Prop :=
  next_of w0 D <= next_of w D
  /\ snd <$> tickets = seqZ (next_of w0 D) (next_of w D - next_of w0 D)
  /\ exists events, trace w = trace w0 ++ events /\
        handed_out D events = (fun t => VNum (Int (snd t))) <$> tickets.

Definition consistent (D : value) (w0 : world) (rqs : list request)
    (tickets : list (nat * Z)) (s : system) : Prop :=
  issued s = length rqs
  /\ counted D w0 tickets (env s)
  /\ Forall (thread_ok D rqs tickets) (waiting s)
  /\ Forall (reply_ok D rqs tickets) (replies s).

(** D1 after [bundleTransactionLog(D1, 5, "snapshotA")]. *)
Definition bundled_D1 : world :=
  world_of (run (bundleTransactionLog D1 (VNum (Int 5)) (VStr "snapshotA")) [] created_D1).

Definition insert_k : request :=
  DoCommand (VStr "Insert") U1 D1 (VStr "k") (VStr "r1").

Definition insert_k_transaction : value :=
  VObj [ ("database-id", D1); ("key", VStr "k");
         ("command", VStr "Insert"); ("record", VStr "r1") ].

(** D1 after a first commit whose write landed although its reply was
    lost, and the transaction that is then in slot 1. *)
Definition lost_reply_D1 : world :=
  world_of (run (body insert_k) [Fault (Error "timeout") true] created_D1).

Definition insert_k_numbered : value :=
  VObj [ ("database-id", D1); ("key", VStr "k");
         ("command", VStr "Insert"); ("record", VStr "r1");
         ("sequence-no", VNum (Int 1)) ].

(** *** Creating and opening *)

(** The transactional write of [createDatabase]. *)
Definition createDatabase_write
    (userId dbNameHash dbId encryptedDbName encryptedDbKey encryptedMetadata : value) : io :=
  ddb_transactWrite [
    Put databaseTable (Database_record userId dbId encryptedDbName encryptedMetadata)
      (attribute_not_exists "database-id");
    Put userDatabaseTable (UserDatabase_record userId dbNameHash dbId encryptedDbKey)
      (attribute_not_exists "user-id") ].

(** What a lookup of [db.js] makes of the answer of the store: the item
    stored under the key, [null] when there is none or it is falsy. *)
Definition found (stored : option value) : value :=
  match stored with
  | Some item => if truthy item then item else VNull
  | None => VNull
  end.

(** The two lookups of [getDatabase]. *)
Definition alias_lookup (userId dbNameHash : value) : io :=
  ddb_get userDatabaseTable
    (VObj [("user-id", userId); ("database-name-hash", dbNameHash)]).

Definition database_lookup (dbId : value) : io :=
  ddb_get databaseTable (VObj [("database-id", dbId)]).

(** A lookup in the trace: a settled [get] of the document client. *)
Definition lookup_event (ev : event) : Prop :=
  match ev with
  | Completed (ddb_get _ _) _ => True
  | _ => False
  end.

(** The item of a [get] response, [null] when the response has none. *)
Definition item_of (response : value) : value :=
  if falsy response || falsy (read response "Item") then VNull
  else read response "Item".

(** The responses of [openDatabase] past its validation. *)
Definition opening_failure (e : error) : response :=
  errorResponse Internal_Server_Error
    ("Failed to create database with " +:+ error_to_string e).

Section Opened.
Context `{Connections}.

(** What [openDatabase] answers once [getDatabase] has returned
    [database]. *)
Definition opened (userId connectionId dbNameHash database : value) : response :=
  if truthy (connections_openDatabase userId connectionId
               (read database "database-id") (read database "bundle-seq-no")
               dbNameHash (read database "encrypted-db-key"))
  then successResponse (VStr "Success!")
  else opening_failure (Error "Unable to open database").
End Opened.

(** *** Batches *)

(** The field [batch] reports for an operation that lacks one: it tests
    the key first, then the record, then the command. *)
Definition lacking (operation : value) : string :=
  if falsy (read operation "itemKey") then "item key"
  else if falsy (read operation "encryptedItem") then "record"
  else "command".

(** *** Bundling *)

(** The upload of [bundleTransactionLog] and the responses of its
    checks. *)
Definition bundle_upload (databaseId bundleSeqNo bundle : value) : io :=
  s3_upload (getS3DbStateKey databaseId bundleSeqNo) bundle.

Definition bundle_failure (e : error) : response :=
  errorResponse Internal_Server_Error ("Failed to bundle with " +:+ error_to_string e).

Definition stale_bundle : response :=
  errorResponse Bad_Request "Bundle sequence no must be greater than current bundle".

(** A stored bundle pointer that a bundle for the number [M] may
    replace: there is none yet, or it is a smaller number. *)
Definition behind (pointer : value) (M : Z) : Prop :=
  pointer = VUndefined \/ exists N, pointer = VNum (Int N) /\ N < M.

(** Whether the character [c] occurs in [s]. *)
Fixpoint occurs (c : ascii) (s : string) : bool :=
  match s with
  | EmptyString => false
  | String a rest => Ascii.eqb a c || occurs c rest
  end.

(** *** Calls one after another *)

(** A call of one of the functions [db.js] exports. *)
Inductive api_call : Type :=
  | CreateDatabase
      (userId dbNameHash dbId encryptedDbName encryptedDbKey encryptedMetadata : value)
  | FindDatabaseByDatabaseId (dbId : value)
  | OpenDatabase (userId connectionId dbNameHash : value)
  | RollbackTransaction (transaction : value)
  | Commit (rq : request)
  | BundleTransactionLog (databaseId seqNo bundle : value)
  | GetBundle (databaseId bundleSeqNo : value).

Section Serving.
Context `{Builtins} `{Connections}.

(** The world after a call that ran to its end with nothing else in
    between, its requests settling as [os] says. *)
Definition serve (c : api_call) (os : list outcome) (w : world) : world :=
  match c with
  | CreateDatabase userId dbNameHash dbId encryptedDbName encryptedDbKey
      encryptedMetadata =>
      world_of (run (createDatabase userId dbNameHash dbId encryptedDbName
                       encryptedDbKey encryptedMetadata) os w)
  | FindDatabaseByDatabaseId dbId => world_of (run (findDatabaseByDatabaseId dbId) os w)
  | OpenDatabase userId connectionId dbNameHash =>
      world_of (run (openDatabase userId connectionId dbNameHash) os w)
  | RollbackTransaction transaction =>
      world_of (run (rollbackTransaction transaction) os w)
  | Commit rq => world_of (run (body rq) os w)
  | BundleTransactionLog databaseId seqNo bundle =>
      world_of (run (bundleTransactionLog databaseId seqNo bundle) os w)
  | GetBundle databaseId bundleSeqNo =>
      world_of (run (getBundle databaseId bundleSeqNo) os w)
  end.

(** Calls served one after the other.  The rollback that a failed
    commit starts in the background is a call of [rollbackTransaction]
    of its own, somewhere later in the sequence. *)
Definition serve_all (cs : list (api_call * list outcome)) (w : world) : world :=
  foldl (fun w' c => serve (fst c) (snd c) w') w cs.
End Serving.

(** The attributes of a Database record after some calls, against those
    it had before: the bundle-seq-no is as it was or a number that the
    old one is [behind], every other attribute is as it was. *)
Definition advanced (fields fields' : list (string * value)) : Prop :=
  (forall attr, attr <> "bundle-seq-no" -> assoc attr fields' = assoc attr fields)
  /\ (assoc "bundle-seq-no" fields' = assoc "bundle-seq-no" fields
      \/ exists M, assoc "bundle-seq-no" fields' = VNum (Int M)
                   /\ behind (assoc "bundle-seq-no" fields) M).

(** The ways a call changes what the tables hold under a key: not at
    all; by filling an empty slot; by overwriting a rollback marker of
    the log; by setting the bundle-seq-no of a Database record that is
    behind the new number. *)
Definition slot_change (t : table) (before after : option value) : Prop :=
  after = before
  \/ before = None
  \/ (t = transactionsTable
      /\ exists item, before = Some item /\ read item "command" = VStr "rollback")
  \/ (t = databaseTable
      /\ exists existing key M,
           before = Some existing
           /\ behind (read existing "bundle-seq-no") M
           /\ after = Some (set_attribute (Some existing) key "bundle-seq-no"
                              (VNum (Int M)))).

(** A call that does not bundle for a database whose id prints like
    that of [databaseId] without being it. *)
Definition apart (databaseId : value) (c : api_call * list outcome) : Prop :=
  match fst c with
  | BundleTransactionLog other _ _ =>
      other = databaseId \/ ToString other <> ToString databaseId
  | _ => True
  end.

(** *** Examples *)

(** A registry that binds every connection, used to evaluate the model
    on examples. *)
Definition accepting : Connections :=
  {| connections_openDatabase := fun _ _ _ _ _ _ => VBool true |}.

(** The records of D1 as [createDatabase] stores them: D1 was created
    without metadata. *)
Definition D1_alias : list (string * value) :=
  [ ("user-id", U1); ("database-name-hash", VStr "H1");
    ("database-id", D1); ("encrypted-db-key", VStr "K1") ].

Definition D1_record : list (string * value) :=
  [ ("database-id", D1); ("owner-id", U1); ("database-name", VStr "name") ].

(** D1 after a restart of the server that came after [lost_reply_D1]:
    the stores are as they were, the Sequencer has no counter for D1
    and starts again from the first number. *)
Definition restarted_D1 : world :=
  World (ddb lost_reply_D1) (s3 lost_reply_D1) ∅ ∅ ∅ [].

(** Two operations of a batch. *)
Definition insert_a : value :=
  VObj [ ("itemKey", VStr "a"); ("encryptedItem", VStr "ra"); ("command", VStr "Insert") ].

Definition keyless : value :=
  VObj [ ("encryptedItem", VStr "rb"); ("command", VStr "Delete") ].



(** * Properties *)

Section Properties.
Context `{Builtins}.

(** ** Requests *)

Lemma do_io_unfold (c : io) (o : outcome) (w : world) :
  do_io c o w
  = (fst (settle c o w), emit (Completed c (fst (settle c o w))) (snd (settle c o w))).
Proof. unfold do_io. destruct (settle c o w); reflexivity. Qed.

Lemma do_sync_trace (c : sync) (w : world) :
  trace (snd (do_sync c w)) = trace w ++ [Called c (fst (react c w))].
Proof. destruct c; reflexivity. Qed.

Lemma do_sync_ddb (c : sync) (w : world) : ddb (snd (do_sync c w)) = ddb w.
Proof. destruct c; reflexivity. Qed.

Lemma do_sync_s3 (c : sync) (w : world) : s3 (snd (do_sync c w)) = s3 w.
Proof. destruct c; reflexivity. Qed.

Lemma settle_trace (c : io) (o : outcome) (w : world) :
  trace (snd (settle c o w)) = trace w.
Proof.
  destruct o as [|e [|]], c; simpl; try reflexivity.
  all: repeat match goal with
         | |- context [if ?b then _ else _] => destruct b; simpl
         | |- context [match ?x with _ => _ end] => destruct x; simpl
         end; reflexivity.
Qed.

Lemma do_io_trace (c : io) (o : outcome) (w : world) :
  trace (snd (do_io c o w)) = trace w ++ [Completed c (fst (settle c o w))].
Proof.
  unfold do_io. pose proof (settle_trace c o w) as Ht.
  destruct (settle c o w) as [r w']. simpl in *. rewrite Ht. reflexivity.
Qed.

Lemma do_io_ddb (c : io) (o : outcome) (w : world) :
  ddb (snd (do_io c o w)) = ddb (snd (settle c o w)).
Proof. unfold do_io. destruct (settle c o w) as [r w']. reflexivity. Qed.


(** ** Marshalling *)

Lemma marshal_idempotent : forall v : value, marshal (marshal v) = marshal v.
Proof.
  fix marshal_idempotent 1. intros v.
  destruct v as [| |b|n|s|fields|items|bytes]; cbn [marshal]; try reflexivity.
  - f_equal. induction fields as [|[k x] fields IHf]; [reflexivity|].
    pose proof (marshal_idempotent x) as IHx.
    destruct x; cbn [kept marshal] in *; fold (kept marshal); rewrite ?IHf, ?IHx;
      reflexivity.
  - f_equal. induction items as [|x items IHi]; [reflexivity|].
    cbn [List.map]. rewrite marshal_idempotent, IHi. reflexivity.
Qed.

Lemma kept_defined (k : string) (x : value) (rest : list (string * value)) :
  x <> VUndefined ->
  kept marshal ((k, x) :: rest) = (k, marshal x) :: kept marshal rest.
Proof. destruct x; [contradiction|reflexivity..]. Qed.

Lemma marshal_undefined (v : value) : marshal v = VUndefined <-> v = VUndefined.
Proof. destruct v; cbn [marshal]; split; congruence. Qed.

Lemma truthy_marshal (v : value) : truthy (marshal v) = truthy v.
Proof. destruct v; reflexivity. Qed.

Lemma assoc_absent (name : string) (fields : list (string * value)) :
  name ∉ fields.*1 -> assoc name fields = VUndefined.
Proof.
  induction fields as [|[k v] fields IH]; cbn [assoc fmap list_fmap fst]; [reflexivity|].
  intros Hnot. apply not_elem_of_cons in Hnot as [Hne Hnot].
  destruct (String.eqb k name) eqn:E; [|apply IH; exact Hnot].
  apply String.eqb_eq in E. congruence.
Qed.

Lemma kept_names (name : string) (fields : list (string * value)) :
  name ∈ (kept marshal fields).*1 -> name ∈ fields.*1.
Proof.
  induction fields as [|[k x] fields IH]; [auto|].
  destruct (decide (x = VUndefined)) as [->|Hx].
  - intros Hin. apply elem_of_cons. right. apply IH. exact Hin.
  - rewrite kept_defined by exact Hx. cbn [fmap list_fmap fst].
    rewrite !elem_of_cons. intros [->|Hin]; [left; reflexivity|right; apply IH; exact Hin].
Qed.

(** Reading an attribute of a marshalled object: the marshalled value of
    the attribute, [undefined] when it was left out. *)
Lemma read_marshal (fields : list (string * value)) (name : string) :
  NoDup fields.*1 ->
  read (marshal (VObj fields)) name = marshal (assoc name fields).
Proof.
  cbn [marshal read].
  induction fields as [|[k x] fields IH]; [reflexivity|].
  cbn [fmap list_fmap fst]. intros Hnd. apply NoDup_cons in Hnd as [Hk Hnd].
  destruct (decide (x = VUndefined)) as [->|Hx].
  - cbn [kept assoc]. fold (kept marshal fields).
    destruct (String.eqb k name) eqn:E; [|apply IH; exact Hnd].
    apply String.eqb_eq in E. subst k. apply assoc_absent.
    intros Hin. apply Hk. apply kept_names. exact Hin.
  - rewrite kept_defined by exact Hx. cbn [assoc].
    destruct (String.eqb k name); [reflexivity|apply IH; exact Hnd].
Qed.

(** Whether a marshalled object has an attribute. *)
Lemma marshalled_names (fields : list (string * value)) (name : string) :
  NoDup fields.*1 ->
  name ∈ (kept marshal fields).*1 <-> assoc name fields <> VUndefined.
Proof.
  induction fields as [|[k x] fields IH]; cbn [fmap list_fmap fst].
  - intros _. cbn. split; [intros Hin; inversion Hin|congruence].
  - intros Hnd. apply NoDup_cons in Hnd as [Hk Hnd]. cbn [assoc].
    destruct (decide (x = VUndefined)) as [->|Hx].
    + cbn [kept]. fold (kept marshal fields).
      destruct (String.eqb k name) eqn:E.
      * apply String.eqb_eq in E. subst k. split; [|congruence].
        intros Hin. exfalso. apply Hk. apply kept_names. exact Hin.
      * apply IH. exact Hnd.
    + rewrite kept_defined by exact Hx. cbn [fmap list_fmap fst].
      rewrite elem_of_cons.
      destruct (String.eqb k name) eqn:E.
      * apply String.eqb_eq in E. subst k. split; [intros _; exact Hx|left; reflexivity].
      * apply String.eqb_neq in E. rewrite <- (IH Hnd).
        split; [intros [Heq|Hin]; [congruence|exact Hin]|right; assumption].
Qed.

(** ** Text and bytes *)







(** ** Validation *)

Lemma iterations_length (items : list value) :
  iterations (read (VArr items) "length") = length items.
Proof. unfold iterations. simpl. apply Nat2Z.id. Qed.

Lemma batch_loop_stops (good : list value) (bad : value) :
  forall (before rest acc : list value),
  forallb complete good = true -> complete bad = false ->
  batch_loop (VArr (before ++ good ++ bad :: rest)) (length (good ++ bad :: rest))
    (length before) acc
  = if nullish bad
    then Throw (TypeError ("Cannot read property 'itemKey' of " +:+ ToString bad))
    else Ret (inl (errorResponse Bad_Request
                     ("Operation " +:+ pretty (length before + length good)%nat
                      +:+ " missing " +:+ lacking bad))).
Proof.
  induction good as [|op good IH]; intros before rest acc Hgood Hbad.
  - cbn [app]. change (length (bad :: rest)) with (S (length rest)). cbn [batch_loop].
    assert (Hi : index (VArr (before ++ bad :: rest)) (length before) = bad).
    { simpl. rewrite app_nth2 by lia.
      replace (length before - length before)%nat with 0%nat by lia. reflexivity. }
    rewrite Hi. unfold prop. cbn [length]. rewrite Nat.add_0_r.
    destruct (nullish bad) eqn:Hnull; cbn [bind]; [reflexivity|].
    unfold complete in Hbad. rewrite Hnull in Hbad. cbn [negb andb] in Hbad.
    apply negb_false_iff in Hbad. unfold missing_field in Hbad. unfold lacking.
    destruct (falsy (read bad "itemKey")); [reflexivity|].
    destruct (falsy (read bad "encryptedItem")); [reflexivity|].
    cbn [orb] in Hbad. rewrite Hbad. reflexivity.
  - cbn [app]. change (length (op :: good ++ bad :: rest))
      with (S (length (good ++ bad :: rest))). cbn [batch_loop].
    assert (Hi : index (VArr (before ++ op :: good ++ bad :: rest)) (length before) = op).
    { simpl. rewrite app_nth2 by lia.
      replace (length before - length before)%nat with 0%nat by lia. reflexivity. }
    rewrite Hi. cbn [forallb] in Hgood. apply andb_prop in Hgood as [Hop Hgood].
    unfold complete in Hop. apply andb_prop in Hop as [Hnn Hfields].
    apply negb_true_iff in Hnn, Hfields.
    unfold prop. rewrite Hnn. cbn [bind].
    unfold missing_field in Hfields.
    apply orb_false_elim in Hfields as [Hfields Hc].
    apply orb_false_elim in Hfields as [Hk Hr].
    rewrite Hk, Hr, Hc.
    specialize (IH (before ++ [op]) rest
                  (acc ++ [VObj [("key", read op "itemKey");
                                 ("record", read op "encryptedItem");
                                 ("command", read op "command")]])
                  Hgood Hbad).
    rewrite <- app_assoc in IH. cbn [app] in IH.
    replace (length (before ++ [op])) with (S (length before)) in IH
      by (rewrite length_app; cbn [length]; lia).
    rewrite IH. cbn [length].
    replace (S (length before) + length good)%nat
      with (length before + S (length good))%nat by lia.
    reflexivity.
Qed.

Lemma batch_enters_the_loop (userId databaseId : value) (ops : list value) :
  truthy databaseId = true -> ops <> [] ->
  batch userId databaseId (VArr ops)
  = (looped <- batch_loop (VArr ops) (length ops) 0 [] ;;
     match looped with
     | inl early => Ret early
     | inr entries =>
         commit "batch"
           (VObj [ ("database-id", databaseId); ("command", VStr "Batch");
                   ("operations", VArr entries) ]) userId
     end).
Proof.
  intros Hdb Hops. unfold batch, falsy. rewrite Hdb. cbn [negb]. cbv iota.
  rewrite iterations_length.
  destruct ops as [|op ops]; [contradiction|]. reflexivity.
Qed.





(** C10. When the fetch of [getBundle] fails with an error [e], the
    response is Not Found exactly when [e.statusCode] is 404 and
    [e.message] is the text "Not Found"; every other failure, a 404 with
    another message included, is an Internal Server Error. *)
Theorem getBundle_classifies_fetch_failure
    (databaseId bundleSeqNo : value) (e : error) (o : outcome)
    (os : list outcome) (w : world) :
  present bundleSeqNo ->
  fst (settle (s3_getObject (getS3DbStateKey databaseId bundleSeqNo)) o w) = inl e ->
  result_of (run (getBundle databaseId bundleSeqNo) (o :: os) w)
  = Returned (inl (errorResponse
                     (if bool_decide (statusCode e = VNum (Int 404)
                                      /\ message e = "Not Found")
                      then Not_Found else Internal_Server_Error)
                     ("Failed to query db state with " +:+ message e))).
Proof.
  intros Hpresent Hfetch. unfold getBundle.
  assert (Hvalid : falsy bundleSeqNo && negb (strict_equals bundleSeqNo (VNum (Int 0)))
                   = false).
  { destruct Hpresent as [Ht| ->]; [|reflexivity].
    unfold falsy. rewrite Ht. reflexivity. }
  rewrite Hvalid. cbn -[settle getS3DbStateKey]. unfold do_io.
  destruct (settle _ o w) as [r w'] eqn:Hs. simpl in Hfetch. subst r.
  cbn -[getS3DbStateKey].
  destruct (strict_equals (statusCode e) (VNum (Int 404))) eqn:Hcode;
    destruct (String.eqb (message e) "Not Found") eqn:Hmsg; cbn;
    unfold result_of; cbn.
  all: case_bool_decide as Hd; try reflexivity.
  all: exfalso.
  - apply Hd. apply String.eqb_eq in Hmsg. split; [|exact Hmsg].
    destruct (statusCode e) as [| | |[|z]| | | |]; try discriminate.
    simpl in Hcode. apply Z.eqb_eq in Hcode. subst. reflexivity.
  - destruct Hd as [_ Hd]. apply String.eqb_neq in Hmsg. contradiction.
  - destruct Hd as [Hd _]. rewrite Hd in Hcode. discriminate.
  - destruct Hd as [Hd _]. rewrite Hd in Hcode. discriminate.
Qed.

(** ** Symbolic execution *)


(** C7 (as the code has it). The first step of [bundleTransactionLog]
    answers Bad Request exactly when [Number(seqNo)] is [NaN]; a seqNo
    that converts to a number, a negative one included, passes it and
    the call goes on to look the database up. *)
Theorem validation_rejects_exactly_NaN (databaseId seqNo bundle : value) (w : world) :
  match Number seqNo with
  | NaN =>
      forall os,
        run (bundleTransactionLog databaseId seqNo bundle) os w
        = (Returned (errorResponse Bad_Request "Missing bundle sequence number"), w, [])
  | Int _ =>
      exists k,
        exec (bundleTransactionLog databaseId seqNo bundle) w
        = (Awaiting (ddb_get databaseTable (VObj [("database-id", databaseId)])) k, w, [])
  end.
Proof.
  unfold bundleTransactionLog. destruct (Number seqNo) as [|z].
  - intros os. reflexivity.
  - assert (Hpass : falsy (VNum (Int z))
                    && negb (strict_equals (VNum (Int z)) (VNum (Int 0))) = false).
    { unfold falsy. simpl. destruct (z =? 0); reflexivity. }
    rewrite Hpass. eexists. reflexivity.
Qed.

(** ** createDatabase *)

Lemma key_guard (t : table) (item : value) (attr : string) (w : world) :
  attr ∈ key_schema t ->
  put_allowed w (Put t item (attribute_not_exists attr))
  = bool_decide (ddb w !! (t, key_of t item) = None).
Proof.
  intros Hkey. unfold put_allowed, item_at. simpl.
  destruct (ddb w !! (t, key_of t item)) as [existing|]; [|reflexivity].
  rewrite (bool_decide_eq_true_2 _ Hkey). reflexivity.
Qed.

Lemma createDatabase_symbolic
    (userId dbNameHash dbId encryptedDbName encryptedDbKey encryptedMetadata : value)
    (o : outcome) (os : list outcome) (w : world) :
  truthy dbNameHash = true -> truthy dbId = true ->
  truthy encryptedDbName = true -> truthy encryptedDbKey = true ->
  let write := createDatabase_write userId dbNameHash dbId encryptedDbName
                 encryptedDbKey encryptedMetadata in
  run (createDatabase userId dbNameHash dbId encryptedDbName encryptedDbKey
         encryptedMetadata) (o :: os) w
  = match fst (settle write o w) with
    | inr _ =>
        (Returned (successResponse (VStr "Success!")),
         snd (do_sync (memcache_initTransactionLog dbId) (snd (do_io write o w))), [])
    | inl e =>
        (Returned
           (if negb (String.eqb (message e) "")
               && includes "ConditionalCheckFailed" (message e)
            then errorResponse Conflict "Database already exists"
            else errorResponse Internal_Server_Error
                   ("Failed to create database with " +:+ error_to_string e)),
         snd (do_io write o w), [])
    end.
Proof.
  intros Hhash Hid Hname Hkey write. unfold createDatabase, falsy.
  rewrite Hhash, Hid, Hname, Hkey. cbn [negb]. cbv iota.
  fold (Database_record userId dbId encryptedDbName encryptedMetadata).
  fold (UserDatabase_record userId dbNameHash dbId encryptedDbKey).
  fold (createDatabase_write userId dbNameHash dbId encryptedDbName encryptedDbKey
          encryptedMetadata). fold write.
  cbn [run try_catch bind await hd tl]. unfold do_io.
  destruct (settle write o w) as [[e|v] w1]; cbn [fst snd run try_catch bind call do_sync react].
  - destruct (negb (String.eqb (message e) "") && includes "ConditionalCheckFailed" (message e));
      reflexivity.
  - reflexivity.
Qed.

Lemma createDatabase_write_answered
    (userId dbNameHash dbId encryptedDbName encryptedDbKey encryptedMetadata : value)
    (w : world) :
  let database_slot := (databaseTable, [marshal dbId]) in
  let alias_slot := (userDatabaseTable, [marshal userId; marshal dbNameHash]) in
  let database := marshal (Database_record userId dbId encryptedDbName encryptedMetadata) in
  let userDatabase := marshal (UserDatabase_record userId dbNameHash dbId encryptedDbKey) in
  process (createDatabase_write userId dbNameHash dbId encryptedDbName encryptedDbKey
             encryptedMetadata) w
  = if bool_decide (ddb w !! database_slot = None) && bool_decide (ddb w !! alias_slot = None)
    then (inr (VObj []),
          with_ddb (<[alias_slot := userDatabase]> (<[database_slot := database]> (ddb w))) w)
    else (inl (TransactionCanceledException
                 [bool_decide (ddb w !! database_slot = None);
                  bool_decide (ddb w !! alias_slot = None)]), w).
Proof.
  intros database_slot alias_slot database userDatabase.
  unfold createDatabase_write. cbn [process map].
  rewrite !key_guard by (repeat constructor).
  change (key_of databaseTable (Database_record userId dbId encryptedDbName encryptedMetadata))
    with [marshal dbId].
  change (key_of userDatabaseTable
            (UserDatabase_record userId dbNameHash dbId encryptedDbKey))
    with [marshal userId; marshal dbNameHash].
  fold database_slot alias_slot.
  cbn [forallb id]. rewrite andb_true_r.
  destruct (bool_decide (ddb w !! database_slot = None) &&
            bool_decide (ddb w !! alias_slot = None)); reflexivity.
Qed.

Lemma cancellation_is_a_conflict (a b : bool) :
  a && b = false ->
  negb (String.eqb (message (TransactionCanceledException [a; b])) "")
  && includes "ConditionalCheckFailed" (message (TransactionCanceledException [a; b]))
  = true.
Proof. destruct a, b; try discriminate; intros _; vm_compute; reflexivity. Qed.

(** C6. [createDatabase] writes the Database record and the
    UserDatabase record in one transaction.  When the store answers
    and neither the database id nor the owner's alias is taken, both
    records are stored, as the document client marshals them, and
    the response is "Success!".  When the store answers and a record
    is stored under the database id, or under the alias, the response
    is Conflict and the tables are unchanged.  Whatever the store
    does, afterwards either both records are stored, and then neither
    key was taken before, or the tables are as they were; a failure of
    the store whose message does not mention a failed condition gives
    an Internal Server Error. *)
Theorem createDatabase_atomic_and_guarded
    (userId dbNameHash dbId encryptedDbName encryptedDbKey encryptedMetadata : value)
    (o : outcome) (os : list outcome) (w : world) :
  truthy dbNameHash = true -> truthy dbId = true ->
  truthy encryptedDbName = true -> truthy encryptedDbKey = true ->
  let database_slot := (databaseTable, [marshal dbId]) in
  let alias_slot := (userDatabaseTable, [marshal userId; marshal dbNameHash]) in
  let database := marshal (Database_record userId dbId encryptedDbName encryptedMetadata) in
  let userDatabase := marshal (UserDatabase_record userId dbNameHash dbId encryptedDbKey) in
  let both := <[alias_slot := userDatabase]> (<[database_slot := database]> (ddb w)) in
  let done :=
    run (createDatabase userId dbNameHash dbId encryptedDbName encryptedDbKey
           encryptedMetadata) (o :: os) w in
  (o = Answer -> ddb w !! database_slot = None -> ddb w !! alias_slot = None ->
   result_of done = Returned (successResponse (VStr "Success!"))
   /\ ddb (world_of done) = both)
  /\ (o = Answer -> is_Some (ddb w !! database_slot) \/ is_Some (ddb w !! alias_slot) ->
      result_of done = Returned (errorResponse Conflict "Database already exists")
      /\ ddb (world_of done) = ddb w)
  /\ (ddb (world_of done) = ddb w \/
      (ddb w !! database_slot = None /\ ddb w !! alias_slot = None /\
       ddb (world_of done) = both))
  /\ (forall e applied,
        o = Fault e applied ->
        includes "ConditionalCheckFailed" (message e) = false ->
        result_of done
        = Returned (errorResponse Internal_Server_Error
                      ("Failed to create database with " +:+ error_to_string e))).
Proof.
  intros Hhash Hid Hname Hkey database_slot alias_slot database userDatabase both done.
  subst done. rewrite createDatabase_symbolic by assumption.
  rewrite do_io_unfold.
  assert (Hwrite :
    process (createDatabase_write userId dbNameHash dbId encryptedDbName encryptedDbKey
               encryptedMetadata) w
    = if bool_decide (ddb w !! database_slot = None)
         && bool_decide (ddb w !! alias_slot = None)
      then (inr (VObj []), with_ddb both w)
      else (inl (TransactionCanceledException
                   [bool_decide (ddb w !! database_slot = None);
                    bool_decide (ddb w !! alias_slot = None)]), w))
    by apply createDatabase_write_answered.
  destruct o as [|e applied]; [|destruct applied]; cbn [settle]; rewrite ?Hwrite;
    destruct (bool_decide (ddb w !! database_slot = None)) eqn:Hd;
    destruct (bool_decide (ddb w !! alias_slot = None)) eqn:Ha;
    try apply bool_decide_eq_true_1 in Hd; try apply bool_decide_eq_false_1 in Hd;
    try apply bool_decide_eq_true_1 in Ha; try apply bool_decide_eq_false_1 in Ha;
    cbn [andb fst snd];
    rewrite ?(cancellation_is_a_conflict true false eq_refl),
            ?(cancellation_is_a_conflict false true eq_refl),
            ?(cancellation_is_a_conflict false false eq_refl);
    unfold result_of, world_of; cbn [fst snd do_sync react emit ddb with_ddb].
  all: repeat split; try (intros; discriminate); auto.
  all: try match goal with
         | Hsome : is_Some _ \/ is_Some _ |- _ =>
             destruct Hsome as [[item Hitem]|[item Hitem]]; congruence
         end.
  all: try (intros; congruence).
  all: try (intros e' applied' [= <- <-] Hmsg; rewrite Hmsg, andb_false_r; reflexivity).
Qed.

(** ** The rollback protocol *)

(** [rollbackTransaction] reads three fields of its transaction before
    anything else: a transaction that is [undefined] or [null] makes it
    throw, before any call. *)
Lemma rollbackTransaction_null (transaction : value) :
  nullish transaction = true ->
  rollbackTransaction transaction
  = Throw (TypeError ("Cannot read property 'database-id' of " +:+ ToString transaction)).
Proof. intros Hnull. unfold rollbackTransaction, prop. rewrite Hnull. reflexivity. Qed.

Lemma rollbackTransaction_object (transaction : value) :
  nullish transaction = false ->
  rollbackTransaction transaction = rollback_write transaction.
Proof. intros Hobject. unfold rollbackTransaction, prop. rewrite Hobject. reflexivity. Qed.

Lemma numbered_is_an_object (w : world) (transaction : value) :
  nullish (numbered_in w transaction) = false.
Proof. unfold numbered_in, with_prop. destruct transaction; reflexivity. Qed.

Lemma exec_rollback (transaction : value) (w : world) :
  nullish transaction = false ->
  exists k, exec (rollbackTransaction transaction) w
            = (Awaiting (rollback_put transaction) k, w, []).
Proof.
  intros Hobject. rewrite rollbackTransaction_object by exact Hobject.
  eexists. reflexivity.
Qed.

Lemma rollback_guard (transaction : value) (w : world) :
  holds transactionsTable
    (cond_or (attribute_not_exists "database-id")
             (attribute_is "command" (VStr "rollback")))
    (ddb w !! slot transaction) = true
  <-> open_to_rollback w transaction.
Proof.
  unfold open_to_rollback. destruct (ddb w !! slot transaction) as [item|]; simpl.
  - rewrite bool_decide_eq_true. split.
    + intros Hc. right. exists item. split; [reflexivity|exact Hc].
    + intros [Hn|(item' & Hi & Hc)]; [discriminate|]. congruence.
  - split; [intros _; left; reflexivity|reflexivity].
Qed.

(** The run of a rollback, by the way its write settles. *)
Lemma run_rollback (transaction : value) (o : outcome) (os : list outcome) (w : world) :
  nullish transaction = false ->
  let marker := rollback_marker transaction in
  let w1 := snd (do_io (rollback_put transaction) o w) in
  run (rollbackTransaction transaction) (o :: os) w
  = (Returned tt,
     match fst (settle (rollback_put transaction) o w) with
     | inr _ => snd (do_sync (memcache_transactionRolledBack marker) w1)
     | inl e =>
         if String.eqb (name e) "ConditionalCheckFailedException"
         then snd (do_sync
                     (logger_info "Failed to rollback -- transaction already persisted to disk")
                     (snd (do_sync (memcache_transactionPersistedToDdb transaction) w1)))
         else snd (do_sync (logger_warn ("Failed to rollback with " +:+ error_to_string e)) w1)
     end, []).
Proof.
  intros Hobject marker w1. subst w1 marker.
  rewrite rollbackTransaction_object by exact Hobject. unfold rollback_write.
  cbn [run try_catch bind await hd tl]. unfold do_io.
  destruct (settle (rollback_put transaction) o w) as [[e|v] w1];
    cbn [fst snd run try_catch bind call do_sync react].
  - destruct (String.eqb (name e) "ConditionalCheckFailedException");
      cbn [fst snd run try_catch bind call do_sync react]; reflexivity.
  - reflexivity.
Qed.

Lemma rollback_put_answered (transaction : value) (w : world) :
  settle (rollback_put transaction) Answer w
  = match ddb w !! slot transaction with
    | None =>
        (inr (VObj []),
         with_ddb (<[slot transaction := marshal (rollback_marker transaction)]> (ddb w)) w)
    | Some item =>
        if bool_decide (read item "command" = VStr "rollback")
        then (inr (VObj []),
              with_ddb (<[slot transaction := marshal (rollback_marker transaction)]> (ddb w)) w)
        else (inl ConditionalCheckFailedException, w)
    end.
Proof.
  unfold rollback_put. cbn [settle process]. unfold put_allowed, item_at, store_item.
  cbn [put_table put_item put_condition].
  change (transactionsTable, key_of transactionsTable (rollback_marker transaction))
    with (slot transaction).
  destruct (ddb w !! slot transaction) as [item|]; [|reflexivity].
  cbn [holds]. rewrite bool_decide_eq_true_2 by (repeat constructor).
  cbn [negb andb orb].
  destruct (bool_decide (read item "command" = VStr "rollback")); reflexivity.
Qed.

(** What the write of a rollback does to the tables, however it settles. *)
Lemma rollback_put_settled (transaction : value) (o : outcome) (w : world) :
  ddb (snd (settle (rollback_put transaction) o w)) = ddb w
  \/ open_to_rollback w transaction
     /\ ddb (snd (settle (rollback_put transaction) o w))
        = <[slot transaction := marshal (rollback_marker transaction)]> (ddb w).
Proof.
  destruct o as [|e [|]]; cbn [settle snd]; [| |left; reflexivity].
  all: change (process (rollback_put transaction) w)
         with (settle (rollback_put transaction) Answer w);
    rewrite rollback_put_answered.
  all: destruct (ddb w !! slot transaction) as [item|] eqn:Hslot;
    [destruct (bool_decide (read item "command" = VStr "rollback")) eqn:Hc|];
    cbn [snd ddb with_ddb]; auto.
  all: right; split; [|reflexivity].
  all: try (left; exact Hslot).
  all: right; exists item; split; [exact Hslot|exact (bool_decide_eq_true_1 _ Hc)].
Qed.

(** C3. [rollbackTransaction] writes its marker only into a slot that is
    empty or already holds a rollback marker, and then tells the
    Sequencer the marker's slot is rolled back.  When the guard of the
    write fails, because the slot holds a record that is not a rollback
    marker, it tells the Sequencer that the original transaction is
    persisted instead.  Whatever the store does, a record that is not a
    rollback marker stays in its slot.  (A transaction is an object: for
    [undefined] or [null] the function throws before it calls
    anything.) *)
Theorem rollback_spares_genuine_transactions
    (transaction : value) (o : outcome) (os : list outcome) (w : world) :
  let marker := rollback_marker transaction in
  let done := run (rollbackTransaction transaction) (o :: os) w in
  let w' := world_of done in
  (ddb w' = ddb w \/
   (open_to_rollback w transaction /\
    ddb w' = <[slot transaction := marshal marker]> (ddb w)))
  /\ (nullish transaction = false -> o = Answer -> open_to_rollback w transaction ->
      ddb w' = <[slot transaction := marshal marker]> (ddb w) /\
      trace w' = trace w ++
        [ Completed (rollback_put transaction) (inr (VObj []));
          Called (memcache_transactionRolledBack marker) VUndefined ])
  /\ (nullish transaction = false -> o = Answer -> ~ open_to_rollback w transaction ->
      ddb w' = ddb w /\
      trace w' = trace w ++
        [ Completed (rollback_put transaction) (inl ConditionalCheckFailedException);
          Called (memcache_transactionPersistedToDdb transaction) VUndefined;
          Called (logger_info "Failed to rollback -- transaction already persisted to disk")
            VUndefined ])
  /\ (~ open_to_rollback w transaction -> ddb w' = ddb w)
  /\ (nullish transaction = true -> exists msg, done = (Thrown (TypeError msg), w, [])).
Proof.
  intros marker done w'. subst w' done.
  destruct (nullish transaction) eqn:Hnull.
  { rewrite rollbackTransaction_null by exact Hnull. cbn [run]. unfold world_of. cbn [fst snd].
    repeat split; try discriminate; auto. eexists. reflexivity. }
  rewrite run_rollback by exact Hnull. unfold world_of. cbn [fst snd].
  fold marker. rewrite do_io_unfold. cbn [fst snd].
  pose proof (rollback_put_settled transaction o w) as Hsettled.
  pose proof (rollback_put_answered transaction w) as Hanswered.
  fold marker in Hsettled, Hanswered.
  match goal with
  | |- (ddb ?final = _ \/ _) /\ _ =>
      assert (Hfinal : ddb final = ddb (snd (settle (rollback_put transaction) o w)));
      [|set (w' := final) in *]
  end.
  { destruct (fst (settle (rollback_put transaction) o w)) as [e|v];
      [destruct (String.eqb (name e) "ConditionalCheckFailedException")|];
      rewrite ?do_sync_ddb; reflexivity. }
  rewrite Hfinal.
  split; [exact Hsettled|]. split; [|split; [|split; [|discriminate]]].
  - intros _ -> Hopen. subst w'. rewrite Hanswered.
    assert (Hput : match ddb w !! slot transaction with
                   | Some item =>
                       if bool_decide (read item "command" = VStr "rollback")
                       then (@inr error value (VObj []),
                             with_ddb (<[slot transaction := marshal marker]> (ddb w)) w)
                       else (inl ConditionalCheckFailedException, w)
                   | None =>
                       (inr (VObj []),
                        with_ddb (<[slot transaction := marshal marker]> (ddb w)) w)
                   end
                   = (inr (VObj []),
                      with_ddb (<[slot transaction := marshal marker]> (ddb w)) w)).
    { destruct Hopen as [->|(item & -> & Hcommand)]; [reflexivity|].
      rewrite bool_decide_eq_true_2 by exact Hcommand. reflexivity. }
    rewrite Hput. cbn [fst snd ddb with_ddb].
    rewrite do_sync_trace. cbn [trace emit with_ddb react fst].
    rewrite <- app_assoc. split; reflexivity.
  - intros _ -> Hshut. subst w'. rewrite Hanswered.
    destruct (ddb w !! slot transaction) as [item|] eqn:Hslot;
      [|exfalso; apply Hshut; left; exact Hslot].
    rewrite bool_decide_eq_false_2
      by (intros Hcommand; apply Hshut; right; eauto).
    cbn [fst snd name ConditionalCheckFailedException].
    change (String.eqb "ConditionalCheckFailedException" "ConditionalCheckFailedException")
      with true. cbv iota.
    rewrite !do_sync_trace. cbn [ddb trace emit react fst].
    rewrite <- !app_assoc. split; reflexivity.
  - intros Hshut.
    destruct Hsettled as [Hsame|(Hopen & _)]; [exact Hsame|contradiction].
Qed.

(** ** Commits *)

Lemma batch_loop_complete (before rest acc : list value) :
  forallb complete rest = true ->
  batch_loop (VArr (before ++ rest)) (length rest) (length before) acc
  = Ret (inr (acc ++ List.map entry rest)).
Proof.
  revert before acc. induction rest as [|op rest IH]; intros before acc Hall.
  - simpl. rewrite app_nil_r. reflexivity.
  - change (length (op :: rest)) with (S (length rest)). cbn [batch_loop].
    assert (Hi : index (VArr (before ++ op :: rest)) (length before) = op).
    { simpl. rewrite app_nth2 by lia.
      replace (length before - length before)%nat with 0%nat by lia.
      reflexivity. }
    rewrite Hi. simpl in Hall. apply andb_prop in Hall as [Hop Hrest].
    unfold complete in Hop. apply andb_prop in Hop as [Hnn Hfields].
    apply negb_true_iff in Hnn, Hfields.
    unfold prop. rewrite Hnn. simpl bind.
    unfold missing_field in Hfields.
    apply orb_false_elim in Hfields as [Hfields Hc].
    apply orb_false_elim in Hfields as [Hk Hr].
    rewrite Hk, Hr, Hc.
    specialize (IH (before ++ [op]) (acc ++ [entry op]) Hrest).
    rewrite <- app_assoc, length_app in IH. simpl in IH.
    replace (length before + 1)%nat with (S (length before)) in IH by lia.
    unfold entry in IH at 1. rewrite IH. rewrite <- app_assoc. reflexivity.
Qed.

Lemma accepted_body (rq : request) (label : string) (transaction userId : value) :
  accepted rq = Some (label, transaction, userId) ->
  body rq = commit label transaction userId.
Proof.
  destruct rq as [command user databaseId key record|user databaseId operations];
    cbn [accepted body].
  - unfold doCommand, falsy.
    destruct (truthy databaseId), (truthy key), (truthy record);
      simpl; try discriminate.
    intros Heq. injection Heq as <- <- <-. reflexivity.
  - destruct operations as [| | | | | |[|op ops]|]; try discriminate.
    unfold batch, falsy.
    destruct (truthy databaseId); cbn [andb negb orb]; cbv iota; [|discriminate].
    destruct (forallb complete (op :: ops)) eqn:Hall; cbv iota; [|discriminate].
    intros Heq. injection Heq as <- <- <-.
    rewrite iterations_length.
    change (negb (truthy (read (VArr (op :: ops)) "length"))) with false.
    cbv iota.
    pose proof (batch_loop_complete [] (op :: ops) [] Hall) as Hloop.
    cbn [app length] in Hloop. cbn [length]. rewrite Hloop. reflexivity.
Qed.

Lemma batch_loop_pure (operations : value) (n i : nat) (acc : list value) :
  (exists msg, batch_loop operations n i acc = Ret (inl (errorResponse Bad_Request msg)))
  \/ (exists e, batch_loop operations n i acc = Throw e)
  \/ (exists ops, batch_loop operations n i acc = Ret (inr ops)).
Proof.
  revert i acc. induction n as [|n IH]; intros i acc; cbn [batch_loop].
  - right. right. eauto.
  - unfold prop. destruct (nullish (index operations i)); cbn [bind].
    { right. left. eauto. }
    destruct (falsy (read (index operations i) "itemKey")); [left; eauto|].
    destruct (falsy (read (index operations i) "encryptedItem")); [left; eauto|].
    destruct (falsy (read (index operations i) "command")); [left; eauto|].
    apply IH.
Qed.

(** What a commit request does first: it answers at once with an error
    response, throws, or commits a transaction of its database. *)
Lemma body_shape (rq : request) :
  (exists st msg, body rq = Ret (errorResponse st msg))
  \/ (exists e, body rq = Throw e)
  \/ (exists label transaction userId,
        body rq = commit label transaction userId
        /\ read transaction "database-id" = database_of rq).
Proof.
  destruct rq as [command userId databaseId key record|userId databaseId operations];
    cbn [body database_of].
  - unfold doCommand.
    destruct (falsy databaseId); [left; eauto|].
    destruct (falsy key); [left; eauto|].
    destruct (falsy record); [left; eauto|].
    right. right.
    exists (ToString command),
      (VObj [ ("database-id", databaseId); ("key", key);
              ("command", command); ("record", record) ]), userId.
    split; reflexivity.
  - unfold batch.
    destruct (falsy databaseId); [left; eauto|].
    destruct (falsy operations || falsy (read operations "length")); [left; eauto|].
    destruct (batch_loop_pure operations (iterations (read operations "length")) 0 [])
      as [(msg & ->)|[(e & ->)|(ops & ->)]]; cbn [bind].
    + left. eauto.
    + right. left. eauto.
    + right. right.
      exists "batch", (VObj [ ("database-id", databaseId); ("command", VStr "Batch");
                              ("operations", VArr ops) ]), userId.
      split; reflexivity.
Qed.

Lemma assoc_rebind_same (name : string) (v : value) (fields : list (string * value)) :
  assoc name (rebind name v fields) = v.
Proof.
  induction fields as [|[k x] fields IH]; simpl.
  - rewrite String.eqb_refl. reflexivity.
  - destruct (String.eqb k name) eqn:E; simpl; rewrite E; [reflexivity|exact IH].
Qed.

Lemma assoc_rebind_other (name other : string) (v : value) (fields : list (string * value)) :
  name <> other -> assoc other (rebind name v fields) = assoc other fields.
Proof.
  intros Hne. induction fields as [|[k x] fields IH]; simpl.
  - apply String.eqb_neq in Hne. rewrite Hne. reflexivity.
  - destruct (String.eqb k name) eqn:E; simpl.
    + apply String.eqb_eq in E. subst k.
      apply String.eqb_neq in Hne. rewrite Hne. reflexivity.
    + destruct (String.eqb k other); [reflexivity|exact IH].
Qed.

Lemma read_numbered_seq (w : world) (transaction : value) :
  read (numbered_in w transaction) "sequence-no" = number_in w transaction.
Proof.
  unfold numbered_in, with_prop. destruct transaction; try reflexivity.
  simpl. apply assoc_rebind_same.
Qed.


Lemma commit_put_answered (numbered : value) (w : world) :
  ddb w !! slot numbered = None ->
  settle (commit_put numbered) Answer w
  = (inr (VObj []), with_ddb (<[slot numbered := marshal numbered]> (ddb w)) w).
Proof.
  intros Hempty. unfold commit_put. cbn [settle process].
  rewrite key_guard by (repeat constructor).
  change (transactionsTable, key_of transactionsTable numbered) with (slot numbered).
  rewrite bool_decide_eq_true_2 by exact Hempty. reflexivity.
Qed.

Lemma settle_stores (c : io) (o : outcome) (w1 w : world) :
  ddb w1 = ddb w -> s3 w1 = s3 w ->
  fst (settle c o w1) = fst (settle c o w)
  /\ ddb (snd (settle c o w1)) = ddb (snd (settle c o w))
  /\ s3 (snd (settle c o w1)) = s3 (snd (settle c o w)).
Proof.
  intros Hd Hs.
  destruct o as [|e [|]], c; simpl;
    unfold put_allowed, item_at; rewrite ?Hd, ?Hs; auto.
  all: repeat match goal with
         | |- context [if ?b then _ else _] => destruct b; simpl
         | |- context [match ?x with _ => _ end] => destruct x; simpl
         end; rewrite ?Hd, ?Hs; auto.
Qed.

(** The run of a commit, by the way its write settles. *)
Lemma run_commit (label : string) (transaction userId : value)
    (o : outcome) (os : list outcome) (w : world) :
  let numbered := numbered_in w transaction in
  let w1 := snd (do_sync (memcache_pushTransaction transaction) w) in
  let w2 := snd (do_io (commit_put numbered) o w1) in
  run (commit label transaction userId) (o :: os) w
  = match fst (settle (commit_put numbered) o w) with
    | inr _ =>
        (Returned (successResponse (VObj [("sequenceNo", number_in w transaction)])),
         snd (do_sync (connections_push (read transaction "database-id") userId)
                (snd (do_sync (memcache_transactionPersistedToDdb numbered) w2))),
         [])
    | inl e =>
        let w3 := snd (do_sync (logger_warn (rolling_back numbered e)) w2) in
        (Returned (errorResponse Internal_Server_Error
                     ("Failed to " +:+ label +:+ " with "
                      +:+ error_to_string (commit_failure e))),
         w3,
         [fst (fst (exec (rollbackTransaction numbered) w3))])
    end.
Proof.
  intros numbered w1 w2.
  unfold commit, putTransaction.
  cbn [run try_catch bind call await hd tl do_sync react].
  fold (number_in w transaction). fold (numbered_in w transaction). fold numbered.
  fold (commit_put numbered).
  subst w2. unfold do_io.
  pose proof (settle_stores (commit_put numbered) o w1 w eq_refl eq_refl) as (Hr & _).
  subst w1. cbn [do_sync react snd] in Hr.
  fold (number_in w transaction) in Hr. fold (numbered_in w transaction) in Hr.
  fold numbered in Hr. cbn [do_sync react snd].
  fold (number_in w transaction). fold (numbered_in w transaction). fold numbered.
  rewrite <- Hr.
  destruct (settle (commit_put numbered) o _) as [[e|v] w2];
    cbn [run try_catch bind call await fork do_sync react fst snd].
  - fold (rolling_back numbered e).
    match goal with
    | |- context [exec (rollbackTransaction numbered) ?w3] =>
        destruct (exec_rollback numbered w3 (numbered_is_an_object w transaction))
          as [k Hk]; rewrite Hk
    end.
    reflexivity.
  - subst numbered. rewrite read_numbered_seq. reflexivity.
Qed.

(** C2. A call of [doCommand] or [batch] that gets past its validation
    commits a transaction ([body_shape]).  When the guarded write of the
    numbered transaction succeeds (the slot then holds the transaction
    as the document client marshals it), the call tells the Sequencer
    the transaction is persisted, then calls the notifier for the
    database, then returns the assigned sequence number.  In no run of a commit is
    the notifier called unless the write has succeeded and been marked
    persisted before. *)
Theorem commit_success_marks_then_notifies
    (rq : request) (label : string) (transaction userId : value)
    (o : outcome) (os : list outcome) (w : world) :
  body rq = commit label transaction userId ->
  let numbered := numbered_in w transaction in
  let done := run (body rq) (o :: os) w in
  (o = Answer -> ddb w !! slot numbered = None ->
   result_of done
   = Returned (successResponse (VObj [("sequenceNo", number_in w transaction)]))
   /\ ddb (world_of done) = <[slot numbered := marshal numbered]> (ddb w)
   /\ trace (world_of done)
      = trace w ++
        [ Called (memcache_pushTransaction transaction) numbered;
          Completed (commit_put numbered) (inr (VObj []));
          Called (memcache_transactionPersistedToDdb numbered) VUndefined;
          Called (connections_push (read transaction "database-id") userId) VUndefined ])
  /\ (forall before dbId user v after,
        trace (world_of done)
        = trace w ++ before ++ Called (connections_push dbId user) v :: after ->
        exists written,
          Completed (commit_put numbered) (inr written) ∈ before /\
          Called (memcache_transactionPersistedToDdb numbered) VUndefined ∈ before).
Proof.
  intros Hacc numbered done. subst done.
  rewrite Hacc, run_commit.
  fold numbered.
  pose proof (settle_stores (commit_put numbered) o
                (snd (do_sync (memcache_pushTransaction transaction) w)) w
                (do_sync_ddb _ _) (do_sync_s3 _ _)) as (Hr & Hd & _).
  split.
  - intros -> Hempty.
    rewrite (commit_put_answered numbered w Hempty) in *.
    unfold result_of, world_of. cbn [fst snd] in *.
    split; [reflexivity|].
    rewrite !do_sync_ddb, !do_sync_trace, do_io_ddb, do_io_trace, Hd, Hr.
    split; [reflexivity|].
    rewrite do_sync_trace, <- !app_assoc. reflexivity.
  - intros before dbId user v after.
    unfold world_of.
    destruct (fst (settle (commit_put numbered) o w)) as [e|written] eqn:Hw;
      cbn [fst snd]; rewrite !do_sync_trace, do_io_trace, do_sync_trace, Hr,
        <- !app_assoc; cbn [app react fst]; intros Heq;
      apply app_inv_head in Heq.
    + destruct before as [|b1 [|b2 [|b3 before]]]; try discriminate.
      destruct before; discriminate.
    + destruct before as [|b1 [|b2 [|b3 [|b4 before]]]]; try discriminate.
      * injection Heq as <- <- <- _. exists written.
        split; repeat constructor.
      * destruct before; discriminate.
Qed.

Lemma park_replies (id : nat) (x : pending response * world * list (pending unit))
    (others : list thread) (done : list (nat * completion response)) (count : nat) :
  done `prefix_of` replies (park id x others done count).
Proof.
  destruct x as [[[r|c k] w] bs]; simpl; [apply prefix_app_r|]; reflexivity.
Qed.

Lemma step_replies (s : system) (a : action) : replies s `prefix_of` replies (step s a).
Proof.
  destruct a as [rq|i o]; simpl.
  - apply park_replies.
  - destruct (waiting s !! i) as [[id [r|c k]|[r|c k]]|]; try reflexivity.
    + destruct (do_io c o (env s)) as [r w]. apply park_replies.
    + destruct (do_io c o (env s)) as [r w].
      destruct (exec (k r) w) as [[p w'] bs]. reflexivity.
Qed.

Lemma steps_replies (acts : list action) (s : system) :
  replies s `prefix_of` replies (steps s acts).
Proof.
  revert s. induction acts as [|a acts IH]; intros s; simpl; [reflexivity|].
  etrans; [apply step_replies|apply IH].
Qed.

(** C4. When the write of a commit (a call of [doCommand] or [batch] past
    its validation) fails with [e], the failure is logged,
    [rollbackTransaction] is called without being awaited, and the caller
    gets an Internal Server Error that carries [e].  The caller has its
    response while the rollback is still suspended at its own write, and
    nothing that happens later, the outcome of the rollback included,
    changes that response. *)
Theorem commit_failure_rolls_back_in_background
    (rq : request) (label : string) (transaction userId : value) (e : error)
    (o : outcome) (os : list outcome) (w : world) :
  body rq = commit label transaction userId ->
  let numbered := numbered_in w transaction in
  fst (settle (commit_put numbered) o w) = inl e ->
  let failure :=
    Returned (errorResponse Internal_Server_Error
                ("Failed to " +:+ label +:+ " with "
                 +:+ error_to_string (commit_failure e))) in
  let done := run (body rq) (o :: os) w in
  result_of done = failure
  /\ trace (world_of done)
     = trace w ++
       [ Called (memcache_pushTransaction transaction) numbered;
         Completed (commit_put numbered) (inl e);
         Called (logger_warn (rolling_back numbered e)) VUndefined ]
  /\ (exists k, forked_of done = [Awaiting (rollback_put numbered) k])
  /\ (let s := steps (idle w) [Invoke rq; Complete 0 o] in
      replies s = [(0%nat, failure)]
      /\ (exists k, waiting s = [Background (Awaiting (rollback_put numbered) k)])
      /\ forall acts, replies (steps s acts) !! 0%nat = Some (0%nat, failure)).
Proof.
  intros Hacc numbered Hfail failure done. subst done.
  rewrite Hacc, run_commit.
  fold numbered. rewrite Hfail.
  pose proof (settle_stores (commit_put numbered) o
                (snd (do_sync (memcache_pushTransaction transaction) w)) w
                (do_sync_ddb _ _) (do_sync_s3 _ _)) as (Hr & _).
  rewrite Hfail in Hr.
  unfold result_of, world_of, forked_of. cbn [fst snd].
  split; [reflexivity|]. split.
  { rewrite do_sync_trace, do_io_trace, do_sync_trace, Hr, <- !app_assoc.
    reflexivity. }
  split.
  { destruct (exec_rollback numbered
                (snd (do_sync (logger_warn (rolling_back numbered e))
                        (snd (do_io (commit_put numbered) o
                                (snd (do_sync (memcache_pushTransaction transaction) w))))))
                (numbered_is_an_object w transaction))
      as [k Hk].
    exists k. rewrite Hk. reflexivity. }
  unfold steps, idle. cbn [foldl step env waiting replies issued].
  rewrite Hacc.
  unfold commit, putTransaction.
  cbn [exec try_catch bind call await do_sync react park lookup].
  fold (number_in w transaction). fold (numbered_in w transaction). fold numbered.
  fold (commit_put numbered).
  change (emit (Called (memcache_pushTransaction transaction) numbered) _)
    with (snd (do_sync (memcache_pushTransaction transaction) w)).
  set (w1 := snd (do_sync (memcache_pushTransaction transaction) w)) in *.
  cbn [app backgrounds flat_map lookup list_lookup waiting env replies issued].
  unfold do_io. destruct (settle (commit_put numbered) o w1) as [r w2].
  cbn [fst] in Hr. subst r.
  cbn [exec try_catch bind call await fork do_sync react park delete list_delete
       app backgrounds flat_map replies waiting].
  match goal with
  | |- context [exec (rollbackTransaction numbered) ?w3] =>
      destruct (exec_rollback numbered w3 (numbered_is_an_object w transaction))
        as [k Hk]; rewrite Hk
  end.
  cbn [park app backgrounds flat_map replies waiting].
  split; [reflexivity|]. split; [exists k; reflexivity|].
  intros acts.
  match goal with
  | |- replies (foldl step ?s acts) !! _ = _ =>
      apply (prefix_lookup_Some (replies s)); [reflexivity|apply steps_replies]
  end.
Qed.

(** ** Bundling *)

Lemma number_passes_validation (z : Z) :
  falsy (VNum (Int z)) && negb (strict_equals (VNum (Int z)) (VNum (Int 0))) = false.
Proof. unfold falsy. simpl. destruct (z =? 0); reflexivity. Qed.

Lemma record_is_truthy (item : value) (attr : string) (n : num) :
  read item attr = VNum n -> attr <> "length" -> falsy item = false.
Proof.
  intros Hread Hattr. destruct item; try discriminate; try reflexivity.
  all: simpl in Hread; apply String.eqb_neq in Hattr; rewrite Hattr in Hread;
    discriminate.
Qed.

(** C1. Once the stored bundle-seq-no of a database is [N] (the record
    being stored under the database id as the document client sends it,
    which for a string or a number is the id itself), a call of
    [bundleTransactionLog] for a number [M <= N] changes neither the
    tables, so the stored bundle-seq-no stays [N], nor the bucket, so
    the snapshot stored for [N] is not overwritten: this holds however
    the store behaves.  The response is the Bad Request "must be
    greater than current bundle" whenever the lookup of the database
    is answered; when the lookup itself fails, it is the Internal
    Server Error of that failure.  The guarded update of the pointer is
    refused as well when it is issued for such an [M], as by a call that
    read the pointer before it was advanced to [N]. *)
Theorem bundle_pointer_never_moves_back
    (databaseId seqNo bundle database : value) (N M : Z)
    (os : list outcome) (w : world) :
  ddb w !! (databaseTable, [marshal databaseId]) = Some database ->
  read database "bundle-seq-no" = VNum (Int N) ->
  Number seqNo = Int M ->
  M <= N ->
  let done := run (bundleTransactionLog databaseId seqNo bundle) os w in
  ddb (world_of done) = ddb w
  /\ s3 (world_of done) = s3 w
  /\ (hd Answer os = Answer ->
      result_of done
      = Returned (errorResponse Bad_Request
                    "Bundle sequence no must be greater than current bundle"))
  /\ (forall e applied,
        hd Answer os = Fault e applied ->
        result_of done
        = Returned (errorResponse Internal_Server_Error
                      ("Failed to bundle with " +:+ error_to_string e)))
  /\ (forall o,
        ddb (snd (settle (ddb_update (bundleParams databaseId (VNum (Int M)))) o w))
        = ddb w).
Proof.
  intros Hdb Hlast Hnum Hle done. subst done.
  assert (Hguard : forall o,
            ddb (snd (settle (ddb_update (bundleParams databaseId (VNum (Int M)))) o w))
            = ddb w).
  { assert (Hrefused :
              holds databaseTable
                (cond_or (attribute_not_exists "bundle-seq-no")
                         (attribute_lt "bundle-seq-no" (VNum (Int M))))
                (Some database) = false).
    { cbn [holds]. rewrite Hlast.
      rewrite (bool_decide_eq_false_2 (VNum (Int N) = VUndefined)) by discriminate.
      rewrite andb_false_r. cbn [orb]. apply Z.ltb_ge. exact Hle. }
    intros [|e [|]]; cbn [settle process snd bundleParams update_table update_key
                             update_condition]; unfold item_at;
      change (key_of databaseTable (VObj [("database-id", databaseId)]))
        with [marshal databaseId];
      rewrite ?Hdb, ?Hrefused; reflexivity. }
  unfold bundleTransactionLog, findDatabaseByDatabaseId.
  rewrite Hnum, number_passes_validation.
  cbn [run try_catch bind await]. unfold do_io.
  assert (Hget : process (ddb_get databaseTable (VObj [("database-id", databaseId)])) w
                 = (inr (VObj [("Item", database)]), w)).
  { cbn [process]. unfold item_at.
    change (key_of databaseTable (VObj [("database-id", databaseId)]))
      with [marshal databaseId].
    rewrite Hdb. reflexivity. }
  destruct (hd Answer os) as [|e applied]; [|destruct applied];
    cbn [settle]; rewrite ?Hget; cbn [snd run try_catch bind].
  1: { change (falsy (VObj [("Item", database)])) with false.
       change (read (VObj [("Item", database)]) "Item") with database.
       pose proof (record_is_truthy database "bundle-seq-no" (Int N) Hlast
                     ltac:(discriminate)) as Htruthy.
       rewrite Htruthy. cbn [orb bind run try_catch]. rewrite Htruthy, Hlast.
       assert (Hge : ge (VNum (Int N)) (VNum (Int M)) = true)
         by (cbn; apply Z.leb_le; exact Hle).
       rewrite Hge. cbn [bind run try_catch].
       unfold world_of, result_of. cbn [fst snd ddb s3 emit].
       repeat split; intros; try discriminate; try reflexivity; apply Hguard. }
  all: unfold world_of, result_of; cbn [fst snd ddb s3 emit].
  all: repeat split; intros; try discriminate; try reflexivity; try apply Hguard.
  all: match goal with
       | Hf : Fault _ _ = Fault _ _ |- _ => injection Hf as <- <-; reflexivity
       end.
Qed.


Lemma upload_stores (key : string) (body v : value) (o : outcome) (w w' : world) :
  settle (s3_upload key body) o w = (inr v, w') ->
  exists bytes, body_bytes body = Some bytes /\ s3 w' = <[key := bytes]> (s3 w).
Proof.
  destruct o as [|e [|]]; simpl; try discriminate.
  destruct (body_bytes body) as [bytes|]; [|discriminate]. intros [= <- <-]. eauto.
Qed.

Lemma update_keeps_s3 (p : update_params) (o : outcome) (w : world) :
  s3 (snd (settle (ddb_update p) o w)) = s3 w.
Proof.
  destruct o as [|e [|]]; simpl; try reflexivity.
  all: destruct (holds _ _ _); reflexivity.
Qed.



(** ** Interleaved commits *)


Lemma settle_nextSeqNo (c : io) (o : outcome) (w : world) :
  nextSeqNo (snd (settle c o w)) = nextSeqNo w.
Proof.
  destruct o as [|e [|]], c; simpl; try reflexivity.
  all: repeat match goal with
         | |- context [if ?b then _ else _] => destruct b; simpl
         | |- context [match ?x with _ => _ end] => destruct x; simpl
         end; reflexivity.
Qed.

Lemma calm_do_io (D : value) (c : io) (o : outcome) (w : world) :
  calm D w (snd (do_io c o w)).
Proof.
  split.
  - unfold do_io. pose proof (settle_nextSeqNo c o w) as Hn.
    destruct (settle c o w) as [r w']. exact Hn.
  - eexists. split; [apply do_io_trace|reflexivity].
Qed.

Lemma exec_rollback_quiet (D transaction : value) (w : world) :
  exists p,
    exec (rollbackTransaction transaction) w = (p, w, []) /\ settles_quietly D p.
Proof.
  destruct (nullish transaction) eqn:Hnull.
  { rewrite rollbackTransaction_null by exact Hnull.
    eexists. split; [reflexivity|exact I]. }
  rewrite rollbackTransaction_object by exact Hnull. unfold rollback_write.
  eexists. split; [reflexivity|]. intros r w'.
  destruct r as [e|v]; cbn;
    [destruct (String.eqb (name e) "ConditionalCheckFailedException"); cbn|].
  all: eexists _, _; (split; [reflexivity|]).
  all: split; [reflexivity|]; cbn [trace emit].
  all: eexists; rewrite <- ?app_assoc; split; reflexivity.
Qed.

Lemma exec_commit_answers (D : value) (label : string) (transaction userId : value)
    (w : world) :
  exists k,
    exec (commit label transaction userId) w
    = (Awaiting (commit_put (numbered_in w transaction)) k,
       snd (do_sync (memcache_pushTransaction transaction) w), [])
    /\ answers D (Some (next_of w (read transaction "database-id")))
         (Awaiting (commit_put (numbered_in w transaction)) k).
Proof.
  eexists. split; [reflexivity|]. intros r w'.
  destruct r as [e|v]; cbn [exec try_catch bind call await fork do_sync react].
  - fold (number_in w transaction). fold (numbered_in w transaction).
    match goal with
    | |- context [exec (rollbackTransaction ?t) ?w3] =>
        destruct (exec_rollback_quiet D t w3) as (p & Hk & Hquiet); rewrite Hk
    end.
    eexists _, _, _. split; [reflexivity|]. split; [|split].
    + split; [reflexivity|]. cbn [trace emit]. eexists. split; reflexivity.
    + repeat constructor. exact Hquiet.
    + intros d Hd. discriminate.
  - fold (number_in w transaction). fold (numbered_in w transaction).
    eexists _, _, _. split; [reflexivity|]. split; [|split].
    + split; [reflexivity|]. cbn [trace emit]. eexists.
      rewrite <- app_assoc. split; reflexivity.
    + constructor.
    + intros d [= <-]. rewrite read_numbered_seq. reflexivity.
Qed.

Lemma push_next (D transaction : value) (w : world) :
  next_of (snd (do_sync (memcache_pushTransaction transaction) w)) D
  = if decide (read transaction "database-id" = D)
    then next_of w D + 1 else next_of w D.
Proof.
  unfold next_of. cbn [do_sync react snd nextSeqNo emit].
  destruct (decide (read transaction "database-id" = D)) as [->|Hne].
  - rewrite lookup_insert_eq. reflexivity.
  - rewrite lookup_insert_ne by exact Hne. reflexivity.
Qed.

Lemma handed_out_app (D : value) (e1 e2 : list event) :
  handed_out D (e1 ++ e2) = handed_out D e1 ++ handed_out D e2.
Proof. unfold handed_out. apply flat_map_app. Qed.

Lemma counted_calm (D : value) (w0 : world) (tickets : list (nat * Z)) (w w' : world) :
  counted D w0 tickets w -> calm D w w' -> counted D w0 tickets w'.
Proof.
  intros (Hle & Hseq & events & Ht & Hh) (Hn & more & Ht' & Hh').
  assert (Hnext : next_of w' D = next_of w D) by (unfold next_of; rewrite Hn; reflexivity).
  unfold counted. rewrite Hnext. split; [exact Hle|]. split; [exact Hseq|].
  exists (events ++ more). rewrite Ht', Ht, app_assoc. split; [reflexivity|].
  rewrite handed_out_app, Hh, Hh', app_nil_r. reflexivity.
Qed.

Lemma counted_push (D : value) (w0 : world) (tickets : list (nat * Z)) (w : world)
    (id : nat) (transaction : value) :
  counted D w0 tickets w ->
  counted D w0
    (if decide (read transaction "database-id" = D)
     then tickets ++ [(id, next_of w D)] else tickets)
    (snd (do_sync (memcache_pushTransaction transaction) w)).
Proof.
  intros (Hle & Hseq & events & Ht & Hh). unfold counted.
  rewrite push_next, do_sync_trace, Ht.
  cbn [react fst]. fold (number_in w transaction). fold (numbered_in w transaction).
  destruct (decide (read transaction "database-id" = D)) as [Hd|Hd].
  - split; [lia|]. split.
    + rewrite fmap_app, Hseq.
      replace (next_of w D + 1 - next_of w0 D)
        with ((next_of w D - next_of w0 D) + 1) by lia.
      rewrite seqZ_app by lia. f_equal.
      rewrite seqZ_cons, seqZ_nil by lia. cbn [fmap list_fmap snd]. f_equal. lia.
    + eexists. rewrite <- app_assoc. split; [reflexivity|].
      rewrite handed_out_app, Hh, fmap_app. f_equal.
      cbn. rewrite decide_True by exact Hd.
      rewrite read_numbered_seq. unfold number_in. rewrite Hd. reflexivity.
  - split; [exact Hle|]. split; [exact Hseq|].
    eexists. rewrite <- app_assoc. split; [reflexivity|].
    rewrite handed_out_app, Hh. cbn. rewrite decide_False by exact Hd.
    rewrite app_nil_r. reflexivity.
Qed.

Lemma answers_weaken (D : value) (n : Z) (p : pending response) :
  answers D (Some n) p -> answers D None p.
Proof.
  destruct p as [c|c k]; [auto|]. intros Hk r w.
  destruct (Hk r w) as (resp & w' & bs & He & Hc & Hq & _). eauto 10.
Qed.

Lemma thread_ok_mono (D : value) (rqs more : list request)
    (tickets extra : list (nat * Z)) (th : thread) :
  thread_ok D rqs tickets th -> thread_ok D (rqs ++ more) (tickets ++ extra) th.
Proof.
  destruct th as [id p|p]; [|auto]. intros (rq & Hrq & Hth).
  exists rq. split; [apply lookup_app_l_Some; exact Hrq|].
  destruct (decide (database_of rq = D)); [|exact Hth].
  destruct Hth as (n & Hin & Ha). exists n. split; [|exact Ha].
  apply elem_of_app. left. exact Hin.
Qed.

Lemma reply_ok_mono (D : value) (rqs more : list request)
    (tickets extra : list (nat * Z)) (reply : nat * completion response) :
  reply_ok D rqs tickets reply -> reply_ok D (rqs ++ more) (tickets ++ extra) reply.
Proof.
  intros (rq & Hrq & Hr). exists rq. split; [apply lookup_app_l_Some; exact Hrq|].
  intros d Hd Hdb. destruct (Hr d Hd Hdb) as (n & Hin & Heq).
  exists n. split; [|exact Heq]. apply elem_of_app. left. exact Hin.
Qed.

Lemma backgrounds_ok (D : value) (rqs : list request) (tickets : list (nat * Z))
    (bs : list (pending unit)) :
  Forall (settles_quietly D) bs -> Forall (thread_ok D rqs tickets) (backgrounds bs).
Proof.
  induction 1 as [|b bs Hb _ IH]; [constructor|].
  unfold backgrounds. cbn [flat_map]. destruct b as [c|c k]; [exact IH|].
  constructor; [exact Hb|exact IH].
Qed.

Lemma consistent_idle (D : value) (w : world) : consistent D w [] [] (idle w).
Proof.
  split; [reflexivity|]. split; [|split; constructor].
  split; [reflexivity|]. split.
  - rewrite Z.sub_diag. reflexivity.
  - exists []. rewrite app_nil_r. split; reflexivity.
Qed.

Lemma step_consistent (D : value) (w0 : world) (rqs : list request)
    (tickets : list (nat * Z)) (s : system) (a : action) :
  consistent D w0 rqs tickets s ->
  exists tickets', consistent D w0 (rqs ++ invoked [a]) tickets' (step s a).
Proof.
  intros (Hiss & Hcnt & Hth & Hrep).
  assert (Hth' : forall more extra,
             Forall (thread_ok D (rqs ++ more) (tickets ++ extra)) (waiting s)).
  { intros more extra. eapply Forall_impl; [exact Hth|].
    intros th. apply thread_ok_mono. }
  assert (Hrep' : forall more extra,
             Forall (reply_ok D (rqs ++ more) (tickets ++ extra)) (replies s)).
  { intros more extra. eapply Forall_impl; [exact Hrep|].
    intros th. apply reply_ok_mono. }
  destruct a as [rq|i o]; cbn [step invoked flat_map app].
  - assert (Hnew : (rqs ++ [rq]) !! issued s = Some rq).
    { rewrite Hiss. apply list_lookup_middle. reflexivity. }
    assert (Hlen : S (issued s) = length (rqs ++ [rq])).
    { rewrite length_app, Hiss. simpl. lia. }
    destruct (body_shape rq)
      as [(st & msg & Hb)|[(e & Hb)|(label & tx & user & Hb & Hdb)]]; rewrite Hb.
    + exists tickets. cbn [exec park backgrounds flat_map].
      split; [exact Hlen|]. split; [exact Hcnt|].
      specialize (Hth' [rq] []). specialize (Hrep' [rq] []).
      rewrite app_nil_r in Hth', Hrep'. rewrite app_nil_r.
      split; [exact Hth'|]. apply Forall_app. split; [exact Hrep'|].
      constructor; [|constructor]. exists rq. split; [exact Hnew|].
      intros d Hd. discriminate.
    + exists tickets. cbn [exec park backgrounds flat_map].
      split; [exact Hlen|]. split; [exact Hcnt|].
      specialize (Hth' [rq] []). specialize (Hrep' [rq] []).
      rewrite app_nil_r in Hth', Hrep'. rewrite app_nil_r.
      split; [exact Hth'|]. apply Forall_app. split; [exact Hrep'|].
      constructor; [|constructor]. exists rq. split; [exact Hnew|].
      intros d Hd. discriminate.
    + destruct (exec_commit_answers D label tx user (env s)) as (k & Hexec & Hans).
      rewrite Hexec. cbn [park backgrounds flat_map].
      pose proof (counted_push D w0 tickets (env s) (issued s) tx Hcnt) as Hcnt'.
      rewrite Hdb in Hcnt', Hans.
      destruct (decide (database_of rq = D)) as [HD|HD].
      * exists (tickets ++ [(issued s, next_of (env s) D)]).
        split; [exact Hlen|]. split; [exact Hcnt'|]. split; [|apply Hrep'].
        apply Forall_app. split; [apply Hth'|].
        constructor; [|constructor]. exists rq. split; [exact Hnew|].
        rewrite decide_True by exact HD.
        exists (next_of (env s) D). split.
        -- apply elem_of_app. right. constructor.
        -- rewrite <- HD at 2. exact Hans.
      * exists tickets.
        specialize (Hth' [rq] []). specialize (Hrep' [rq] []).
        rewrite app_nil_r in Hth', Hrep'.
        split; [exact Hlen|]. split; [exact Hcnt'|]. split; [|exact Hrep'].
        apply Forall_app. split; [exact Hth'|].
        constructor; [|constructor]. exists rq. split; [exact Hnew|].
        rewrite decide_False by exact HD.
        eapply answers_weaken. exact Hans.
  - rewrite app_nil_r. exists tickets.
    destruct (waiting s !! i) as [[id [c|c k]|[c|c k]]|] eqn:Hi;
      try (split; [exact Hiss|split; [exact Hcnt|split; assumption]]).
    + pose proof (Forall_lookup_1 _ _ _ _ Hth Hi) as (rq & Hrq & Hok).
      pose proof (calm_do_io D c o (env s)) as Hcalm.
      destruct (do_io c o (env s)) as [r w]. cbn [snd] in Hcalm.
      assert (Hk : exists tk, answers D tk (Awaiting c k) /\
                (database_of rq = D -> exists n, tk = Some n /\ (id, n) ∈ tickets)).
      { destruct (decide (database_of rq = D)) as [HD|HD].
        - destruct Hok as (n & Hin & Ha). exists (Some n). split; [exact Ha|]. eauto.
        - exists None. split; [exact Hok|]. intros HD'. contradiction. }
      destruct Hk as (tk & Ha & Htk).
      destruct (Ha r w) as (resp & w' & bs & Hexec & Hcalm' & Hquiet & Hresp).
      rewrite Hexec. cbn [park].
      split; [exact Hiss|]. split.
      { eapply counted_calm; [|exact Hcalm']. eapply counted_calm; eassumption. }
      split.
      { apply Forall_app. split; [apply Forall_delete; exact Hth|].
        apply backgrounds_ok. exact Hquiet. }
      apply Forall_app. split; [exact Hrep|].
      constructor; [|constructor]. exists rq. split; [exact Hrq|].
      cbn [fst snd]. intros d [= ->] HD.
      destruct (Htk HD) as (n & -> & Hin). exists n. split; [exact Hin|].
      apply Hresp. reflexivity.
    + pose proof (Forall_lookup_1 _ _ _ _ Hth Hi) as Hok.
      pose proof (calm_do_io D c o (env s)) as Hcalm.
      destruct (do_io c o (env s)) as [r w]. cbn [snd] in Hcalm.
      destruct (Hok r w) as (c' & w' & Hexec & Hcalm').
      rewrite Hexec. cbn [backgrounds flat_map app].
      split; [exact Hiss|]. split.
      { eapply counted_calm; [|exact Hcalm']. eapply counted_calm; eassumption. }
      split; [|exact Hrep].
      rewrite app_nil_r. apply Forall_delete. exact Hth.
Qed.

Lemma invoked_cons (a : action) (acts : list action) :
  invoked (a :: acts) = invoked [a] ++ invoked acts.
Proof. unfold invoked. cbn [flat_map]. rewrite app_nil_r. reflexivity. Qed.

Lemma steps_consistent (D : value) (w0 : world) (acts : list action) :
  forall rqs tickets s,
    consistent D w0 rqs tickets s ->
    exists tickets', consistent D w0 (rqs ++ invoked acts) tickets' (steps s acts).
Proof.
  induction acts as [|a acts IH]; intros rqs tickets s Hs.
  - exists tickets. cbn. rewrite app_nil_r. exact Hs.
  - destruct (step_consistent D w0 rqs tickets s a Hs) as (tickets1 & Hs1).
    destruct (IH _ _ _ Hs1) as (tickets2 & Hs2).
    exists tickets2. rewrite invoked_cons, app_assoc. exact Hs2.
Qed.

Lemma ticket_owner (tickets : list (nat * Z)) (i j : nat) (n : Z) :
  NoDup (snd <$> tickets) -> (i, n) ∈ tickets -> (j, n) ∈ tickets -> i = j.
Proof.
  induction tickets as [|[k m] tickets IH]; cbn [fmap list_fmap snd];
    intros Hnd Hi Hj.
  - inversion Hi.
  - apply NoDup_cons in Hnd as [Hm Hnd].
    apply elem_of_cons in Hi as [Hi|Hi]; apply elem_of_cons in Hj as [Hj|Hj].
    + congruence.
    + injection Hi as -> ->. exfalso. apply Hm.
      apply (list_elem_of_fmap_2 snd _ (j, m)). exact Hj.
    + injection Hj as -> ->. exfalso. apply Hm.
      apply (list_elem_of_fmap_2 snd _ (i, m)). exact Hi.
    + apply IH; assumption.
Qed.

(** C5. However commit calls against a database [D] are interleaved at
    their [await]s, the sequence numbers handed out for [D] are, in the
    order they are handed out, the consecutive numbers from the one that
    was next for [D] at the start; they are pairwise distinct, and two
    different callers that commit to [D] and get a success response get
    two different ones of these numbers. *)
Theorem interleaved_commits_get_distinct_contiguous_numbers
    (D : value) (w : world) (acts : list action) :
  let s := steps (idle w) acts in
  let numbers := handed_out D (drop (length (trace w)) (trace (env s))) in
  numbers
  = (fun n => VNum (Int n)) <$> seqZ (next_of w D) (Z.of_nat (length numbers))
  /\ NoDup numbers
  /\ forall i j rqi rqj a b,
       invoked acts !! i = Some rqi -> database_of rqi = D ->
       invoked acts !! j = Some rqj -> database_of rqj = D ->
       (i, Returned (successResponse (VObj [("sequenceNo", a)]))) ∈ replies s ->
       (j, Returned (successResponse (VObj [("sequenceNo", b)]))) ∈ replies s ->
       a ∈ numbers /\ b ∈ numbers /\ (i <> j -> a <> b).
Proof.
  intros s numbers.
  destruct (steps_consistent D w acts [] [] (idle w) (consistent_idle D w))
    as (tickets & _ & (Hle & Hseq & events & Ht & Hh) & _ & Hrep).
  fold s in Hle, Hseq, Ht, Hrep. cbn [app] in Hrep.
  assert (Hnum : numbers = (fun t => VNum (Int (snd t))) <$> tickets).
  { subst numbers. rewrite Ht, drop_app_length. exact Hh. }
  assert (Hnum' : numbers = (fun n => VNum (Int n)) <$> (snd <$> tickets)).
  { rewrite Hnum, <- list_fmap_compose. reflexivity. }
  assert (Hinj : Inj (=) (=) (fun n : Z => VNum (Int n))).
  { intros x y Hxy. injection Hxy as ->. reflexivity. }
  assert (Hnd : NoDup (snd <$> tickets)) by (rewrite Hseq; apply NoDup_seqZ).
  split; [|split].
  - rewrite Hnum' at 2. rewrite length_fmap, Hseq, length_seqZ.
    rewrite Z2Nat.id by lia. rewrite <- Hseq. exact Hnum'.
  - rewrite Hnum'. apply NoDup_fmap_2; [exact Hinj|exact Hnd].
  - intros i j rqi rqj a b Hi HDi Hj HDj Hra Hrb.
    rewrite Forall_forall in Hrep.
    destruct (Hrep _ Hra) as (rq & Hrq & Hr). cbn [fst snd] in Hrq, Hr.
    rewrite Hi in Hrq. injection Hrq as <-.
    destruct (Hr _ eq_refl HDi) as (n & Hn & Ha). injection Ha as ->.
    destruct (Hrep _ Hrb) as (rq & Hrq & Hr'). cbn [fst snd] in Hrq, Hr'.
    rewrite Hj in Hrq. injection Hrq as <-.
    destruct (Hr' _ eq_refl HDj) as (m & Hm & Hb). injection Hb as ->.
    split; [|split].
    + rewrite Hnum. apply list_elem_of_fmap. exists (i, n). split; [reflexivity|exact Hn].
    + rewrite Hnum. apply list_elem_of_fmap. exists (j, m). split; [reflexivity|exact Hm].
    + intros Hij Hab. injection Hab as ->. apply Hij.
      eapply ticket_owner; eassumption.
Qed.
End Properties.

(** * The statements at concrete inputs

    The scenarios of section 8, run with the decimal instance of the
    built-ins. *)

(** C7, the claim as stated fails: -1 is not a non-negative number, yet
    [bundleTransactionLog(D1, -1, "snapshot")] on the new database D1 is
    not answered with Bad Request; it succeeds and stores -1 as the
    bundle-seq-no of D1. *)
Lemma negative_seqNo_is_accepted :
  Number (VNum (Int (-1))) = Int (-1)
  /\ result_of (run (bundleTransactionLog D1 (VNum (Int (-1))) (VStr "snapshot"))
                  [] created_D1)
     = Returned (successResponse (VObj []))
  /\ (fun database => read database "bundle-seq-no")
       <$> ddb (world_of (run (bundleTransactionLog D1 (VNum (Int (-1)))
                                 (VStr "snapshot")) [] created_D1))
           !! (databaseTable, [D1])
     = Some (VNum (Int (-1))).
Proof. vm_compute. repeat split; reflexivity. Qed.

Lemma bundle_pointer_never_moves_back_witness :
  result_of (run (bundleTransactionLog D1 (VNum (Int 3)) (VStr "snapshotC")) [] bundled_D1)
  = Returned (errorResponse Bad_Request
                "Bundle sequence no must be greater than current bundle")
  /\ s3 (world_of (run (bundleTransactionLog D1 (VNum (Int 3)) (VStr "snapshotC"))
                     [] bundled_D1))
     = s3 bundled_D1.
Proof.
  pose proof (bundle_pointer_never_moves_back D1 (VNum (Int 3)) (VStr "snapshotC")
                (VObj [ ("database-id", D1); ("owner-id", U1);
                        ("database-name", VStr "name");
                        ("bundle-seq-no", VNum (Int 5)) ])
                5 3 [] bundled_D1) as W.
  destruct W as (_ & Hs3 & Hbad & _).
  - vm_compute. reflexivity.
  - reflexivity.
  - reflexivity.
  - lia.
  - split; [apply Hbad; reflexivity|exact Hs3].
Defined.

Lemma commit_success_marks_then_notifies_witness :
  result_of (run (body insert_k) [Answer] created_D1)
  = Returned (successResponse (VObj [("sequenceNo", VNum (Int 1))])).
Proof.
  pose proof (commit_success_marks_then_notifies insert_k "Insert"
                insert_k_transaction U1 Answer [] created_D1) as W.
  destruct W as (Hok & _); [reflexivity|].
  destruct Hok as (Hres & _); [reflexivity|vm_compute; reflexivity|].
  exact Hres.
Defined.

Lemma commit_failure_rolls_back_in_background_witness :
  result_of (run (body insert_k) [Fault (Error "timeout") true] created_D1)
  = Returned (errorResponse Internal_Server_Error
                "Failed to Insert with Error: Failed with Error: timeout.").
Proof.
  pose proof (commit_failure_rolls_back_in_background insert_k "Insert"
                insert_k_transaction U1 (Error "timeout")
                (Fault (Error "timeout") true) [] created_D1) as W.
  destruct W as (Hres & _); [reflexivity|reflexivity|].
  exact Hres.
Defined.

Lemma createDatabase_atomic_and_guarded_witness :
  (result_of (run (createDatabase U1 (VStr "H1") D1 (VStr "name") (VStr "K1") VUndefined)
                [Answer] empty_world)
   = Returned (successResponse (VStr "Success!"))
   /\ ddb (world_of (run (createDatabase U1 (VStr "H1") D1 (VStr "name") (VStr "K1")
                            VUndefined) [Answer] empty_world))
      = <[(userDatabaseTable, [U1; VStr "H1"]) := VObj D1_alias]>
          (<[(databaseTable, [D1]) := VObj D1_record]> ∅))
  /\ (result_of (run (createDatabase U1 (VStr "H2") D1 (VStr "other") (VStr "K2") VUndefined)
                   [Answer] created_D1)
      = Returned (errorResponse Conflict "Database already exists")
      /\ ddb (world_of (run (createDatabase U1 (VStr "H2") D1 (VStr "other") (VStr "K2")
                               VUndefined) [Answer] created_D1))
         = ddb created_D1).
Proof.
  pose proof (createDatabase_atomic_and_guarded U1 (VStr "H1") D1 (VStr "name")
                (VStr "K1") VUndefined Answer [] empty_world
                eq_refl eq_refl eq_refl eq_refl) as Wfree.
  pose proof (createDatabase_atomic_and_guarded U1 (VStr "H2") D1 (VStr "other")
                (VStr "K2") VUndefined Answer [] created_D1
                eq_refl eq_refl eq_refl eq_refl) as Wtaken.
  cbv zeta in Wfree, Wtaken.
  destruct Wfree as (Hsuccess & _). destruct Wtaken as (_ & Hconflict & _).
  split.
  - exact (Hsuccess eq_refl eq_refl eq_refl).
  - apply Hconflict; [reflexivity|]. left. vm_compute. eexists. reflexivity.
Defined.





Lemma getBundle_classifies_fetch_failure_witness :
  result_of (run (getBundle D1 (VNum (Int 7)))
               [Fault (mkError "NoSuchKey" "The specified key does not exist."
                         (VNum (Int 404))) false]
               created_D1)
  = Returned (inl (errorResponse Internal_Server_Error
                     "Failed to query db state with The specified key does not exist.")).
Proof.
  exact (getBundle_classifies_fetch_failure D1 (VNum (Int 7))
           (mkError "NoSuchKey" "The specified key does not exist." (VNum (Int 404)))
           (Fault (mkError "NoSuchKey" "The specified key does not exist."
                     (VNum (Int 404))) false)
           [] created_D1 (or_introl eq_refl) eq_refl).
Defined.

(** The scenarios of section 8. *)

Example first_commit_gets_1_and_batch_gets_2 :
  let w1 := world_of (run (body insert_k) [] created_D1) in
  let two := VArr [ VObj [ ("itemKey", VStr "a"); ("encryptedItem", VStr "ra");
                           ("command", VStr "Insert") ];
                    VObj [ ("itemKey", VStr "b"); ("encryptedItem", VStr "rb");
                           ("command", VStr "Delete") ] ] in
  result_of (run (body insert_k) [] created_D1)
  = Returned (successResponse (VObj [("sequenceNo", VNum (Int 1))]))
  /\ result_of (run (batch U1 D1 two) [] w1)
     = Returned (successResponse (VObj [("sequenceNo", VNum (Int 2))]))
  /\ ddb (world_of (run (batch U1 D1 two) [] w1))
       !! (transactionsTable, [D1; VNum (Int 2)])
     = Some (VObj [ ("database-id", D1); ("command", VStr "Batch");
                    ("operations",
                     VArr [ VObj [ ("key", VStr "a"); ("record", VStr "ra");
                                   ("command", VStr "Insert") ];
                            VObj [ ("key", VStr "b"); ("record", VStr "rb");
                                   ("command", VStr "Delete") ] ]);
                    ("sequence-no", VNum (Int 2)) ]).
Proof. vm_compute. repeat split; reflexivity. Qed.

Example bundle_5_then_3_then_10 :
  result_of (run (getBundle D1 (VNum (Int 5))) [] bundled_D1) = Returned (inr "snapshotA")
  /\ result_of (run (bundleTransactionLog D1 (VNum (Int 3)) (VStr "snapshotC")) [] bundled_D1)
     = Returned (errorResponse Bad_Request
                   "Bundle sequence no must be greater than current bundle")
  /\ (fun database => read database "bundle-seq-no")
       <$> ddb (world_of (run (bundleTransactionLog D1 (VNum (Int 10)) (VStr "snapshotB"))
                            [] bundled_D1))
           !! (databaseTable, [D1])
     = Some (VNum (Int 10)).
Proof. vm_compute. repeat split; reflexivity. Qed.

(** Two commits in flight together, the second one settling first: the
    callers get 2 and 1. *)
Example two_commits_settle_out_of_order :
  replies (steps (idle created_D1)
             [ Invoke insert_k; Invoke insert_k; Complete 1 Answer; Complete 0 Answer ])
  = [ (1%nat, Returned (successResponse (VObj [("sequenceNo", VNum (Int 2))])));
      (0%nat, Returned (successResponse (VObj [("sequenceNo", VNum (Int 1))]))) ].
Proof. vm_compute. reflexivity. Qed.

(** A write that lands although its reply is lost: the caller gets the
    failure, and the rollback, finding the transaction in its slot, marks
    it persisted. *)
Example lost_reply_is_reconciled :
  let s := steps (idle created_D1)
             [ Invoke insert_k; Complete 0 (Fault (Error "timeout") true);
               Complete 0 Answer ] in
  replies s
  = [ (0%nat, Returned (errorResponse Internal_Server_Error
                          "Failed to Insert with Error: Failed with Error: timeout.")) ]
  /\ waiting s = []
  /\ statusOf (env s) !! (D1, VNum (Int 1)) = Some persisted
  /\ (fun item => read item "command")
       <$> ddb (env s) !! (transactionsTable, [D1; VNum (Int 1)])
     = Some (VStr "Insert").
Proof. vm_compute. repeat split; reflexivity. Qed.

Lemma rollback_spares_genuine_transactions_witness :
  ddb (world_of (run (rollbackTransaction insert_k_numbered) [Answer] lost_reply_D1))
  = ddb lost_reply_D1
  /\ ddb lost_reply_D1 !! slot insert_k_numbered = Some insert_k_numbered.
Proof.
  pose proof (rollback_spares_genuine_transactions insert_k_numbered Answer []
                lost_reply_D1) as W.
  cbv zeta in W. destruct W as (_ & _ & _ & Hspared & _).
  split; [|vm_compute; reflexivity].
  apply Hspared. intros [Hempty|(item & Hitem & Hcommand)].
  - vm_compute in Hempty. discriminate.
  - vm_compute in Hitem. injection Hitem as <-. vm_compute in Hcommand. discriminate.
Defined.

Lemma interleaved_commits_get_distinct_contiguous_numbers_witness :
  handed_out D1
    (drop (length (trace created_D1))
       (trace (env (steps (idle created_D1)
                      [ Invoke insert_k; Invoke insert_k;
                        Complete 1 Answer; Complete 0 Answer ]))))
  = [VNum (Int 1); VNum (Int 2)].
Proof.
  pose proof (interleaved_commits_get_distinct_contiguous_numbers D1 created_D1
                [ Invoke insert_k; Invoke insert_k;
                  Complete 1 Answer; Complete 0 Answer ]) as W.
  cbv zeta in W. destruct W as (Hrange & _).
  rewrite Hrange. vm_compute. reflexivity.
Defined.

(** * Further properties of [db.js] *)

Section Further.
Context `{Builtins} `{Connections}.

(** ** createDatabase *)

(** X1. [createDatabase] answers Bad Request exactly when dbNameHash,
    dbId, encryptedDbName or encryptedDbKey is falsy; the message names
    the first of them that is, and no collaborator is called.  userId
    and encryptedMetadata are not checked: with the four fields truthy
    the transactional write is issued whatever they are, and the
    transaction log is initialised exactly when that write succeeds. *)
Theorem createDatabase_rejects_exactly_missing_fields
    (userId dbNameHash dbId encryptedDbName encryptedDbKey encryptedMetadata : value)
    (os : list outcome) (w : world) :
  let required :=
    [ (dbNameHash, "Missing database name hash"); (dbId, "Missing database id");
      (encryptedDbName, "Missing database name"); (encryptedDbKey, "Missing database key") ] in
  let done :=
    run (createDatabase userId dbNameHash dbId encryptedDbName encryptedDbKey
           encryptedMetadata) os w in
  match List.find (fun field => falsy (fst field)) required with
  | Some (_, msg) => done = (Returned (errorResponse Bad_Request msg), w, [])
  | None =>
      (forall msg, result_of done <> Returned (errorResponse Bad_Request msg))
      /\ exists settled,
           trace (world_of done)
           = trace w ++
             Completed (createDatabase_write userId dbNameHash dbId encryptedDbName
                          encryptedDbKey encryptedMetadata) settled
             :: match settled with
                | inl _ => []
                | inr _ => [Called (memcache_initTransactionLog dbId) VUndefined]
                end
  end.
Proof.
  intros required done. subst required done. unfold createDatabase. cbn [find fst].
  destruct (falsy dbNameHash); [reflexivity|].
  destruct (falsy dbId); [reflexivity|].
  destruct (falsy encryptedDbName); [reflexivity|].
  destruct (falsy encryptedDbKey); [reflexivity|].
  fold (Database_record userId dbId encryptedDbName encryptedMetadata).
  fold (UserDatabase_record userId dbNameHash dbId encryptedDbKey).
  fold (createDatabase_write userId dbNameHash dbId encryptedDbName encryptedDbKey
          encryptedMetadata).
  cbn [run try_catch bind await]. unfold do_io.
  pose proof (settle_trace (createDatabase_write userId dbNameHash dbId encryptedDbName
          encryptedDbKey encryptedMetadata) (hd Answer os) w) as Ht.
  destruct (settle _ (hd Answer os) w) as [[e|v] w1]; cbn [snd] in Ht;
    cbn [run try_catch bind call do_sync react emit].
  - destruct (negb (String.eqb (message e) "") && includes "ConditionalCheckFailed" (message e));
      unfold result_of, world_of; cbn [run fst snd trace emit]; rewrite Ht;
      (split; [intros msg; discriminate|exists (inl e); reflexivity]).
  - unfold result_of, world_of; cbn [run fst snd trace emit]. rewrite Ht.
    split; [intros msg; discriminate|]. exists (inr v). rewrite <- app_assoc. reflexivity.
Qed.
(** X2. With its four required fields truthy and a store that answers,
    [createDatabase] succeeds exactly when neither the database id nor
    the owner's alias is taken: it then stores both records, as the
    document client marshals them, and, after the write, initialises
    the transaction log of the new database.
    When either key is taken the response is Conflict, the tables are
    as they were and the transaction log is not initialised. *)
Theorem createDatabase_succeeds_exactly_on_free_keys
    (userId dbNameHash dbId encryptedDbName encryptedDbKey encryptedMetadata : value)
    (os : list outcome) (w : world) :
  truthy dbNameHash = true -> truthy dbId = true ->
  truthy encryptedDbName = true -> truthy encryptedDbKey = true ->
  let database_slot := (databaseTable, [marshal dbId]) in
  let alias_slot := (userDatabaseTable, [marshal userId; marshal dbNameHash]) in
  let write := createDatabase_write userId dbNameHash dbId encryptedDbName
                 encryptedDbKey encryptedMetadata in
  let done :=
    run (createDatabase userId dbNameHash dbId encryptedDbName encryptedDbKey
           encryptedMetadata) (Answer :: os) w in
  if bool_decide (ddb w !! database_slot = None /\ ddb w !! alias_slot = None)
  then
    result_of done = Returned (successResponse (VStr "Success!"))
    /\ ddb (world_of done)
       = <[alias_slot := marshal (UserDatabase_record userId dbNameHash dbId encryptedDbKey)]>
           (<[database_slot := marshal (Database_record userId dbId encryptedDbName encryptedMetadata)]>
              (ddb w))
    /\ trace (world_of done)
       = trace w ++ [ Completed write (inr (VObj []));
                      Called (memcache_initTransactionLog dbId) VUndefined ]
  else
    result_of done = Returned (errorResponse Conflict "Database already exists")
    /\ ddb (world_of done) = ddb w
    /\ exists e, trace (world_of done) = trace w ++ [Completed write (inl e)].
Proof.
  intros Hhash Hid Hname Hkey database_slot alias_slot write done. subst done.
  rewrite createDatabase_symbolic by assumption. fold write.
  unfold do_io. cbn [settle]. unfold write.
  rewrite createDatabase_write_answered. fold database_slot alias_slot write.
  destruct (bool_decide (ddb w !! database_slot = None)) eqn:Hd;
    destruct (bool_decide (ddb w !! alias_slot = None)) eqn:Ha; cbn [andb fst snd].
  1: { apply bool_decide_eq_true_1 in Hd, Ha.
       rewrite bool_decide_eq_true_2 by (split; assumption).
       unfold result_of, world_of. cbn [fst snd do_sync react emit ddb with_ddb trace].
       rewrite <- app_assoc. repeat split; reflexivity. }
  all: rewrite bool_decide_eq_false_2
         by (intros [Hd' Ha'];
             try (apply bool_decide_eq_false_1 in Hd; contradiction);
             try (apply bool_decide_eq_false_1 in Ha; contradiction)).
  all: match goal with
       | |- context [TransactionCanceledException [?a; ?b]] =>
           rewrite (cancellation_is_a_conflict a b eq_refl)
       end.
  all: unfold result_of, world_of; cbn [fst snd ddb trace emit].
  all: repeat split; try reflexivity; eexists; reflexivity.
Qed.

(** X3. A transactional write of [createDatabase] that lands although
    its reply is lost: both records are stored, as the document client
    marshals them, the caller gets an
    Internal Server Error, and the transaction log of the database is
    not initialised.  The same call made again is then answered with
    Conflict and changes nothing. *)
Theorem createDatabase_lost_reply_is_not_repaired
    (userId dbNameHash dbId encryptedDbName encryptedDbKey encryptedMetadata : value)
    (e : error) (os os' : list outcome) (w : world) :
  truthy dbNameHash = true -> truthy dbId = true ->
  truthy encryptedDbName = true -> truthy encryptedDbKey = true ->
  includes "ConditionalCheckFailed" (message e) = false ->
  let database_slot := (databaseTable, [marshal dbId]) in
  let alias_slot := (userDatabaseTable, [marshal userId; marshal dbNameHash]) in
  ddb w !! database_slot = None -> ddb w !! alias_slot = None ->
  let create :=
    createDatabase userId dbNameHash dbId encryptedDbName encryptedDbKey
      encryptedMetadata in
  let done := run create (Fault e true :: os) w in
  let again := run create (Answer :: os') (world_of done) in
  result_of done
  = Returned (errorResponse Internal_Server_Error
                ("Failed to create database with " +:+ error_to_string e))
  /\ ddb (world_of done)
     = <[alias_slot := marshal (UserDatabase_record userId dbNameHash dbId encryptedDbKey)]>
         (<[database_slot := marshal (Database_record userId dbId encryptedDbName encryptedMetadata)]>
            (ddb w))
  /\ (forall v, Called (memcache_initTransactionLog dbId) v
                ∉ drop (length (trace w)) (trace (world_of done)))
  /\ result_of again = Returned (errorResponse Conflict "Database already exists")
  /\ ddb (world_of again) = ddb (world_of done).
Proof.
  intros Hhash Hid Hname Hkey Hmsg database_slot alias_slot Hd Ha create done again.
  subst again done create.
  rewrite !createDatabase_symbolic by assumption.
  unfold do_io. cbn [settle fst snd].
  rewrite Hmsg, andb_false_r.
  rewrite createDatabase_write_answered. fold database_slot alias_slot.
  rewrite !bool_decide_eq_true_2 by assumption. cbn [andb snd].
  unfold result_of, world_of. cbn [fst snd].
  rewrite createDatabase_write_answered. fold database_slot alias_slot.
  cbn [ddb emit with_ddb].
  rewrite (bool_decide_eq_false_2 (_ !! database_slot = None)).
  2: { rewrite lookup_insert_ne by discriminate. rewrite lookup_insert_eq. discriminate. }
  cbn [andb fst snd].
  match goal with
  | |- context [TransactionCanceledException [?a; ?b]] =>
      rewrite (cancellation_is_a_conflict a b eq_refl)
  end.
  cbn [ddb emit with_ddb trace].
  repeat split; try reflexivity.
  intros v. rewrite drop_app_length. intros Hin.
  apply list_elem_of_singleton in Hin. discriminate.
Qed.

(** ** getDatabase and openDatabase *)

Lemma assoc_copied (properties : list (string * value)) (names : list string)
    (target : list (string * value)) (name : string) :
  assoc name (foldl (fun acc k => rebind k (assoc k properties) acc) target names)
  = if bool_decide (name ∈ names) then assoc name properties else assoc name target.
Proof.
  revert target. induction names as [|k names IH]; intros target; cbn [foldl].
  - rewrite bool_decide_eq_false_2 by apply not_elem_of_nil. reflexivity.
  - rewrite IH. destruct (decide (name ∈ names)) as [Hin|Hnot].
    + rewrite !bool_decide_eq_true_2; [reflexivity| |exact Hin].
      apply elem_of_cons. right. exact Hin.
    + rewrite (bool_decide_eq_false_2 _ Hnot).
      destruct (decide (name = k)) as [->|Hne].
      * rewrite bool_decide_eq_true_2 by (apply elem_of_cons; left; reflexivity).
        apply assoc_rebind_same.
      * rewrite bool_decide_eq_false_2.
        -- apply assoc_rebind_other. congruence.
        -- intros Hin. apply elem_of_cons in Hin as [Heq|Hin]; contradiction.
Qed.

(** What [{ ...a, ...b }] answers for a name: the value [b] has for it
    when [b] has the property, the value [a] has otherwise. *)
Lemma read_spread (a b : list (string * value)) (name : string) :
  read (spread (VObj a) (VObj b)) name
  = if bool_decide (name ∈ b.*1) then assoc name b else assoc name a.
Proof.
  unfold spread, assign. cbn [read own_properties]. rewrite !assoc_copied.
  destruct (bool_decide (name ∈ b.*1)); [reflexivity|].
  case_bool_decide as Ha; [reflexivity|].
  cbn [assoc]. symmetry. apply assoc_absent. exact Ha.
Qed.

Lemma get_leaves_the_world (t : table) (key : value) (o : outcome) (w : world) :
  snd (settle (ddb_get t key) o w) = w.
Proof.
  destruct o as [|e [|]]; cbn [settle process snd]; try reflexivity.
  all: destruct (item_at w t key); reflexivity.
Qed.

Lemma get_answered (t : table) (key : value) (w : world) :
  settle (ddb_get t key) Answer w
  = (inr (match ddb w !! (t, key_of t key) with
          | Some item => VObj [("Item", item)]
          | None => VObj []
          end), w).
Proof.
  cbn [settle process]. unfold item_at.
  destruct (ddb w !! (t, key_of t key)); reflexivity.
Qed.

(** The record stored under a key, as the lookups of [db.js] see it: a
    lookup takes a falsy item for no item. *)
Lemma findDatabaseByDatabaseId_answered (dbId : value) (os : list outcome) (w : world) :
  run (findDatabaseByDatabaseId dbId) (Answer :: os) w
  = (Returned (found (ddb w !! (databaseTable, [marshal dbId]))),
     snd (do_io (ddb_get databaseTable (VObj [("database-id", dbId)])) Answer w), []).
Proof.
  unfold findDatabaseByDatabaseId. cbn [run bind await hd tl]. unfold do_io.
  rewrite get_answered.
  change (key_of databaseTable (VObj [("database-id", dbId)])) with [marshal dbId].
  destruct (ddb w !! (databaseTable, [marshal dbId])) as [item|]; cbn [snd run bind found];
    [|reflexivity].
  change (falsy (VObj [("Item", item)])) with false.
  change (read (VObj [("Item", item)]) "Item") with item.
  unfold falsy. destruct (truthy item); reflexivity.
Qed.

Lemma found_is_null_or_truthy (stored : option value) :
  found stored = VNull \/ truthy (found stored) = true.
Proof.
  destruct stored as [item|]; cbn [found]; [|left; reflexivity].
  destruct (truthy item) eqn:E; [right; exact E|left; reflexivity].
Qed.

Lemma getDatabase_answered (userId dbNameHash : value) (os : list outcome) (w : world) :
  let userDb := found (ddb w !! (userDatabaseTable, [marshal userId; marshal dbNameHash])) in
  let database := found (ddb w !! (databaseTable, [marshal (read userDb "database-id")])) in
  let done := run (getDatabase userId dbNameHash) (Answer :: Answer :: os) w in
  result_of done
  = Returned (if truthy userDb && truthy database then spread userDb database else VNull)
  /\ ddb (world_of done) = ddb w
  /\ forked_of done = [].
Proof.
  intros userDb database done. subst done.
  unfold getDatabase. cbn [run bind await hd tl]. unfold do_io.
  rewrite get_answered.
  change (key_of userDatabaseTable
            (VObj [("user-id", userId); ("database-name-hash", dbNameHash)]))
    with [marshal userId; marshal dbNameHash].
  subst database userDb.
  destruct (ddb w !! (userDatabaseTable, [marshal userId; marshal dbNameHash])) as [item|];
    cbn [snd run bind found]; [|repeat split; reflexivity].
  change (falsy (VObj [("Item", item)])) with false.
  change (read (VObj [("Item", item)]) "Item") with item.
  unfold falsy. destruct (truthy item) eqn:Hitem; cbn [negb orb andb run bind];
    [|repeat split; reflexivity].
  unfold findDatabaseByDatabaseId. cbn [run bind await hd tl]. unfold do_io.
  rewrite get_answered.
  change (key_of databaseTable (VObj [("database-id", read item "database-id")]))
    with [marshal (read item "database-id")].
  cbn [ddb emit].
  destruct (ddb w !! (databaseTable, [marshal (read item "database-id")])) as [record|];
    cbn [snd run bind found].
  - change (falsy (VObj [("Item", record)])) with false.
    change (read (VObj [("Item", record)]) "Item") with record.
    unfold falsy. rewrite Hitem.
    destruct (truthy record) eqn:Hrecord; cbn [negb orb andb run bind];
      rewrite ?Hrecord; cbn [negb]; repeat split; reflexivity.
  - rewrite andb_false_r. repeat split; reflexivity.
Qed.

Lemma settle_after_event (c : io) (o : outcome) (ev : event) (w : world) :
  fst (settle c o (emit ev w)) = fst (settle c o w).
Proof. apply (settle_stores c o (emit ev w) w); reflexivity. Qed.

(** The run of [openDatabase], by the way its two lookups settle. *)
Lemma openDatabase_symbolic (userId connectionId dbNameHash : value)
    (os : list outcome) (w : world) :
  truthy dbNameHash = true ->
  let o1 := hd Answer os in
  let o2 := hd Answer (tl os) in
  let done := run (openDatabase userId connectionId dbNameHash) os w in
  result_of done
  = Returned
      match fst (settle (alias_lookup userId dbNameHash) o1 w) with
      | inl e => opening_failure e
      | inr response1 =>
          let userDb := item_of response1 in
          if falsy userDb then errorResponse Not_Found "Database not found" else
          match fst (settle (database_lookup (read userDb "database-id")) o2 w) with
          | inl e => opening_failure e
          | inr response2 =>
              let database := item_of response2 in
              if falsy database then errorResponse Not_Found "Database not found"
              else opened userId connectionId dbNameHash (spread userDb database)
          end
      end
  /\ ddb (world_of done) = ddb w /\ s3 (world_of done) = s3 w
  /\ (exists events,
        trace (world_of done) = trace w ++ events /\ Forall lookup_event events)
  /\ forked_of done = [].
Proof.
  intros Hhash o1 o2 done. subst done.
  assert (Hread : forall (r : completion response) (w' : world) events,
            trace w' = trace w ++ events -> Forall lookup_event events ->
            ddb w' = ddb w -> s3 w' = s3 w ->
            ddb (world_of (r, w', @nil (pending unit))) = ddb w
            /\ s3 (world_of (r, w', @nil (pending unit))) = s3 w
            /\ (exists events',
                  trace (world_of (r, w', @nil (pending unit))) = trace w ++ events'
                  /\ Forall lookup_event events')
            /\ forked_of (r, w', @nil (pending unit)) = []).
  { intros r w' events Ht Hev Hd Hs. unfold world_of, forked_of. cbn [fst snd].
    eauto 10. }
  assert (Hpresent : falsy dbNameHash = false) by (unfold falsy; rewrite Hhash; reflexivity).
  unfold openDatabase, getDatabase, findDatabaseByDatabaseId.
  rewrite Hpresent.
  fold (alias_lookup userId dbNameHash).
  cbn [run try_catch bind await]. fold o1. unfold do_io.
  pose proof (get_leaves_the_world userDatabaseTable
                (VObj [("user-id", userId); ("database-name-hash", dbNameHash)]) o1 w) as L1.
  fold (alias_lookup userId dbNameHash) in L1.
  destruct (settle (alias_lookup userId dbNameHash) o1 w) as [[e|response1] w1].
  all: cbn [fst snd] in *; subst w1; cbn [run try_catch bind].
  { cbn [run]. split; [reflexivity|].
    eapply Hread;
      [cbn [trace emit]; rewrite <- ?app_assoc; reflexivity
      |repeat (apply Forall_cons_2; [exact I|]); apply Forall_nil_2
      |reflexivity..]. }
  unfold item_of.
  destruct (falsy response1 || falsy (read response1 "Item")) eqn:Hnone;
    cbn [run try_catch bind].
  { cbn [run]. split; [reflexivity|].
    eapply Hread;
      [cbn [trace emit]; rewrite <- ?app_assoc; reflexivity
      |repeat (apply Forall_cons_2; [exact I|]); apply Forall_nil_2
      |reflexivity..]. }
  cbv zeta.
  assert (Hitem : falsy (read response1 "Item") = false).
  { apply orb_false_elim in Hnone as [_ Hitem]. exact Hitem. }
  rewrite Hitem.
  fold (database_lookup (read (read response1 "Item") "database-id")).
  unfold do_io.
  fold o2.
  match goal with
  | |- context [settle ?c o2 (emit ?ev w)] =>
      pose proof (settle_after_event c o2 ev w) as F2;
      pose proof (get_leaves_the_world databaseTable
                    (VObj [("database-id", read (read response1 "Item") "database-id")])
                    o2 (emit ev w)) as L2;
      fold (database_lookup (read (read response1 "Item") "database-id")) in L2;
      destruct (settle c o2 (emit ev w)) as [r2 w2]
  end.
  cbn [fst snd] in *. subst w2. rewrite <- F2.
  destruct r2 as [e|response2]; cbn [run try_catch bind].
  { cbn [run]. split; [reflexivity|].
    eapply Hread;
      [cbn [trace emit]; rewrite <- ?app_assoc; reflexivity
      |repeat (apply Forall_cons_2; [exact I|]); apply Forall_nil_2
      |reflexivity..]. }
  destruct (falsy response2 || falsy (read response2 "Item")) eqn:Hnone2;
    cbn [run try_catch bind].
  { cbn [run]. split; [reflexivity|].
    eapply Hread;
      [cbn [trace emit]; rewrite <- ?app_assoc; reflexivity
      |repeat (apply Forall_cons_2; [exact I|]); apply Forall_nil_2
      |reflexivity..]. }
  assert (Hitem2 : falsy (read response2 "Item") = false).
  { apply orb_false_elim in Hnone2 as [_ Hitem2]. exact Hitem2. }
  rewrite Hitem2. cbn [run try_catch bind].
  change (falsy (spread (read response1 "Item") (read response2 "Item"))) with false.
  cbv iota. unfold opened.
  destruct (truthy (connections_openDatabase _ _ _ _ _ _)); cbn [run try_catch bind];
    cbn [run]; (split; [reflexivity|]);
    (eapply Hread;
       [cbn [trace emit]; rewrite <- ?app_assoc; reflexivity
       |repeat (apply Forall_cons_2; [exact I|]); apply Forall_nil_2
       |reflexivity..]).
Qed.

(** X4. With a store that answers, [getDatabase] returns [null] exactly
    when one half is missing: no UserDatabase record is stored under
    (userId, dbNameHash), or no Database record under the database-id
    that record names.  It writes nothing. *)
Theorem getDatabase_is_null_exactly_when_a_half_is_missing
    (userId dbNameHash : value) (os : list outcome) (w : world) :
  let userDb := found (ddb w !! (userDatabaseTable, [marshal userId; marshal dbNameHash])) in
  let database := found (ddb w !! (databaseTable, [marshal (read userDb "database-id")])) in
  let done := run (getDatabase userId dbNameHash) (Answer :: Answer :: os) w in
  (result_of done = Returned VNull <-> userDb = VNull \/ database = VNull)
  /\ (userDb <> VNull -> database <> VNull ->
      result_of done = Returned (spread userDb database))
  /\ ddb (world_of done) = ddb w.
Proof.
  intros userDb database done.
  destruct (getDatabase_answered userId dbNameHash os w) as (Hres & Hddb & _).
  fold userDb database done in Hres, Hddb.
  rewrite Hres. split; [|split; [|exact Hddb]].
  - destruct (found_is_null_or_truthy (ddb w !! (userDatabaseTable, [marshal userId; marshal dbNameHash])))
      as [Hu|Hu]; fold userDb in Hu.
    { rewrite Hu. cbn [truthy andb]. split; [intros _; left|]; reflexivity. }
    destruct (found_is_null_or_truthy (ddb w !! (databaseTable, [marshal (read userDb "database-id")])))
      as [Hd|Hd]; fold database in Hd.
    { rewrite Hd, andb_false_r. split; [intros _; right|]; reflexivity. }
    rewrite Hu, Hd. cbn [andb]. split; [discriminate|].
    intros [Hn|Hn]; rewrite Hn in *; discriminate.
  - intros Hu Hd.
    destruct (found_is_null_or_truthy (ddb w !! (userDatabaseTable, [marshal userId; marshal dbNameHash])))
      as [Hu'|Hu']; fold userDb in Hu'; [contradiction|].
    destruct (found_is_null_or_truthy (ddb w !! (databaseTable, [marshal (read userDb "database-id")])))
      as [Hd'|Hd']; fold database in Hd'; [contradiction|].
    rewrite Hu', Hd'. reflexivity.
Qed.

(** X5. When both records are stored, [getDatabase] returns their
    merge [{ ...userDb, ...database }]: for every attribute the Database
    record has, the merged view carries the value of the Database
    record, and for every other attribute that of the UserDatabase
    record. *)
Theorem getDatabase_merges_with_the_database_record_on_top
    (userId dbNameHash : value) (userDb database : list (string * value))
    (os : list outcome) (w : world) :
  ddb w !! (userDatabaseTable, [marshal userId; marshal dbNameHash]) = Some (VObj userDb) ->
  ddb w !! (databaseTable, [marshal (assoc "database-id" userDb)]) = Some (VObj database) ->
  exists merged,
    result_of (run (getDatabase userId dbNameHash) (Answer :: Answer :: os) w)
    = Returned merged
    /\ forall name,
         read merged name
         = if bool_decide (name ∈ database.*1) then assoc name database
           else assoc name userDb.
Proof.
  intros Halias Hdb.
  destruct (getDatabase_answered userId dbNameHash os w) as (Hres & _).
  cbv zeta in Hres. rewrite Halias in Hres. cbn [found truthy read] in Hres.
  rewrite Hdb in Hres. cbn [found truthy andb] in Hres.
  exists (spread (VObj userDb) (VObj database)). split; [exact Hres|].
  intros name. apply read_spread.
Qed.

(** ** openDatabase *)

Lemma item_of_answer (stored : option value) :
  item_of (match stored with
           | Some item => VObj [("Item", item)]
           | None => VObj []
           end) = found stored.
Proof.
  destruct stored as [item|]; [|reflexivity].
  unfold item_of, found, falsy. cbn [read assoc].
  change (String.eqb "Item" "Item") with true. cbv iota. cbn [truthy negb orb].
  destruct (truthy item); reflexivity.
Qed.

(** The response of [openDatabase] when both lookups are answered. *)
Lemma openDatabase_answered (userId connectionId dbNameHash : value)
    (os : list outcome) (w : world) :
  truthy dbNameHash = true ->
  let userDb := found (ddb w !! (userDatabaseTable, [marshal userId; marshal dbNameHash])) in
  let database := found (ddb w !! (databaseTable, [marshal (read userDb "database-id")])) in
  result_of (run (openDatabase userId connectionId dbNameHash) (Answer :: Answer :: os) w)
  = Returned (if truthy userDb && truthy database
              then opened userId connectionId dbNameHash (spread userDb database)
              else errorResponse Not_Found "Database not found").
Proof.
  intros Hhash userDb database.
  destruct (openDatabase_symbolic userId connectionId dbNameHash
              (Answer :: Answer :: os) w Hhash) as (Hres & _).
  cbv zeta in Hres. cbn [hd tl] in Hres. rewrite Hres. clear Hres.
  unfold alias_lookup. rewrite get_answered.
  change (key_of userDatabaseTable
            (VObj [("user-id", userId); ("database-name-hash", dbNameHash)]))
    with [marshal userId; marshal dbNameHash].
  cbn [fst]. rewrite item_of_answer. fold userDb.
  unfold falsy at 1. destruct (truthy userDb); cbn [negb andb]; [|reflexivity].
  unfold database_lookup. rewrite get_answered.
  change (key_of databaseTable (VObj [("database-id", read userDb "database-id")]))
    with [marshal (read userDb "database-id")].
  cbn [fst]. rewrite item_of_answer. fold database.
  unfold falsy. destruct (truthy database); reflexivity.
Qed.

(** X6. [openDatabase] with a name hash and a store that answers: when
    both records are stored it asks the registry to bind the connection,
    handing it the database-id, the bundle-seq-no and the
    encrypted-db-key of the merged record (the Database record's value
    where it has the attribute, the UserDatabase record's otherwise),
    and answers "Success!" exactly when the registry's answer is
    truthy; a refusal becomes an Internal Server Error. *)
Theorem openDatabase_binds_with_the_merged_record
    (userId connectionId dbNameHash : value) (userDb database : list (string * value))
    (os : list outcome) (w : world) :
  truthy dbNameHash = true ->
  ddb w !! (userDatabaseTable, [marshal userId; marshal dbNameHash]) = Some (VObj userDb) ->
  ddb w !! (databaseTable, [marshal (assoc "database-id" userDb)]) = Some (VObj database) ->
  let field name :=
    if bool_decide (name ∈ database.*1) then assoc name database
    else assoc name userDb in
  result_of (run (openDatabase userId connectionId dbNameHash) (Answer :: Answer :: os) w)
  = Returned
      (if truthy (connections_openDatabase userId connectionId (field "database-id")
                    (field "bundle-seq-no") dbNameHash (field "encrypted-db-key"))
       then successResponse (VStr "Success!")
       else errorResponse Internal_Server_Error
              "Failed to create database with Error: Unable to open database").
Proof.
  intros Hhash Halias Hdb field.
  rewrite openDatabase_answered by exact Hhash.
  rewrite Halias. cbn [found truthy read]. rewrite Hdb. cbn [found truthy andb].
  unfold opened. rewrite !read_spread. reflexivity.
Qed.

(** X7. [openDatabase] without a name hash answers Bad Request and
    issues no request.  With one, and a store that answers, it answers
    Not Found "Database not found" exactly when a half is missing: no
    UserDatabase record under (userId, dbNameHash), or no Database
    record under the database-id that record names. *)
Theorem openDatabase_not_found_exactly_when_a_half_is_missing
    (userId connectionId dbNameHash : value) (os : list outcome) (w : world) :
  let userDb := found (ddb w !! (userDatabaseTable, [marshal userId; marshal dbNameHash])) in
  let database := found (ddb w !! (databaseTable, [marshal (read userDb "database-id")])) in
  if truthy dbNameHash
  then
    result_of (run (openDatabase userId connectionId dbNameHash) (Answer :: Answer :: os) w)
    = Returned (errorResponse Not_Found "Database not found")
    <-> userDb = VNull \/ database = VNull
  else
    run (openDatabase userId connectionId dbNameHash) os w
    = (Returned (errorResponse Bad_Request "Missing database name hash"), w, []).
Proof.
  intros userDb database.
  destruct (truthy dbNameHash) eqn:Hhash.
  2: { unfold openDatabase, falsy. rewrite Hhash. reflexivity. }
  rewrite openDatabase_answered by exact Hhash. fold userDb database.
  destruct (found_is_null_or_truthy (ddb w !! (userDatabaseTable, [marshal userId; marshal dbNameHash])))
    as [Hu|Hu]; fold userDb in Hu.
  { rewrite Hu. cbn. split; [intros _; left|]; reflexivity. }
  destruct (found_is_null_or_truthy (ddb w !! (databaseTable, [marshal (read userDb "database-id")])))
    as [Hd|Hd]; fold database in Hd.
  { rewrite Hd, andb_false_r. split; [intros _; right|]; reflexivity. }
  rewrite Hu, Hd. cbn [andb]. unfold opened, opening_failure.
  split.
  - destruct (truthy (connections_openDatabase _ _ _ _ _ _)); discriminate.
  - intros [Hn|Hn]; rewrite Hn in *; discriminate.
Qed.


(** ** From createDatabase to the lookups *)

Lemma createDatabase_success_stores
    (userId dbNameHash dbId encryptedDbName encryptedDbKey encryptedMetadata data : value)
    (o : outcome) (os : list outcome) (w : world) :
  let done :=
    run (createDatabase userId dbNameHash dbId encryptedDbName encryptedDbKey
           encryptedMetadata) (o :: os) w in
  result_of done = Returned (successResponse data) ->
  truthy dbNameHash = true /\ truthy dbId = true
  /\ ddb (world_of done)
     = <[(userDatabaseTable, [marshal userId; marshal dbNameHash])
         := marshal (UserDatabase_record userId dbNameHash dbId encryptedDbKey)]>
         (<[(databaseTable, [marshal dbId])
            := marshal (Database_record userId dbId encryptedDbName encryptedMetadata)]> (ddb w)).
Proof.
  intros done Hok. subst done.
  destruct (truthy dbNameHash) eqn:Hhash;
    [|unfold createDatabase, falsy in Hok; rewrite Hhash in Hok; discriminate].
  destruct (truthy dbId) eqn:Hid;
    [|unfold createDatabase, falsy in Hok; rewrite Hhash, Hid in Hok; discriminate].
  destruct (truthy encryptedDbName) eqn:Hname;
    [|unfold createDatabase, falsy in Hok; rewrite Hhash, Hid, Hname in Hok; discriminate].
  destruct (truthy encryptedDbKey) eqn:Hkey;
    [|unfold createDatabase, falsy in Hok; rewrite Hhash, Hid, Hname, Hkey in Hok;
      discriminate].
  split; [reflexivity|]. split; [reflexivity|].
  rewrite createDatabase_symbolic in * by assumption.
  unfold do_io in *.
  destruct o as [|e applied]; cbn [settle fst snd] in *.
  - rewrite createDatabase_write_answered in *.
    destruct (bool_decide _ && bool_decide _); cbn [fst snd] in *.
    + reflexivity.
    + unfold result_of in Hok. cbn [fst] in Hok.
      destruct (negb _ && includes _ _) in Hok; discriminate.
  - unfold result_of in Hok.
    destruct applied; cbn [fst] in Hok;
      destruct (negb _ && includes _ _) in Hok; discriminate.
Qed.

Lemma read_spread_marshal (a b : list (string * value)) (name : string) :
  NoDup a.*1 -> NoDup b.*1 ->
  read (spread (marshal (VObj a)) (marshal (VObj b))) name
  = if bool_decide (assoc name b = VUndefined) then marshal (assoc name a)
    else marshal (assoc name b).
Proof.
  intros Ha Hb. cbn [marshal]. rewrite read_spread.
  pose proof (marshalled_names b name Hb) as Hnames.
  pose proof (read_marshal a name Ha) as Hreada.
  pose proof (read_marshal b name Hb) as Hreadb.
  cbn [marshal read] in Hreada, Hreadb.
  case_bool_decide as Hin; case_bool_decide as Hundef; tauto.
Qed.

Lemma alias_names (userId dbNameHash dbId encryptedDbKey : value) :
  match UserDatabase_record userId dbNameHash dbId encryptedDbKey with
  | VObj fields => NoDup fields.*1
  | _ => False
  end.
Proof. apply (bool_decide_unpack _). vm_compute. reflexivity. Qed.

Lemma database_names (userId dbId encryptedDbName encryptedMetadata : value) :
  match Database_record userId dbId encryptedDbName encryptedMetadata with
  | VObj fields => NoDup fields.*1
  | _ => False
  end.
Proof. apply (bool_decide_unpack _). vm_compute. reflexivity. Qed.

(** X9. What [createDatabase] stores is what the lookups return: after
    a call that returned its success response,
    [findDatabaseByDatabaseId(dbId)] returns the Database record as the
    document client wrote it, which has exactly the attributes that
    were given a value (no metadata, when none was given), and
    [getDatabase(userId, dbNameHash)] returns the merge of the stored
    UserDatabase record and that record (lookups answered by the
    store). *)
Theorem created_database_is_found
    (userId dbNameHash dbId encryptedDbName encryptedDbKey encryptedMetadata data : value)
    (o : outcome) (os os1 os2 : list outcome) (w : world) :
  let done :=
    run (createDatabase userId dbNameHash dbId encryptedDbName encryptedDbKey
           encryptedMetadata) (o :: os) w in
  let given := Database_record userId dbId encryptedDbName encryptedMetadata in
  let database := marshal given in
  let userDatabase := marshal (UserDatabase_record userId dbNameHash dbId encryptedDbKey) in
  result_of done = Returned (successResponse data) ->
  result_of (run (findDatabaseByDatabaseId dbId) (Answer :: os1) (world_of done))
  = Returned database
  /\ result_of (run (getDatabase userId dbNameHash) (Answer :: Answer :: os2) (world_of done))
     = Returned (spread userDatabase database)
  /\ forall name,
       (name ∈ (own_properties database).*1 <-> read given name <> VUndefined)
       /\ read database name = marshal (read given name).
Proof.
  intros done given database userDatabase Hok.
  destruct (createDatabase_success_stores _ _ _ _ _ _ _ _ _ _ Hok) as (_ & _ & Hddb).
  fold done given database userDatabase in Hddb.
  pose proof (alias_names userId dbNameHash dbId encryptedDbKey) as Halias.
  pose proof (database_names userId dbId encryptedDbName encryptedMetadata) as Hnames.
  cbn [UserDatabase_record Database_record] in Halias, Hnames.
  assert (Hfound : ddb (world_of done) !! (databaseTable, [marshal dbId]) = Some database).
  { rewrite Hddb, lookup_insert_ne by discriminate. apply lookup_insert_eq. }
  split; [|split].
  - rewrite findDatabaseByDatabaseId_answered. unfold result_of. cbn [fst].
    rewrite Hfound. reflexivity.
  - destruct (getDatabase_answered userId dbNameHash os2 (world_of done)) as (Hres & _).
    cbv zeta in Hres. rewrite Hres, Hddb, lookup_insert_eq.
    fold userDatabase. cbn [found].
    assert (Hid : read userDatabase "database-id" = marshal dbId).
    { subst userDatabase. unfold UserDatabase_record.
      rewrite read_marshal by exact Halias. reflexivity. }
    change (truthy userDatabase) with true. cbv iota.
    rewrite Hid, marshal_idempotent, <- Hddb, Hfound. reflexivity.
  - intros name. subst database given. unfold Database_record.
    split; [apply marshalled_names; exact Hnames|apply read_marshal; exact Hnames].
Qed.

(** X10. A database that was just created opens without a bundle: after
    a [createDatabase] that returned its success response,
    [openDatabase(userId, connectionId, dbNameHash)] hands the registry
    the database id and the encrypted key that were given to
    [createDatabase], as the document client stored them, and
    [undefined] as bundle sequence number, and answers "Success!"
    exactly when the registry's answer is truthy. *)
Theorem created_database_opens_without_a_bundle
    (userId dbNameHash dbId encryptedDbName encryptedDbKey encryptedMetadata data : value)
    (connectionId : value) (o : outcome) (os os' : list outcome) (w : world) :
  let done :=
    run (createDatabase userId dbNameHash dbId encryptedDbName encryptedDbKey
           encryptedMetadata) (o :: os) w in
  result_of done = Returned (successResponse data) ->
  result_of (run (openDatabase userId connectionId dbNameHash) (Answer :: Answer :: os')
               (world_of done))
  = Returned
      (if truthy (connections_openDatabase userId connectionId (marshal dbId) VUndefined
                    dbNameHash (marshal encryptedDbKey))
       then successResponse (VStr "Success!")
       else errorResponse Internal_Server_Error
              "Failed to create database with Error: Unable to open database").
Proof.
  intros done Hok.
  destruct (createDatabase_success_stores _ _ _ _ _ _ _ _ _ _ Hok)
    as (Hhash & Hid & Hddb).
  fold done in Hddb.
  pose proof (alias_names userId dbNameHash dbId encryptedDbKey) as Halias.
  pose proof (database_names userId dbId encryptedDbName encryptedMetadata) as Hnames.
  cbn [UserDatabase_record Database_record] in Halias, Hnames.
  rewrite openDatabase_answered by exact Hhash.
  set (alias := marshal (UserDatabase_record userId dbNameHash dbId encryptedDbKey)) in *.
  set (record := marshal (Database_record userId dbId encryptedDbName encryptedMetadata))
    in *.
  assert (Hread : read alias "database-id" = marshal dbId).
  { subst alias. unfold UserDatabase_record. rewrite read_marshal by exact Halias.
    reflexivity. }
  assert (Halias_found : found (Some alias) = alias) by reflexivity.
  assert (Hrecord_found : found (Some record) = record) by reflexivity.
  rewrite Hddb, lookup_insert_eq, Halias_found, Hread, marshal_idempotent.
  rewrite lookup_insert_ne by discriminate. rewrite lookup_insert_eq, Hrecord_found.
  change (truthy alias && truthy record) with true.
  subst alias record. unfold UserDatabase_record, Database_record.
  cbv iota. unfold opened. rewrite !read_spread_marshal by assumption.
  cbn [assoc String.eqb Ascii.eqb Bool.eqb].
  rewrite (bool_decide_eq_false_2 (dbId = VUndefined))
    by (intros ->; discriminate).
  rewrite !(bool_decide_eq_true_2 (VUndefined = VUndefined)) by reflexivity.
  reflexivity.
Qed.

(** ** batch *)

(** X11. [batch] stops at the first operation that lacks a field: when
    the operations before index [i] are complete and operation [i] is an
    object without a truthy itemKey, encryptedItem or command, the
    response is the Bad Request "Operation [i] missing ..." naming the
    first field it lacks (key before record before command), whatever
    follows; no collaborator is called and nothing is assigned or
    written. *)
Theorem batch_reports_the_first_incomplete_operation
    (userId databaseId : value) (good : list value) (bad : value) (rest : list value)
    (os : list outcome) (w : world) :
  truthy databaseId = true ->
  forallb complete good = true ->
  nullish bad = false -> missing_field bad = true ->
  run (batch userId databaseId (VArr (good ++ bad :: rest))) os w
  = (Returned (errorResponse Bad_Request
                 ("Operation " +:+ pretty (length good) +:+ " missing " +:+ lacking bad)),
     w, []).
Proof.
  intros Hdb Hgood Hobject Hmissing.
  rewrite batch_enters_the_loop by (exact Hdb || (destruct good; discriminate)).
  pose proof (batch_loop_stops good bad [] rest [] Hgood) as Hloop.
  cbn [app length] in Hloop. rewrite Hloop.
  2: { unfold complete. rewrite Hmissing, andb_false_r. reflexivity. }
  rewrite Hobject. reflexivity.
Qed.

(** X12. An operation that is [null] or [undefined] is not reported:
    the loop of [batch] reads its fields outside the [try], so when the
    operations before it are complete the call throws a TypeError (the
    promise of [batch] is rejected) instead of returning a response.
    Nothing is assigned or written. *)
Theorem batch_rejects_on_a_null_operation
    (userId databaseId : value) (good : list value) (bad : value) (rest : list value)
    (os : list outcome) (w : world) :
  truthy databaseId = true ->
  forallb complete good = true ->
  nullish bad = true ->
  exists msg,
    run (batch userId databaseId (VArr (good ++ bad :: rest))) os w
    = (Thrown (TypeError msg), w, []).
Proof.
  intros Hdb Hgood Hnull.
  rewrite batch_enters_the_loop by (exact Hdb || (destruct good; discriminate)).
  pose proof (batch_loop_stops good bad [] rest [] Hgood) as Hloop.
  cbn [app length] in Hloop. rewrite Hloop.
  2: { unfold complete. rewrite Hnull. reflexivity. }
  rewrite Hnull. eexists. reflexivity.
Qed.

(** ** Commits that fail *)

(** A rollback taken up again after its write has settled does what a
    rollback run on its own does. *)
Lemma rollback_resumes (transaction : value) (w : world) :
  nullish transaction = false ->
  exists k,
    exec (rollbackTransaction transaction) w
    = (Awaiting (rollback_put transaction) k, w, [])
    /\ forall o w1,
         exec (k (fst (do_io (rollback_put transaction) o w1)))
           (snd (do_io (rollback_put transaction) o w1))
         = (Finished (result_of (run (rollbackTransaction transaction) [o] w1)),
            world_of (run (rollbackTransaction transaction) [o] w1), []).
Proof.
  intros Hobject. rewrite rollbackTransaction_object by exact Hobject.
  unfold rollback_write.
  eexists. split; [reflexivity|]. intros o w1.
  cbn [run try_catch bind await hd tl].
  destruct (do_io (rollback_put transaction) o w1) as [[e|v] w2];
    cbn [fst snd exec run try_catch bind call do_sync react].
  - destruct (String.eqb (name e) "ConditionalCheckFailedException");
      cbn [fst snd exec run try_catch bind call do_sync react]; reflexivity.
  - reflexivity.
Qed.

(** A commit whose write fails, followed by its rollback, with nothing
    else in between. *)
Lemma commit_fails_then_rolls_back
    (rq : request) (label : string) (transaction userId : value) (e : error)
    (o o' : outcome) (w : world) :
  body rq = commit label transaction userId ->
  let numbered := numbered_in w transaction in
  fst (settle (commit_put numbered) o w) = inl e ->
  let s := steps (idle w) [Invoke rq; Complete 0 o; Complete 0 o'] in
  let w3 := world_of (run (body rq) [o] w) in
  replies s
  = [(0%nat, Returned (errorResponse Internal_Server_Error
                         ("Failed to " +:+ label +:+ " with "
                          +:+ error_to_string (commit_failure e))))]
  /\ waiting s = []
  /\ env s = world_of (run (rollbackTransaction numbered) [o'] w3)
  /\ w3 = snd (do_sync (logger_warn (rolling_back numbered e))
                 (snd (do_io (commit_put numbered) o
                         (snd (do_sync (memcache_pushTransaction transaction) w))))).
Proof.
  intros Hacc numbered Hfail s w3.
  assert (Hw3 : w3 = snd (do_sync (logger_warn (rolling_back numbered e))
                 (snd (do_io (commit_put numbered) o
                         (snd (do_sync (memcache_pushTransaction transaction) w)))))).
  { subst w3. rewrite Hacc, run_commit. fold numbered. rewrite Hfail. reflexivity. }
  pose proof (settle_stores (commit_put numbered) o
                (snd (do_sync (memcache_pushTransaction transaction) w)) w
                (do_sync_ddb _ _) (do_sync_s3 _ _)) as (Hr & _).
  rewrite Hfail in Hr.
  rewrite Hw3. clear Hw3 w3. subst s.
  unfold steps, idle. cbn [foldl step env waiting replies issued].
  rewrite Hacc.
  unfold commit, putTransaction.
  cbn [exec try_catch bind call await do_sync react park lookup].
  fold (number_in w transaction). fold (numbered_in w transaction). fold numbered.
  fold (commit_put numbered).
  change (emit (Called (memcache_pushTransaction transaction) numbered) _)
    with (snd (do_sync (memcache_pushTransaction transaction) w)).
  set (w1 := snd (do_sync (memcache_pushTransaction transaction) w)) in *.
  cbn [app backgrounds flat_map lookup list_lookup waiting env replies issued].
  unfold do_io. destruct (settle (commit_put numbered) o w1) as [r w2] eqn:Hsettle.
  cbn [fst] in Hr. subst r.
  cbn [exec try_catch bind call await fork do_sync react park delete list_delete
       app backgrounds flat_map replies waiting].
  match goal with
  | |- context [exec (rollbackTransaction numbered) ?w3] =>
      destruct (rollback_resumes numbered w3 (numbered_is_an_object w transaction))
        as (k & Hk & Hresume); rewrite Hk
  end.
  cbn [park app backgrounds flat_map replies waiting env issued lookup list_lookup].
  match goal with
  | |- context [settle (rollback_put numbered) o' ?w3] =>
      specialize (Hresume o' w3); unfold do_io in Hresume;
      destruct (settle (rollback_put numbered) o' w3) as [r' w4]
  end.
  cbn [fst snd] in Hresume. rewrite Hresume.
  cbn [replies waiting env delete list_delete app backgrounds flat_map snd].
  rewrite ?Hsettle. cbn [snd].
  repeat split; reflexivity.
Qed.

Lemma commit_put_refused (numbered item : value) (w : world) :
  ddb w !! slot numbered = Some item ->
  settle (commit_put numbered) Answer w = (inl ConditionalCheckFailedException, w).
Proof.
  intros Htaken. unfold commit_put. cbn [settle process].
  rewrite key_guard by (repeat constructor).
  change (transactionsTable, key_of transactionsTable numbered) with (slot numbered).
  rewrite bool_decide_eq_false_2 by (rewrite Htaken; discriminate). reflexivity.
Qed.

(** X13. A commit whose slot is taken: when the number the Sequencer
    hands out names a slot of the log that already holds a record which
    is not a rollback marker, the guarded write is refused, the caller
    gets an Internal Server Error, and the rollback that follows is
    refused as well; it then reports the caller's transaction to the
    Sequencer as persisted.  The record in the slot is the one that was
    there before: the tables are unchanged. *)
Theorem commit_into_a_taken_slot_is_reported_persisted
    (rq : request) (label : string) (transaction userId item : value) (w : world) :
  body rq = commit label transaction userId ->
  let numbered := numbered_in w transaction in
  ddb w !! slot numbered = Some item ->
  read item "command" <> VStr "rollback" ->
  let s := steps (idle w) [Invoke rq; Complete 0 Answer; Complete 0 Answer] in
  replies s
  = [(0%nat, Returned (errorResponse Internal_Server_Error
                         ("Failed to " +:+ label +:+ " with "
                          +:+ error_to_string
                                (commit_failure ConditionalCheckFailedException))))]
  /\ waiting s = []
  /\ ddb (env s) = ddb w
  /\ trace (env s)
     = trace w ++
       [ Called (memcache_pushTransaction transaction) numbered;
         Completed (commit_put numbered) (inl ConditionalCheckFailedException);
         Called (logger_warn (rolling_back numbered ConditionalCheckFailedException))
           VUndefined;
         Completed (rollback_put numbered) (inl ConditionalCheckFailedException);
         Called (memcache_transactionPersistedToDdb numbered) VUndefined;
         Called (logger_info "Failed to rollback -- transaction already persisted to disk")
           VUndefined ].
Proof.
  intros Hacc numbered Htaken Hgenuine s.
  destruct (commit_fails_then_rolls_back rq label transaction userId
              ConditionalCheckFailedException Answer Answer w Hacc)
    as (Hreplies & Hwaiting & Henv & Hw3).
  { fold numbered. rewrite (commit_put_refused numbered item w Htaken). reflexivity. }
  fold numbered s in Hreplies, Hwaiting, Henv, Hw3.
  split; [exact Hreplies|]. split; [exact Hwaiting|].
  rewrite Henv, Hw3, run_rollback by apply numbered_is_an_object.
  unfold world_of. cbn [fst snd].
  set (w0 := snd (do_sync (memcache_pushTransaction transaction) w)).
  assert (Hput : settle (commit_put numbered) Answer w0
                 = (inl ConditionalCheckFailedException, w0)).
  { apply (commit_put_refused numbered item). exact Htaken. }
  rewrite (do_io_unfold (commit_put numbered)), Hput. cbn [fst snd].
  set (w3 := snd (do_sync (logger_warn (rolling_back numbered ConditionalCheckFailedException))
                    (emit (Completed (commit_put numbered)
                             (inl ConditionalCheckFailedException)) w0))).
  assert (Hroll : settle (rollback_put numbered) Answer w3
                  = (inl ConditionalCheckFailedException, w3)).
  { rewrite rollback_put_answered.
    change (ddb w3) with (ddb w). rewrite Htaken.
    rewrite bool_decide_eq_false_2 by exact Hgenuine. reflexivity. }
  rewrite (do_io_unfold (rollback_put numbered)), Hroll.
  cbn [fst snd name ConditionalCheckFailedException].
  change (String.eqb "ConditionalCheckFailedException" "ConditionalCheckFailedException")
    with true. cbv iota.
  split; [reflexivity|].
  cbn [do_sync react snd trace emit]. subst w3 w0.
  cbn [do_sync react snd trace emit].
  fold (number_in w transaction). fold (numbered_in w transaction). fold numbered.
  rewrite <- !app_assoc. reflexivity.
Qed.

Lemma accepted_marker (rq : request) (label : string) (transaction userId : value)
    (w : world) :
  accepted rq = Some (label, transaction, userId) ->
  rollback_marker (numbered_in w transaction)
  = VObj [ ("database-id", database_of rq);
           ("sequence-no", VNum (Int (next_of w (database_of rq))));
           ("item-id", VUndefined);
           ("command", VStr "rollback") ].
Proof.
  destruct rq as [command user databaseId key record|user databaseId operations];
    cbn [accepted database_of].
  - destruct (truthy databaseId && truthy key && truthy record); [|discriminate].
    intros [= <- <- <-]. reflexivity.
  - destruct operations as [| | | | | |[|op ops]|]; try discriminate.
    destruct (truthy databaseId && forallb complete (op :: ops)); [|discriminate].
    intros [= <- <- <-]. reflexivity.
Qed.

Lemma accepted_database (rq : request) (label : string) (transaction userId : value) :
  accepted rq = Some (label, transaction, userId) -> database_of rq <> VUndefined.
Proof.
  destruct rq as [command user databaseId key record|user databaseId operations];
    cbn [accepted database_of].
  - destruct databaseId; try discriminate; intros _; discriminate.
  - destruct operations as [| | | | | |[|op ops]|]; try discriminate.
    destruct databaseId; try discriminate; intros _; discriminate.
Qed.

(** X14. A commit whose write fails without landing, followed by its
    rollback: when the slot is empty and the rollback's write is
    answered, the caller has the Internal Server Error and the slot
    holds the rollback marker, which the Sequencer is told about.  The
    marker carries the database id and the sequence number of the
    failed transaction and the command "rollback"; its item-id is
    [undefined], since the transactions of [doCommand] and [batch] have
    no such attribute, so the record that is stored has no item-id. *)
Theorem failed_commit_leaves_a_rollback_marker
    (rq : request) (label : string) (transaction userId : value) (e : error) (w : world) :
  accepted rq = Some (label, transaction, userId) ->
  let numbered := numbered_in w transaction in
  let marker :=
    VObj [ ("database-id", database_of rq);
           ("sequence-no", VNum (Int (next_of w (database_of rq))));
           ("item-id", VUndefined);
           ("command", VStr "rollback") ] in
  let stored :=
    VObj [ ("database-id", marshal (database_of rq));
           ("sequence-no", VNum (Int (next_of w (database_of rq))));
           ("command", VStr "rollback") ] in
  ddb w !! slot numbered = None ->
  let s := steps (idle w) [Invoke rq; Complete 0 (Fault e false); Complete 0 Answer] in
  replies s
  = [(0%nat, Returned (errorResponse Internal_Server_Error
                         ("Failed to " +:+ label +:+ " with "
                          +:+ error_to_string (commit_failure e))))]
  /\ waiting s = []
  /\ ddb (env s) = <[slot numbered := stored]> (ddb w)
  /\ trace (env s)
     = trace w ++
       [ Called (memcache_pushTransaction transaction) numbered;
         Completed (commit_put numbered) (inl e);
         Called (logger_warn (rolling_back numbered e)) VUndefined;
         Completed (rollback_put numbered) (inr (VObj []));
         Called (memcache_transactionRolledBack marker) VUndefined ].
Proof.
  intros Hacc numbered marker stored Hfree s.
  pose proof (accepted_marker rq label transaction userId w Hacc) as Hmarker.
  fold numbered marker in Hmarker.
  assert (Hstored : marshal marker = stored).
  { subst marker stored. cbn [marshal].
    rewrite kept_defined by exact (accepted_database _ _ _ _ Hacc). reflexivity. }
  destruct (commit_fails_then_rolls_back rq label transaction userId e
              (Fault e false) Answer w (accepted_body _ _ _ _ Hacc) eq_refl)
    as (Hreplies & Hwaiting & Henv & Hw3).
  fold numbered s in Hreplies, Hwaiting, Henv, Hw3.
  split; [exact Hreplies|]. split; [exact Hwaiting|].
  rewrite Henv, Hw3, run_rollback by apply numbered_is_an_object.
  unfold world_of. cbn [fst snd].
  set (w0 := snd (do_sync (memcache_pushTransaction transaction) w)).
  rewrite (do_io_unfold (commit_put numbered)).
  change (settle (commit_put numbered) (Fault e false) w0)
    with (@inl error value e, w0). cbn [fst snd].
  set (w3 := snd (do_sync (logger_warn (rolling_back numbered e))
                    (emit (Completed (commit_put numbered) (inl e)) w0))).
  assert (Hroll : settle (rollback_put numbered) Answer w3
                  = (inr (VObj []),
                     with_ddb (<[slot numbered := stored]> (ddb w3)) w3)).
  { rewrite rollback_put_answered.
    change (ddb w3) with (ddb w). rewrite Hfree, Hmarker, Hstored. reflexivity. }
  rewrite (do_io_unfold (rollback_put numbered)), Hroll. cbn [fst snd].
  rewrite Hmarker.
  split; [reflexivity|].
  rewrite do_sync_trace. cbn [trace emit with_ddb]. subst w3 w0.
  cbn [do_sync react fst snd trace emit].
  fold (number_in w transaction). fold (numbered_in w transaction). fold numbered.
  rewrite <- !app_assoc. reflexivity.
Qed.

(** ** rollbackTransaction *)

Lemma stored_marker_is_a_marker (transaction : value) :
  read (marshal (rollback_marker transaction)) "command" = VStr "rollback".
Proof.
  unfold rollback_marker. rewrite read_marshal; [reflexivity|].
  apply (bool_decide_unpack _). vm_compute. reflexivity.
Qed.

(** X15. [rollbackTransaction] is idempotent: running it a second time
    for the same transaction (writes answered both times) leaves the
    tables as the first run left them. *)
Theorem rollback_twice_is_rollback_once
    (transaction : value) (os os' : list outcome) (w : world) :
  let once := world_of (run (rollbackTransaction transaction) (Answer :: os) w) in
  let twice := world_of (run (rollbackTransaction transaction) (Answer :: os') once) in
  ddb twice = ddb once.
Proof.
  intros once twice. subst twice once.
  destruct (nullish transaction) eqn:Hnull.
  { rewrite !rollbackTransaction_null by exact Hnull. reflexivity. }
  rewrite !run_rollback by exact Hnull. unfold world_of. cbn [fst snd].
  rewrite !(do_io_unfold (rollback_put transaction)).
  rewrite (rollback_put_answered transaction w).
  assert (Hmarked : forall w1,
            ddb w1 !! slot transaction = Some (marshal (rollback_marker transaction)) ->
            settle (rollback_put transaction) Answer w1
            = (inr (VObj []),
               with_ddb (<[slot transaction := marshal (rollback_marker transaction)]>
                           (ddb w1)) w1)).
  { intros w1 Hw1. rewrite rollback_put_answered, Hw1.
    rewrite bool_decide_eq_true_2 by apply stored_marker_is_a_marker. reflexivity. }
  assert (Hkept : forall w1 item,
            ddb w1 !! slot transaction = Some item ->
            read item "command" <> VStr "rollback" ->
            settle (rollback_put transaction) Answer w1
            = (inl ConditionalCheckFailedException, w1)).
  { intros w1 item Hw1 Hc. rewrite rollback_put_answered, Hw1.
    rewrite bool_decide_eq_false_2 by exact Hc. reflexivity. }
  destruct (ddb w !! slot transaction) as [item|] eqn:Hslot;
    [case_bool_decide as Hc|]; cbn [fst snd].
  - rewrite Hmarked; rewrite ?do_sync_ddb; cbn [fst snd ddb emit with_ddb].
    + rewrite !do_sync_ddb. cbn [ddb emit with_ddb]. apply insert_insert_eq.
    + apply lookup_insert_eq.
  - change (String.eqb (name ConditionalCheckFailedException)
              "ConditionalCheckFailedException") with true. cbv iota.
    rewrite (Hkept _ item); rewrite ?do_sync_ddb; cbn [fst snd ddb emit];
      rewrite ?do_sync_ddb; cbn [ddb emit]; try assumption.
    change (String.eqb (name ConditionalCheckFailedException)
              "ConditionalCheckFailedException") with true. cbv iota.
    rewrite !do_sync_ddb. reflexivity.
  - rewrite Hmarked; rewrite ?do_sync_ddb; cbn [fst snd ddb emit with_ddb].
    + rewrite !do_sync_ddb. cbn [ddb emit with_ddb]. apply insert_insert_eq.
    + apply lookup_insert_eq.
Qed.

(** X16. [rollbackTransaction] throws only when its transaction is
    [undefined] or [null]: reading the database-id then throws a
    TypeError before anything is called.  For every other transaction
    it returns whatever the store does, and a write of it that fails
    for another reason than the condition is only logged: the
    Sequencer is told nothing (the call that follows the failed write
    is the logger's), and when the write did not land the tables are
    unchanged. *)
Theorem rollback_failure_is_only_logged
    (transaction : value) (o : outcome) (os : list outcome) (w : world) :
  let done := run (rollbackTransaction transaction) (o :: os) w in
  if nullish transaction
  then exists msg, done = (Thrown (TypeError msg), w, [])
  else
    result_of done = Returned tt
    /\ forked_of done = []
    /\ forall e applied,
         o = Fault e applied ->
         name e <> "ConditionalCheckFailedException" ->
         (applied = false -> ddb (world_of done) = ddb w)
         /\ trace (world_of done)
            = trace w ++
              [ Completed (rollback_put transaction) (inl e);
                Called (logger_warn ("Failed to rollback with " +:+ error_to_string e))
                  VUndefined ].
Proof.
  intros done. subst done.
  destruct (nullish transaction) eqn:Hnull.
  { rewrite rollbackTransaction_null by exact Hnull. eexists. reflexivity. }
  rewrite run_rollback by exact Hnull.
  unfold result_of, forked_of, world_of. cbn [fst snd].
  split; [reflexivity|]. split; [reflexivity|].
  intros e applied -> Hname. apply String.eqb_neq in Hname.
  rewrite do_io_unfold.
  pose proof (settle_trace (rollback_put transaction) (Fault e applied) w) as Ht.
  assert (Hfst : fst (settle (rollback_put transaction) (Fault e applied) w) = inl e)
    by (destruct applied; reflexivity).
  rewrite Hfst, Hname. cbn [fst snd do_sync react emit ddb trace].
  rewrite Ht. split.
  - intros ->. reflexivity.
  - rewrite <- app_assoc. reflexivity.
Qed.

(** ** bundleTransactionLog *)

Lemma upload_keeps_ddb (key : string) (body : value) (o : outcome) (w : world) :
  ddb (snd (settle (s3_upload key body) o w)) = ddb w.
Proof. destruct o as [|e [|]], body; reflexivity. Qed.

Lemma update_reads_the_tables (p : update_params) (o : outcome) (w1 w : world) :
  ddb w1 = ddb w ->
  fst (settle (ddb_update p) o w1) = fst (settle (ddb_update p) o w)
  /\ ddb (snd (settle (ddb_update p) o w1)) = ddb (snd (settle (ddb_update p) o w)).
Proof.
  intros Hd. destruct o as [|e [|]]; cbn [settle process fst snd]; unfold item_at;
    rewrite ?Hd; auto.
  all: destruct (holds _ _ _); cbn [fst snd ddb with_ddb]; rewrite ?Hd; auto.
Qed.

Lemma upload_reads_the_bucket (key : string) (body : value) (o : outcome) (w1 w : world) :
  s3 w1 = s3 w ->
  fst (settle (s3_upload key body) o w1) = fst (settle (s3_upload key body) o w)
  /\ s3 (snd (settle (s3_upload key body) o w1)) = s3 (snd (settle (s3_upload key body) o w)).
Proof.
  intros Hs. destruct o as [|e [|]], body; cbn [settle process fst snd s3 with_s3];
    rewrite ?Hs; auto.
Qed.

(** The run of [bundleTransactionLog] for a sequence number that is a
    number, by the way its lookup, its upload and its update settle.
    The upload acts on the bucket and the update on the tables, so both
    are given as settled in the world the call starts in. *)
Lemma bundleTransactionLog_symbolic (databaseId seqNo bundle : value) (M : Z)
    (os : list outcome) (w : world) :
  Number seqNo = Int M ->
  let o1 := hd Answer os in
  let o2 := hd Answer (tl os) in
  let o3 := hd Answer (tl (tl os)) in
  let upload := bundle_upload databaseId (VNum (Int M)) bundle in
  let update := ddb_update (bundleParams databaseId (VNum (Int M))) in
  let done := run (bundleTransactionLog databaseId seqNo bundle) os w in
  forked_of done = []
  /\ match fst (settle (database_lookup databaseId) o1 w) with
     | inl e =>
         result_of done = Returned (bundle_failure e)
         /\ ddb (world_of done) = ddb w /\ s3 (world_of done) = s3 w
     | inr response =>
         let database := item_of response in
         if falsy database then
           result_of done = Returned (errorResponse Not_Found "Database not found")
           /\ ddb (world_of done) = ddb w /\ s3 (world_of done) = s3 w
         else if ge (read database "bundle-seq-no") (VNum (Int M)) then
           result_of done = Returned stale_bundle
           /\ ddb (world_of done) = ddb w /\ s3 (world_of done) = s3 w
         else
           s3 (world_of done) = s3 (snd (settle upload o2 w))
           /\ match fst (settle upload o2 w) with
              | inl e =>
                  result_of done = Returned (bundle_failure e)
                  /\ ddb (world_of done) = ddb w
              | inr uploaded =>
                  ddb (world_of done) = ddb (snd (settle update o3 w))
                  /\ exists info1 info2,
                       match fst (settle update o3 w) with
                       | inl e =>
                           result_of done = Returned (bundle_failure e)
                           /\ trace (world_of done)
                              = trace w ++
                                [ Completed (database_lookup databaseId) (inr response);
                                  Called (logger_info info1) VUndefined;
                                  Completed upload (inr uploaded);
                                  Called (logger_info info2) VUndefined;
                                  Completed update (inl e) ]
                       | inr updated =>
                           result_of done = Returned (successResponse (VObj []))
                           /\ trace (world_of done)
                              = trace w ++
                                [ Completed (database_lookup databaseId) (inr response);
                                  Called (logger_info info1) VUndefined;
                                  Completed upload (inr uploaded);
                                  Called (logger_info info2) VUndefined;
                                  Completed update (inr updated);
                                  Called (memcache_setBundleSeqNo databaseId (VNum (Int M)))
                                    VUndefined ]
                       end
              end
     end.
Proof.
  intros Hnum o1 o2 o3 upload update done. subst done.
  unfold bundleTransactionLog, findDatabaseByDatabaseId.
  rewrite Hnum, number_passes_validation.
  fold (database_lookup databaseId).
  fold (bundle_upload databaseId (VNum (Int M)) bundle). fold upload. fold update.
  cbn [run try_catch bind await]. fold o1. rewrite do_io_unfold.
  pose proof (get_leaves_the_world databaseTable (VObj [("database-id", databaseId)]) o1 w)
    as L1.
  fold (database_lookup databaseId) in L1. rewrite L1. clear L1.
  destruct (fst (settle (database_lookup databaseId) o1 w)) as [e|response];
    cbn [fst snd run try_catch bind].
  { unfold result_of, world_of, forked_of. cbn. repeat split; reflexivity. }
  unfold item_of.
  destruct (falsy response || falsy (read response "Item")) eqn:Hnone;
    cbn [run try_catch bind].
  { unfold result_of, world_of, forked_of. cbn. repeat split; reflexivity. }
  assert (Hitem : falsy (read response "Item") = false).
  { apply orb_false_elim in Hnone as [_ Hitem]. exact Hitem. }
  rewrite Hitem.
  destruct (ge (read (read response "Item") "bundle-seq-no") (VNum (Int M)));
    cbn [run try_catch bind call do_sync react].
  { unfold result_of, world_of, forked_of. cbn. repeat split; reflexivity. }
  fold o2. rewrite do_io_unfold.
  match goal with
  | |- context [settle upload o2 ?w1] =>
      destruct (upload_reads_the_bucket (getS3DbStateKey databaseId (VNum (Int M)))
                  bundle o2 w1 w eq_refl) as (Hu & Hus);
      pose proof (upload_keeps_ddb (getS3DbStateKey databaseId (VNum (Int M)))
                    bundle o2 w1) as Hud;
      pose proof (settle_trace upload o2 w1) as Hut;
      fold (bundle_upload databaseId (VNum (Int M)) bundle) in Hu, Hus, Hud;
      fold upload in Hu, Hus, Hud;
      set (wu := snd (settle upload o2 w1)) in *
  end.
  rewrite Hu. cbn [ddb emit] in Hud.
  destruct (fst (settle upload o2 w)) as [e|uploaded]; cbn [run try_catch bind].
  { unfold result_of, world_of, forked_of. cbn [fst snd ddb s3 emit].
    rewrite Hus, Hud. repeat split; reflexivity. }
  cbn [run try_catch bind call do_sync react]. fold o3. rewrite do_io_unfold.
  match goal with
  | |- context [settle update o3 ?w2] =>
      destruct (update_reads_the_tables (bundleParams databaseId (VNum (Int M)))
                  o3 w2 w Hud) as (Hp & Hpd);
      pose proof (update_keeps_s3 (bundleParams databaseId (VNum (Int M))) o3 w2) as Hps;
      pose proof (settle_trace update o3 w2) as Hpt;
      fold update in Hp, Hpd, Hps;
      set (wp := snd (settle update o3 w2)) in *
  end.
  rewrite Hp. cbn [s3 emit] in Hps. cbn [trace emit] in Hpt, Hut.
  destruct (fst (settle update o3 w)) as [e|updated];
    cbn [run try_catch bind call do_sync react];
    unfold result_of, world_of, forked_of; cbn [fst snd ddb s3 trace emit];
    rewrite Hps, Hus, Hpd, Hpt, Hut; repeat split; try reflexivity;
    eexists _, _; (split; [reflexivity|]); rewrite <- !app_assoc; reflexivity.
Qed.

Lemma pointer_guard (M : Z) (database : value) :
  holds databaseTable
    (cond_or (attribute_not_exists "bundle-seq-no")
             (attribute_lt "bundle-seq-no" (VNum (Int M))))
    (Some database) = true
  <-> read database "bundle-seq-no" = VUndefined
      \/ exists N, read database "bundle-seq-no" = VNum (Int N) /\ N < M.
Proof.
  cbn [holds key_schema].
  rewrite (bool_decide_eq_false_2 ("bundle-seq-no" ∈ ["database-id"])).
  2: { intros Hin. apply list_elem_of_singleton in Hin. discriminate. }
  cbn [negb andb]. rewrite orb_true_iff, bool_decide_eq_true.
  split; (intros [Hundef|Hlt]; [left; exact Hundef|right]).
  - destruct (read database "bundle-seq-no") as [| | |[|N]| | | |]; try discriminate.
    exists N. split; [reflexivity|]. apply Z.ltb_lt. exact Hlt.
  - destruct Hlt as (N & -> & Hlt). apply Z.ltb_lt. exact Hlt.
Qed.

(** What the guarded update of the pointer does to the tables. *)
Lemma pointer_update (databaseId : value) (M : Z) (o : outcome) (w : world) :
  let slot := (databaseTable, [marshal databaseId]) in
  let update := ddb_update (bundleParams databaseId (VNum (Int M))) in
  ddb (snd (settle update o w)) = ddb w
  \/ holds databaseTable (update_condition (bundleParams databaseId (VNum (Int M))))
        (ddb w !! slot) = true
      /\ ddb (snd (settle update o w))
         = <[slot := set_attribute (ddb w !! slot) (VObj [("database-id", databaseId)])
                       "bundle-seq-no" (VNum (Int M))]> (ddb w).
Proof.
  intros slot update. subst update.
  destruct o as [|e [|]]; cbn [settle process fst snd bundleParams update_table
                                update_key update_attr update_value update_condition];
    unfold item_at;
    change (key_of databaseTable (VObj [("database-id", databaseId)])) with [marshal databaseId];
    fold slot.
  - destruct (holds _ _ _) eqn:Hg; cbn [fst snd ddb with_ddb]; eauto.
  - destruct (holds _ _ _) eqn:Hg; cbn [fst snd ddb with_ddb]; eauto.
  - eauto.
Qed.

Lemma pointer_update_answered (databaseId : value) (M : Z) (w : world) :
  let slot := (databaseTable, [marshal databaseId]) in
  let condition := update_condition (bundleParams databaseId (VNum (Int M))) in
  settle (ddb_update (bundleParams databaseId (VNum (Int M)))) Answer w
  = if holds databaseTable condition (ddb w !! slot)
    then (inr (VObj []),
          with_ddb (<[slot := set_attribute (ddb w !! slot)
                                (VObj [("database-id", databaseId)])
                                "bundle-seq-no" (VNum (Int M))]> (ddb w)) w)
    else (inl ConditionalCheckFailedException, w).
Proof. reflexivity. Qed.

Lemma behind_is_not_ahead (pointer : value) (M : Z) :
  behind pointer M -> ge pointer (VNum (Int M)) = false.
Proof.
  intros [->|(N & -> & Hlt)]; [reflexivity|].
  cbn. apply Z.leb_gt. exact Hlt.
Qed.

(** X17. [bundleTransactionLog] for a database that is not stored (the
    lookup being answered) returns Not Found "Database not found":
    nothing is uploaded and no record is created. *)
Theorem bundle_of_an_unknown_database_is_not_found
    (databaseId seqNo bundle : value) (M : Z) (os : list outcome) (w : world) :
  Number seqNo = Int M ->
  found (ddb w !! (databaseTable, [marshal databaseId])) = VNull ->
  let done := run (bundleTransactionLog databaseId seqNo bundle) (Answer :: os) w in
  result_of done = Returned (errorResponse Not_Found "Database not found")
  /\ ddb (world_of done) = ddb w /\ s3 (world_of done) = s3 w.
Proof.
  intros Hnum Hnone done.
  destruct (bundleTransactionLog_symbolic databaseId seqNo bundle M (Answer :: os) w Hnum)
    as (_ & Hrun).
  cbv zeta in Hrun. cbn [hd tl] in Hrun. fold done in Hrun.
  unfold database_lookup in Hrun. rewrite get_answered in Hrun.
  change (key_of databaseTable (VObj [("database-id", databaseId)])) with [marshal databaseId]
    in Hrun.
  cbn [fst] in Hrun. rewrite item_of_answer, Hnone in Hrun.
  cbn [falsy truthy negb] in Hrun.
  destruct Hrun as (Hres & Hd & Hs). auto.
Qed.

(** X18. A bundle that goes through: when the Database record is
    stored, its bundle-seq-no is absent or smaller than [M], the bundle
    is text and the store answers, [bundleTransactionLog] uploads the
    text under the key of (databaseId, [M]), then sets the
    bundle-seq-no of the record to [M], then tells the Sequencer, and
    returns its success response.  The update touches no other
    attribute of the Database record and no other record. *)
Theorem bundle_uploads_then_advances_the_pointer
    (databaseId seqNo : value) (text : string) (fields : list (string * value)) (M : Z)
    (os : list outcome) (w : world) :
  Number seqNo = Int M ->
  ddb w !! (databaseTable, [marshal databaseId]) = Some (VObj fields) ->
  behind (assoc "bundle-seq-no" fields) M ->
  let key := getS3DbStateKey databaseId (VNum (Int M)) in
  let done :=
    run (bundleTransactionLog databaseId seqNo (VStr text))
      (Answer :: Answer :: Answer :: os) w in
  result_of done = Returned (successResponse (VObj []))
  /\ s3 (world_of done) = <[key := text]> (s3 w)
  /\ (exists database,
        ddb (world_of done) = <[(databaseTable, [marshal databaseId]) := database]> (ddb w)
        /\ read database "bundle-seq-no" = VNum (Int M)
        /\ forall attr, attr <> "bundle-seq-no" ->
                        read database attr = assoc attr fields)
  /\ exists info1 info2 found,
       trace (world_of done)
       = trace w ++
         [ Completed (database_lookup databaseId) (inr found);
           Called (logger_info info1) VUndefined;
           Completed (s3_upload key (VStr text)) (inr (VObj [("Key", VStr key)]));
           Called (logger_info info2) VUndefined;
           Completed (ddb_update (bundleParams databaseId (VNum (Int M)))) (inr (VObj []));
           Called (memcache_setBundleSeqNo databaseId (VNum (Int M))) VUndefined ].
Proof.
  intros Hnum Hdb Hbehind key done.
  destruct (bundleTransactionLog_symbolic databaseId seqNo (VStr text) M
              (Answer :: Answer :: Answer :: os) w Hnum) as (_ & Hrun).
  cbv zeta in Hrun. cbn [hd tl] in Hrun. fold done in Hrun.
  unfold database_lookup in Hrun. rewrite get_answered in Hrun.
  change (key_of databaseTable (VObj [("database-id", databaseId)])) with [marshal databaseId]
    in Hrun.
  cbn [fst] in Hrun. rewrite item_of_answer, Hdb in Hrun.
  cbn [found falsy truthy negb read] in Hrun.
  rewrite (behind_is_not_ahead _ _ Hbehind) in Hrun.
  rewrite pointer_update_answered in Hrun. rewrite Hdb in Hrun.
  assert (Hguard : holds databaseTable
                     (update_condition (bundleParams databaseId (VNum (Int M))))
                     (Some (VObj fields)) = true).
  { apply pointer_guard. exact Hbehind. }
  rewrite Hguard in Hrun.
  destruct Hrun as (Hs3 & Hddb & info1 & info2 & Hres & Htrace).
  split; [exact Hres|]. split; [exact Hs3|]. split.
  - exists (VObj (rebind "bundle-seq-no" (VNum (Int M)) fields)).
    split; [exact Hddb|]. split.
    + apply assoc_rebind_same.
    + intros attr Hattr. apply assoc_rebind_other. congruence.
  - exists info1, info2. eexists. exact Htrace.
Qed.

(** X19. The pointer only moves onto a stored snapshot: however the
    store behaves, a call of [bundleTransactionLog] for the number [M]
    either leaves the tables as they were or leaves the bundle-seq-no
    of the database at [M] with the bytes of the bundle (a string or a
    buffer) stored in the bucket under the key of (databaseId, [M]). *)
Theorem pointer_moves_only_onto_a_stored_snapshot
    (databaseId seqNo bundle : value) (os : list outcome) (w : world) :
  let done := run (bundleTransactionLog databaseId seqNo bundle) os w in
  ddb (world_of done) = ddb w
  \/ exists M bytes database,
       Number seqNo = Int M /\ body_bytes bundle = Some bytes
       /\ s3 (world_of done) !! getS3DbStateKey databaseId (VNum (Int M)) = Some bytes
       /\ ddb (world_of done) = <[(databaseTable, [marshal databaseId]) := database]> (ddb w)
       /\ read database "bundle-seq-no" = VNum (Int M).
Proof.
  intros done.
  destruct (Number seqNo) as [|M] eqn:Hnum.
  { left. subst done. unfold bundleTransactionLog. rewrite Hnum. reflexivity. }
  destruct (bundleTransactionLog_symbolic databaseId seqNo bundle M os w Hnum)
    as (_ & Hrun).
  cbv zeta in Hrun. fold done in Hrun.
  destruct (fst (settle (database_lookup databaseId) (hd Answer os) w)) as [e|response];
    [left; apply Hrun|].
  destruct (falsy (item_of response)); [left; apply Hrun|].
  destruct (ge _ _); [left; apply Hrun|].
  destruct Hrun as (Hs3 & Hrun).
  destruct (fst (settle _ (hd Answer (tl os)) w)) as [e|uploaded] eqn:Hup;
    [left; apply Hrun|].
  destruct Hrun as (Hddb & _).
  destruct (pointer_update databaseId M (hd Answer (tl (tl os))) w) as [Hsame|(_ & Hmoved)].
  { left. rewrite Hddb. exact Hsame. }
  right.
  destruct (settle (bundle_upload databaseId (VNum (Int M)) bundle) (hd Answer (tl os)) w)
    as [r wu] eqn:Hsettle.
  cbn [fst snd] in Hup, Hs3. subst r.
  destruct (upload_stores _ _ _ _ _ _ Hsettle) as (bytes & Hbody & Hstored).
  exists M, bytes. eexists. split; [reflexivity|]. split; [exact Hbody|].
  split; [rewrite Hs3, Hstored; apply lookup_insert_eq|].
  split; [rewrite Hddb; exact Hmoved|].
  unfold set_attribute.
  destruct (default _ _); cbn [read assoc]; try reflexivity.
  apply assoc_rebind_same.
Qed.

(** X20. A bundle whose pointer update fails after the upload has gone
    through (the update not landing): the caller gets an Internal
    Server Error, the bundle-seq-no and the tables are as they were,
    [memcache.setBundleSeqNo] is not called (the failed update is the
    last call made), and the uploaded snapshot stays in the bucket, not
    referenced by any pointer. *)
Theorem failed_pointer_update_leaves_the_snapshot_behind
    (databaseId seqNo : value) (text : string) (fields : list (string * value)) (M : Z)
    (e : error) (os : list outcome) (w : world) :
  Number seqNo = Int M ->
  ddb w !! (databaseTable, [marshal databaseId]) = Some (VObj fields) ->
  behind (assoc "bundle-seq-no" fields) M ->
  let done :=
    run (bundleTransactionLog databaseId seqNo (VStr text))
      (Answer :: Answer :: Fault e false :: os) w in
  result_of done
  = Returned (errorResponse Internal_Server_Error
                ("Failed to bundle with " +:+ error_to_string e))
  /\ ddb (world_of done) = ddb w
  /\ s3 (world_of done)
     = <[getS3DbStateKey databaseId (VNum (Int M)) := text]> (s3 w)
  /\ exists info1 info2 found uploaded,
       trace (world_of done)
       = trace w ++
         [ Completed (database_lookup databaseId) (inr found);
           Called (logger_info info1) VUndefined;
           Completed (bundle_upload databaseId (VNum (Int M)) (VStr text)) (inr uploaded);
           Called (logger_info info2) VUndefined;
           Completed (ddb_update (bundleParams databaseId (VNum (Int M)))) (inl e) ].
Proof.
  intros Hnum Hdb Hbehind done.
  destruct (bundleTransactionLog_symbolic databaseId seqNo (VStr text) M
              (Answer :: Answer :: Fault e false :: os) w Hnum) as (_ & Hrun).
  cbv zeta in Hrun. cbn [hd tl] in Hrun. fold done in Hrun.
  unfold database_lookup in Hrun. rewrite get_answered in Hrun.
  change (key_of databaseTable (VObj [("database-id", databaseId)])) with [marshal databaseId]
    in Hrun.
  cbn [fst] in Hrun. rewrite item_of_answer, Hdb in Hrun.
  cbn [found falsy truthy negb read] in Hrun.
  rewrite (behind_is_not_ahead _ _ Hbehind) in Hrun.
  destruct Hrun as (Hs3 & Hddb & info1 & info2 & Hres & Htrace).
  split; [exact Hres|]. split; [exact Hddb|]. split; [exact Hs3|].
  exists info1, info2. eexists _, _. exact Htrace.
Qed.

(** X21. The stored bundle-seq-no never decreases: once it is a number
    [N], after any call of [bundleTransactionLog] for the database,
    whatever its arguments and however the store behaves, the Database
    record is stored with a bundle-seq-no [N'] with [N <= N'], every
    other attribute of the record is as before, and so is every other
    record of the tables. *)
Theorem stored_pointer_never_decreases
    (databaseId seqNo bundle : value) (fields : list (string * value)) (N : Z)
    (os : list outcome) (w : world) :
  ddb w !! (databaseTable, [marshal databaseId]) = Some (VObj fields) ->
  assoc "bundle-seq-no" fields = VNum (Int N) ->
  let done := run (bundleTransactionLog databaseId seqNo bundle) os w in
  exists database N',
    ddb (world_of done) = <[(databaseTable, [marshal databaseId]) := database]> (ddb w)
    /\ read database "bundle-seq-no" = VNum (Int N') /\ N <= N'
    /\ forall attr, attr <> "bundle-seq-no" -> read database attr = assoc attr fields.
Proof.
  intros Hdb Hptr done.
  assert (Hsame : ddb (world_of done) = ddb w ->
            exists database N',
              ddb (world_of done) = <[(databaseTable, [marshal databaseId]) := database]> (ddb w)
              /\ read database "bundle-seq-no" = VNum (Int N') /\ N <= N'
              /\ forall attr, attr <> "bundle-seq-no" ->
                              read database attr = assoc attr fields).
  { intros ->. exists (VObj fields), N.
    split; [symmetry; apply insert_id; exact Hdb|].
    split; [exact Hptr|]. split; [lia|reflexivity]. }
  destruct (Number seqNo) as [|M] eqn:Hnum.
  { apply Hsame. subst done. unfold bundleTransactionLog. rewrite Hnum. reflexivity. }
  destruct (bundleTransactionLog_symbolic databaseId seqNo bundle M os w Hnum)
    as (_ & Hrun).
  cbv zeta in Hrun. fold done in Hrun.
  destruct (fst (settle (database_lookup databaseId) (hd Answer os) w)) as [e|response];
    [apply Hsame; apply Hrun|].
  destruct (falsy (item_of response)); [apply Hsame; apply Hrun|].
  destruct (ge _ _); [apply Hsame; apply Hrun|].
  destruct Hrun as (_ & Hrun).
  destruct (fst (settle _ (hd Answer (tl os)) w)) as [e|uploaded];
    [apply Hsame; apply Hrun|].
  destruct Hrun as (Hddb & _).
  destruct (pointer_update databaseId M (hd Answer (tl (tl os))) w)
    as [Hkept|(Hguard & Hmoved)].
  { apply Hsame. rewrite Hddb. exact Hkept. }
  rewrite Hdb in Hguard, Hmoved. apply pointer_guard in Hguard.
  cbn [read] in Hguard. rewrite Hptr in Hguard.
  destruct Hguard as [Hundef|(N0 & [= <-] & Hlt)]; [discriminate|].
  exists (VObj (rebind "bundle-seq-no" (VNum (Int M)) fields)), M.
  split; [rewrite Hddb; exact Hmoved|]. split; [apply assoc_rebind_same|].
  split; [lia|]. intros attr Hattr. apply assoc_rebind_other. congruence.
Qed.

(** ** The keys of the snapshots *)

Lemma no_slash_in_digits (x : N) :
  forall s, occurs "/" s = false -> occurs "/" (pretty_N_go x s) = false.
Proof.
  induction (N.lt_wf_0 x) as [x _ IH]; intros s Hs.
  assert (x = 0 \/ 0 < x)%N as [->|Hpos] by lia.
  - rewrite pretty_N_go_0. exact Hs.
  - rewrite pretty_N_go_step by exact Hpos. apply IH.
    + apply N.div_lt; [exact Hpos|reflexivity].
    + cbn [occurs]. rewrite Hs, orb_false_r.
      unfold pretty_N_char. repeat case_match; reflexivity.
Qed.

Lemma no_slash_in_number (z : Z) : occurs "/" (pretty z) = false.
Proof.
  assert (HN : forall p, occurs "/" (pretty (Npos p)) = false).
  { intros p. unfold pretty, pretty_N. rewrite decide_False by discriminate.
    apply no_slash_in_digits. reflexivity. }
  destruct z as [|p|p]; [reflexivity|apply HN|].
  unfold pretty, pretty_Z. cbn [String.append occurs].
  change (Ascii.eqb "-" "/") with false. cbn [orb]. apply HN.
Qed.

Lemma slash_occurs (s t : string) : occurs "/" (s +:+ String "/" t) = true.
Proof.
  induction s as [|c s IHs]; [reflexivity|].
  change (String c s +:+ String "/" t) with (String c (s +:+ String "/" t)).
  cbn [occurs]. rewrite IHs. apply orb_true_r.
Qed.

Lemma split_at_last_slash (a b p q : string) :
  occurs "/" p = false -> occurs "/" q = false ->
  a +:+ "/" +:+ p = b +:+ "/" +:+ q -> a = b /\ p = q.
Proof.
  intros Hp Hq. change ("/" +:+ p) with (String "/" p).
  change ("/" +:+ q) with (String "/" q). revert b.
  induction a as [|c a IH]; intros [|c' b]; intros Heq; simpl in Heq.
  - injection Heq as Hrest. split; [reflexivity|exact Hrest].
  - injection Heq as _ Hrest. rewrite Hrest, slash_occurs in Hp. discriminate.
  - injection Heq as _ Hrest. rewrite <- Hrest, slash_occurs in Hq. discriminate.
  - injection Heq as Hc Hrest. destruct (IH b Hrest) as [Hab Hpq].
    split; [congruence|exact Hpq].
Qed.

(** X22. The keys [getS3DbStateKey] gives to snapshots do not collide:
    two keys for numbers are equal only when the sequence numbers are
    equal and the database ids print alike, so snapshots of different
    numbers, or of databases whose ids print differently, are stored
    under different keys. *)
Theorem snapshot_keys_do_not_collide (databaseId databaseId' : value) (N N' : Z) :
  ToString databaseId <> ToString databaseId' \/ N <> N' ->
  getS3DbStateKey databaseId (VNum (Int N)) <> getS3DbStateKey databaseId' (VNum (Int N')).
Proof.
  intros Hdiffer Heq. unfold getS3DbStateKey in Heq. cbn [ToString] in Heq.
  apply split_at_last_slash in Heq as [Hid Hnum]; try apply no_slash_in_number.
  apply (inj pretty) in Hnum. destruct Hdiffer; contradiction.
Qed.

Lemma upload_touches_one_key (key other : string) (body : value) (o : outcome) (w : world) :
  other <> key ->
  s3 (snd (settle (s3_upload key body) o w)) !! other = s3 w !! other.
Proof.
  intros Hne. destruct o as [|e [|]], body; cbn [settle process snd s3 with_s3];
    try reflexivity; apply lookup_insert_ne; congruence.
Qed.

(** X23. A snapshot at or below the pointer is never overwritten: once
    the stored bundle-seq-no of a database is [P], no call of
    [bundleTransactionLog] for that database, whatever its arguments
    and however the store behaves, changes what the bucket holds under
    the key of a number [N <= P]. *)
Theorem bundled_snapshot_is_never_overwritten
    (databaseId seqNo bundle : value) (fields : list (string * value)) (P N : Z)
    (os : list outcome) (w : world) :
  ddb w !! (databaseTable, [marshal databaseId]) = Some (VObj fields) ->
  assoc "bundle-seq-no" fields = VNum (Int P) ->
  N <= P ->
  let done := run (bundleTransactionLog databaseId seqNo bundle) os w in
  s3 (world_of done) !! getS3DbStateKey databaseId (VNum (Int N))
  = s3 w !! getS3DbStateKey databaseId (VNum (Int N)).
Proof.
  intros Hdb Hptr Hle done.
  destruct (Number seqNo) as [|M] eqn:Hnum.
  { subst done. unfold bundleTransactionLog. rewrite Hnum. reflexivity. }
  destruct (bundleTransactionLog_symbolic databaseId seqNo bundle M os w Hnum)
    as (_ & Hrun).
  cbv zeta in Hrun. fold done in Hrun.
  destruct (hd Answer os) as [|e applied] eqn:Ho1.
  2: { assert (Hfail : fst (settle (database_lookup databaseId) (Fault e applied) w) = inl e)
         by (destruct applied; reflexivity).
       rewrite Hfail in Hrun. destruct Hrun as (_ & _ & ->). reflexivity. }
  unfold database_lookup in Hrun. rewrite get_answered in Hrun.
  change (key_of databaseTable (VObj [("database-id", databaseId)])) with [marshal databaseId]
    in Hrun.
  cbn [fst] in Hrun. rewrite item_of_answer, Hdb in Hrun.
  cbn [found falsy truthy negb read] in Hrun. rewrite Hptr in Hrun.
  destruct (ge (VNum (Int P)) (VNum (Int M))) eqn:Hge.
  { destruct Hrun as (_ & _ & ->). reflexivity. }
  destruct Hrun as (-> & _).
  apply upload_touches_one_key. intros Heq.
  unfold getS3DbStateKey in Heq. cbn [ToString] in Heq.
  apply split_at_last_slash in Heq as [_ Hsame]; try apply no_slash_in_number.
  apply (inj pretty) in Hsame. cbn in Hge. apply Z.leb_gt in Hge. lia.
Qed.

(** ** getBundle *)



(** ** Responses and rejections *)



(** ** A batch as one transaction *)

(** X26. A batch is committed as one transaction: when every operation
    is complete, the slot is free and the write is answered, [batch]
    stores a single record, under the one sequence number it returns,
    whose operations are the key, record and command of the submitted
    operations (as the document client marshals them), in the order
    they were submitted; any other field of an operation is dropped. *)
Theorem batch_is_stored_as_one_transaction
    (userId databaseId : value) (op : value) (ops : list value)
    (os : list outcome) (w : world) :
  truthy databaseId = true ->
  forallb complete (op :: ops) = true ->
  let n := VNum (Int (next_of w databaseId)) in
  ddb w !! (transactionsTable, [marshal databaseId; n]) = None ->
  let done := run (batch userId databaseId (VArr (op :: ops))) (Answer :: os) w in
  result_of done = Returned (successResponse (VObj [("sequenceNo", n)]))
  /\ ddb (world_of done)
     = <[(transactionsTable, [marshal databaseId; n])
         := VObj [ ("database-id", marshal databaseId); ("command", VStr "Batch");
                   ("operations",
                    VArr (List.map (fun operation => marshal (entry operation))
                            (op :: ops)));
                   ("sequence-no", n) ]]> (ddb w).
Proof.
  intros Hdb Hall n Hfree done. subst done.
  assert (Hacc : accepted (Batch userId databaseId (VArr (op :: ops)))
                 = Some ("batch",
                         VObj [ ("database-id", databaseId); ("command", VStr "Batch");
                                ("operations", VArr (List.map entry (op :: ops))) ],
                         userId)).
  { cbn [accepted]. rewrite Hdb, Hall. reflexivity. }
  apply accepted_body in Hacc. cbn [body] in Hacc. rewrite Hacc, run_commit.
  set (transaction := VObj [ ("database-id", databaseId); ("command", VStr "Batch");
                             ("operations", VArr (List.map entry (op :: ops))) ]).
  assert (Hslot : slot (numbered_in w transaction) = (transactionsTable, [marshal databaseId; n]))
    by reflexivity.
  rewrite (commit_put_answered (numbered_in w transaction) w) by (rewrite Hslot; exact Hfree).
  unfold result_of, world_of. cbn [fst snd]. split; [reflexivity|].
  rewrite !do_sync_ddb, do_io_ddb.
  pose proof (settle_stores (commit_put (numbered_in w transaction)) Answer
                (snd (do_sync (memcache_pushTransaction transaction) w)) w
                (do_sync_ddb _ _) (do_sync_s3 _ _)) as (_ & Hd & _).
  rewrite Hd, (commit_put_answered (numbered_in w transaction) w)
    by (rewrite Hslot; exact Hfree).
  cbn [snd ddb with_ddb]. rewrite Hslot. f_equal.
  change (numbered_in w transaction)
    with (VObj [ ("database-id", databaseId); ("command", VStr "Batch");
                 ("operations", VArr (List.map entry (op :: ops)));
                 ("sequence-no", n) ]).
  cbn [marshal]. rewrite kept_defined by (intros ->; discriminate).
  cbn [kept marshal]. rewrite map_map. reflexivity.
Qed.

(** ** From bundleTransactionLog to openDatabase *)

Lemma set_attribute_is_a_record (existing : option value) (key : value) (attr : string)
    (v : value) :
  exists fields,
    set_attribute existing key attr v = VObj fields /\ assoc attr fields = marshal v
    /\ attr ∈ fields.*1.
Proof.
  unfold set_attribute. generalize (marshal v) as x. intros x.
  assert (Hbound : forall fields, attr ∈ (rebind attr x fields).*1).
  { induction fields as [|[k y] fields IH]; cbn [rebind].
    - cbn. apply list_elem_of_here.
    - destruct (String.eqb k attr) eqn:E; cbn [fmap list_fmap fst].
      + apply String.eqb_eq in E. subst k. apply list_elem_of_here.
      + apply list_elem_of_further. exact IH. }
  destruct (default (marshal key) existing) as [| | | | |fields| |];
    try (exists [(attr, x)]; split; [reflexivity|]; split;
         [cbn [assoc]; rewrite String.eqb_refl; reflexivity|cbn; apply list_elem_of_here]).
  exists (rebind attr x fields). split; [reflexivity|].
  split; [apply assoc_rebind_same|apply Hbound].
Qed.

Lemma bundle_success_moves_the_pointer
    (databaseId seqNo bundle data : value) (os : list outcome) (w : world) :
  let done := run (bundleTransactionLog databaseId seqNo bundle) os w in
  result_of done = Returned (successResponse data) ->
  exists M fields,
    Number seqNo = Int M
    /\ ddb (world_of done) = <[(databaseTable, [marshal databaseId]) := VObj fields]> (ddb w)
    /\ assoc "bundle-seq-no" fields = VNum (Int M)
    /\ "bundle-seq-no" ∈ fields.*1.
Proof.
  intros done Hok.
  destruct (Number seqNo) as [|M] eqn:Hnum.
  { subst done. unfold bundleTransactionLog in Hok. rewrite Hnum in Hok. discriminate. }
  destruct (bundleTransactionLog_symbolic databaseId seqNo bundle M os w Hnum)
    as (_ & Hrun).
  cbv zeta in Hrun. fold done in Hrun.
  destruct (fst (settle (database_lookup databaseId) (hd Answer os) w)) as [e|response].
  { destruct Hrun as (Hres & _). rewrite Hres in Hok. discriminate. }
  destruct (falsy (item_of response)).
  { destruct Hrun as (Hres & _). rewrite Hres in Hok. discriminate. }
  destruct (ge _ _).
  { destruct Hrun as (Hres & _). rewrite Hres in Hok. discriminate. }
  destruct Hrun as (_ & Hrun).
  destruct (fst (settle _ (hd Answer (tl os)) w)) as [e|uploaded].
  { destruct Hrun as (Hres & _). rewrite Hres in Hok. discriminate. }
  destruct Hrun as (Hddb & info1 & info2 & Hrun).
  destruct (fst (settle _ (hd Answer (tl (tl os))) w)) as [e|updated] eqn:Hupdate.
  { destruct Hrun as (Hres & _). rewrite Hres in Hok. discriminate. }
  destruct (hd Answer (tl (tl os))) as [|e applied];
    [|destruct applied; discriminate].
  rewrite pointer_update_answered in Hupdate, Hddb.
  destruct (holds _ _ _); [|discriminate].
  cbn [snd ddb with_ddb] in Hddb.
  destruct (set_attribute_is_a_record (ddb w !! (databaseTable, [marshal databaseId]))
              (VObj [("database-id", databaseId)]) "bundle-seq-no" (VNum (Int M)))
    as (fields & Hfields & Hptr & Hin).
  exists M, fields. rewrite <- Hfields. auto.
Qed.

(** X27. A database that is opened after a bundle went through is
    opened at that bundle: when [bundleTransactionLog(D, seqNo, B)] has
    returned its success response, an [openDatabase] through an alias
    of [D] hands the registry [Number(seqNo)] as bundle sequence number
    (lookups answered by the store). *)
Theorem opened_database_is_handed_the_new_bundle_number
    (userId connectionId dbNameHash seqNo bundle data : value)
    (userDb : list (string * value)) (os os' : list outcome) (w : world) :
  truthy dbNameHash = true ->
  ddb w !! (userDatabaseTable, [marshal userId; marshal dbNameHash]) = Some (VObj userDb) ->
  let databaseId := assoc "database-id" userDb in
  let done := run (bundleTransactionLog databaseId seqNo bundle) os w in
  result_of done = Returned (successResponse data) ->
  exists dbId dbKey,
    result_of (run (openDatabase userId connectionId dbNameHash) (Answer :: Answer :: os')
                 (world_of done))
    = Returned
        (if truthy (connections_openDatabase userId connectionId dbId
                      (VNum (Number seqNo)) dbNameHash dbKey)
         then successResponse (VStr "Success!")
         else errorResponse Internal_Server_Error
                "Failed to create database with Error: Unable to open database").
Proof.
  intros Hhash Halias databaseId done Hok.
  destruct (bundle_success_moves_the_pointer databaseId seqNo bundle data os w Hok)
    as (M & fields & Hnum & Hddb & Hptr & Hin).
  fold done in Hddb.
  rewrite openDatabase_answered by exact Hhash.
  rewrite Hddb, lookup_insert_ne by discriminate.
  rewrite Halias. cbn [found truthy read]. fold databaseId.
  rewrite lookup_insert_eq. cbn [found truthy andb].
  unfold opened. rewrite !read_spread.
  rewrite (bool_decide_eq_true_2 _ Hin), Hptr, Hnum.
  eexists _, _. reflexivity.
Qed.

(** ** Calls one after another *)

Lemma run_nil {A : Type} (p : prog A) (w : world) : run p [] w = run p [Answer] w.
Proof.
  revert w. induction p; intros w; cbn [run]; try reflexivity.
  - destruct (do_sync c w) as [v w']. auto.
  - destruct (exec p1 w) as [[b w1] bs].
    match goal with
    | IH : forall w', run p2 [] w' = _ |- _ => rewrite IH
    end.
    reflexivity.
Qed.

Lemma run_cons {A : Type} (p : prog A) (os : list outcome) (w : world) :
  exists o os', run p os w = run p (o :: os') w.
Proof.
  destruct os as [|o os']; [exists Answer, []; apply run_nil|exists o, os'; reflexivity].
Qed.

Lemma put_changes (p : put_params) (o : outcome) (w : world) :
  ddb (snd (settle (ddb_put p) o w)) = ddb w
  \/ put_allowed w p = true
     /\ ddb (snd (settle (ddb_put p) o w)) = store_item p (ddb w).
Proof.
  destruct o as [|e [|]]; cbn [settle process snd]; auto.
  all: destruct (put_allowed w p); cbn [snd ddb with_ddb]; auto.
Qed.

Lemma put_keeps_s3 (p : put_params) (o : outcome) (w : world) :
  s3 (snd (settle (ddb_put p) o w)) = s3 w.
Proof.
  destruct o as [|e [|]]; cbn [settle process snd]; auto.
  all: destruct (put_allowed w p); reflexivity.
Qed.

Lemma slot_change_insert (t t' : table) (key key' : list value) (item : value)
    (d : gmap (table * list value) value) :
  d !! (t', key') = None ->
  slot_change t (d !! (t, key)) (<[(t', key') := item]> d !! (t, key)).
Proof.
  intros Hfree. destruct (decide ((t', key') = (t, key))) as [Heq|Hne].
  - right. left. rewrite <- Heq. exact Hfree.
  - left. apply lookup_insert_ne. exact Hne.
Qed.

Lemma createDatabase_changes
    (userId dbNameHash dbId encryptedDbName encryptedDbKey encryptedMetadata : value)
    (os : list outcome) (w : world) (t : table) (key : list value) :
  let done :=
    run (createDatabase userId dbNameHash dbId encryptedDbName encryptedDbKey
           encryptedMetadata) os w in
  slot_change t (ddb w !! (t, key)) (ddb (world_of done) !! (t, key))
  /\ s3 (world_of done) = s3 w.
Proof.
  intros done. subst done.
  destruct (run_cons (createDatabase userId dbNameHash dbId encryptedDbName encryptedDbKey
                        encryptedMetadata) os w) as (o & os' & Hrun).
  rewrite Hrun. clear Hrun.
  assert (Hearly : forall msg,
            slot_change t (ddb w !! (t, key))
              (ddb (world_of (Returned (errorResponse Bad_Request msg), w,
                              @nil (pending unit))) !! (t, key))
            /\ s3 (world_of (Returned (errorResponse Bad_Request msg), w,
                             @nil (pending unit))) = s3 w).
  { intros msg. split; [left|]; reflexivity. }
  destruct (truthy dbNameHash) eqn:Hhash;
    [|unfold createDatabase, falsy; rewrite Hhash; apply Hearly].
  destruct (truthy dbId) eqn:Hid;
    [|unfold createDatabase, falsy; rewrite Hhash, Hid; apply Hearly].
  destruct (truthy encryptedDbName) eqn:Hname;
    [|unfold createDatabase, falsy; rewrite Hhash, Hid, Hname; apply Hearly].
  destruct (truthy encryptedDbKey) eqn:Hkey;
    [|unfold createDatabase, falsy; rewrite Hhash, Hid, Hname, Hkey; apply Hearly].
  rewrite createDatabase_symbolic by assumption.
  set (write := createDatabase_write userId dbNameHash dbId encryptedDbName
                  encryptedDbKey encryptedMetadata).
  assert (Hstores :
    (ddb (snd (settle write o w)) = ddb w
     \/ ddb w !! (databaseTable, [marshal dbId]) = None
        /\ ddb w !! (userDatabaseTable, [marshal userId; marshal dbNameHash]) = None
        /\ ddb (snd (settle write o w))
           = <[(userDatabaseTable, [marshal userId; marshal dbNameHash])
               := marshal (UserDatabase_record userId dbNameHash dbId encryptedDbKey)]>
               (<[(databaseTable, [marshal dbId])
                  := marshal (Database_record userId dbId encryptedDbName encryptedMetadata)]>
                  (ddb w)))
    /\ s3 (snd (settle write o w)) = s3 w).
  { subst write. destruct o as [|e [|]]; cbn [settle snd]; auto.
    all: rewrite createDatabase_write_answered.
    all: destruct (bool_decide (ddb w !! (databaseTable, [marshal dbId]) = None)) eqn:Hd;
      destruct (bool_decide (ddb w !! (userDatabaseTable, [marshal userId; marshal dbNameHash]) = None))
        eqn:Ha; cbn [andb snd ddb s3 with_ddb]; auto.
    all: apply bool_decide_eq_true_1 in Hd, Ha; auto. }
  destruct Hstores as (Hddb & Hs3).
  assert (Hworld : forall w',
            ddb w' = ddb (snd (settle write o w)) -> s3 w' = s3 (snd (settle write o w)) ->
            slot_change t (ddb w !! (t, key)) (ddb w' !! (t, key)) /\ s3 w' = s3 w).
  { intros w' Hd' Hs'. rewrite Hd', Hs', Hs3. split; [|reflexivity].
    destruct Hddb as [->|(Hfree1 & Hfree2 & ->)]; [left; reflexivity|].
    destruct (decide ((userDatabaseTable, [marshal userId; marshal dbNameHash]) = (t, key))) as [Heq|Hne].
    - right. left. rewrite <- Heq. exact Hfree2.
    - rewrite lookup_insert_ne by exact Hne. apply slot_change_insert. exact Hfree1. }
  rewrite do_io_unfold.
  destruct (fst (settle write o w)) as [e|v]; unfold world_of; cbn [fst snd];
    apply Hworld; rewrite ?do_sync_ddb, ?do_sync_s3; reflexivity.
Qed.

Lemma commit_changes (rq : request) (os : list outcome) (w : world)
    (t : table) (key : list value) :
  slot_change t (ddb w !! (t, key)) (ddb (world_of (run (body rq) os w)) !! (t, key))
  /\ s3 (world_of (run (body rq) os w)) = s3 w.
Proof.
  destruct (run_cons (body rq) os w) as (o & os' & Hrun). rewrite Hrun. clear Hrun.
  destruct (body_shape rq)
    as [(st & msg & Hb)|[(e & Hb)|(label & transaction & userId & Hb & _)]]; rewrite Hb.
  1, 2: split; [left|]; reflexivity.
  rewrite run_commit.
  set (numbered := numbered_in w transaction).
  pose proof (settle_stores (commit_put numbered) o
                (snd (do_sync (memcache_pushTransaction transaction) w)) w
                (do_sync_ddb _ _) (do_sync_s3 _ _)) as (_ & Hd & Hs).
  assert (Hworld : forall w',
            ddb w' = ddb (snd (settle (commit_put numbered) o w)) ->
            s3 w' = s3 (snd (settle (commit_put numbered) o w)) ->
            slot_change t (ddb w !! (t, key)) (ddb w' !! (t, key)) /\ s3 w' = s3 w).
  { intros w' Hd' Hs'. rewrite Hd', Hs'. unfold commit_put. rewrite put_keeps_s3.
    split; [|reflexivity].
    destruct (put_changes (Put transactionsTable numbered (attribute_not_exists "database-id"))
                o w) as [->|(Hallowed & ->)]; [left; reflexivity|].
    rewrite key_guard in Hallowed by (repeat constructor).
    apply bool_decide_eq_true_1 in Hallowed.
    unfold store_item. cbn [put_table put_item]. apply slot_change_insert. exact Hallowed. }
  destruct (fst (settle (commit_put numbered) o w)); unfold world_of; cbn [fst snd];
    apply Hworld; rewrite ?do_sync_ddb, ?do_sync_s3, ?do_io_unfold; cbn [snd ddb s3 emit];
    assumption.
Qed.

Lemma rollback_changes (transaction : value) (os : list outcome) (w : world)
    (t : table) (key : list value) :
  let done := run (rollbackTransaction transaction) os w in
  slot_change t (ddb w !! (t, key)) (ddb (world_of done) !! (t, key))
  /\ s3 (world_of done) = s3 w.
Proof.
  intros done. subst done.
  destruct (run_cons (rollbackTransaction transaction) os w) as (o & os' & Hrun).
  rewrite Hrun. clear Hrun.
  destruct (nullish transaction) eqn:Hnull.
  { rewrite rollbackTransaction_null by exact Hnull. split; [left|]; reflexivity. }
  rewrite run_rollback by exact Hnull. unfold world_of. cbn [fst snd].
  assert (Hworld : forall w',
            ddb w' = ddb (snd (settle (rollback_put transaction) o w)) ->
            s3 w' = s3 (snd (settle (rollback_put transaction) o w)) ->
            slot_change t (ddb w !! (t, key)) (ddb w' !! (t, key)) /\ s3 w' = s3 w).
  { intros w' Hd' Hs'. rewrite Hd', Hs'.
    split; [|unfold rollback_put; apply put_keeps_s3].
    destruct (rollback_put_settled transaction o w) as [->|(Hopen & ->)];
      [left; reflexivity|].
    destruct Hopen as [Hfree|(item & Hitem & Hcommand)].
    - apply slot_change_insert. exact Hfree.
    - destruct (decide (slot transaction = (t, key))) as [Heq|Hne].
      + right. right. left. rewrite <- Heq. split; [|eauto].
        unfold slot in Heq. injection Heq as <- _. reflexivity.
      + left. apply lookup_insert_ne. exact Hne. }
  destruct (fst (settle (rollback_put transaction) o w)) as [e|v];
    [destruct (String.eqb (name e) "ConditionalCheckFailedException")|];
    apply Hworld; rewrite ?do_sync_ddb, ?do_sync_s3, ?do_io_unfold; reflexivity.
Qed.

(** What a bundle call does to the tables and to the bucket. *)
Lemma bundle_changes (databaseId seqNo bundle : value) (os : list outcome) (w : world) :
  let done := run (bundleTransactionLog databaseId seqNo bundle) os w in
  (forall t key, slot_change t (ddb w !! (t, key)) (ddb (world_of done) !! (t, key)))
  /\ forall k,
       s3 (world_of done) !! k = s3 w !! k
       \/ exists M,
            k = getS3DbStateKey databaseId (VNum (Int M))
            /\ ge (read (found (ddb w !! (databaseTable, [marshal databaseId]))) "bundle-seq-no")
                 (VNum (Int M)) = false.
Proof.
  intros done.
  assert (Hsame : ddb (world_of done) = ddb w -> s3 (world_of done) = s3 w ->
            (forall t key, slot_change t (ddb w !! (t, key)) (ddb (world_of done) !! (t, key)))
            /\ forall k,
                 s3 (world_of done) !! k = s3 w !! k
                 \/ exists M,
                      k = getS3DbStateKey databaseId (VNum (Int M))
                      /\ ge (read (found (ddb w !! (databaseTable, [marshal databaseId])))
                              "bundle-seq-no") (VNum (Int M)) = false).
  { intros -> ->. split; intros; left; reflexivity. }
  destruct (Number seqNo) as [|M] eqn:Hnum.
  { apply Hsame; subst done; unfold bundleTransactionLog; rewrite Hnum; reflexivity. }
  destruct (bundleTransactionLog_symbolic databaseId seqNo bundle M os w Hnum)
    as (_ & Hrun).
  cbv zeta in Hrun. fold done in Hrun.
  destruct (hd Answer os) as [|e applied] eqn:Ho1.
  2: { assert (Hfail : fst (settle (database_lookup databaseId) (Fault e applied) w) = inl e)
         by (destruct applied; reflexivity).
       rewrite Hfail in Hrun. apply Hsame; apply Hrun. }
  unfold database_lookup in Hrun. rewrite get_answered in Hrun.
  change (key_of databaseTable (VObj [("database-id", databaseId)])) with [marshal databaseId]
    in Hrun.
  cbn [fst] in Hrun. rewrite item_of_answer in Hrun.
  destruct (falsy (found (ddb w !! (databaseTable, [marshal databaseId])))) eqn:Hfound;
    [apply Hsame; apply Hrun|].
  destruct (ge _ _) eqn:Hge; [apply Hsame; apply Hrun|].
  destruct Hrun as (Hs3 & Hrun). split.
  - assert (Hddb : ddb (world_of done) = ddb w
                   \/ ddb (world_of done)
                      = ddb (snd (settle (ddb_update (bundleParams databaseId (VNum (Int M))))
                                    (hd Answer (tl (tl os))) w))).
    { destruct (fst (settle _ (hd Answer (tl os)) w)); [left|right]; apply Hrun. }
    intros t key. destruct Hddb as [->| ->]; [left; reflexivity|].
    destruct (pointer_update databaseId M (hd Answer (tl (tl os))) w)
      as [->|(Hguard & ->)]; [left; reflexivity|].
    destruct (ddb w !! (databaseTable, [marshal databaseId])) as [existing|] eqn:Hdb.
    + destruct (decide ((databaseTable, [marshal databaseId]) = (t, key))) as [Heq|Hne].
      * right. right. right. injection Heq as <- <-. split; [reflexivity|].
        exists existing, (VObj [("database-id", databaseId)]), M.
        rewrite Hdb, lookup_insert_eq. split; [reflexivity|].
        split; [apply pointer_guard; exact Hguard|reflexivity].
      * left. apply lookup_insert_ne. exact Hne.
    + apply slot_change_insert. exact Hdb.
  - intros k. rewrite Hs3.
    destruct (decide (k = getS3DbStateKey databaseId (VNum (Int M)))) as [->|Hne].
    + right. exists M. split; [reflexivity|exact Hge].
    + left. apply upload_touches_one_key. exact Hne.
Qed.

Lemma getBundle_changes_nothing (databaseId bundleSeqNo : value) (os : list outcome)
    (w : world) :
  let done := run (getBundle databaseId bundleSeqNo) os w in
  ddb (world_of done) = ddb w /\ s3 (world_of done) = s3 w.
Proof.
  intros done. subst done. unfold getBundle.
  destruct (falsy bundleSeqNo && negb (strict_equals bundleSeqNo (VNum (Int 0))));
    [split; reflexivity|].
  cbn [run try_catch bind await]. rewrite do_io_unfold.
  assert (Hsame : snd (settle (s3_getObject (getS3DbStateKey databaseId bundleSeqNo))
                         (hd Answer os) w) = w).
  { destruct (hd Answer os) as [|e [|]]; cbn [settle process snd]; try reflexivity.
    all: destruct (s3 w !! _); reflexivity. }
  rewrite Hsame.
  destruct (fst (settle _ (hd Answer os) w)) as [e|result]; cbn [run try_catch bind].
  - destruct (strict_equals (statusCode e) (VNum (Int 404))
              && strict_equals (VStr (message e)) (VStr "Not Found"));
      split; reflexivity.
  - unfold prop. destruct (nullish result); cbn [run try_catch bind].
    2: destruct (nullish (read result "Body")); cbn [run try_catch bind].
    all: repeat match goal with
           | |- context [if ?b then _ else _] => destruct b
           end.
    all: split; reflexivity.
Qed.

(** What one call does to the tables and to the bucket. *)
Lemma serve_changes (c : api_call) (os : list outcome) (w : world) :
  (forall t key, slot_change t (ddb w !! (t, key)) (ddb (serve c os w) !! (t, key)))
  /\ forall k,
       s3 (serve c os w) !! k = s3 w !! k
       \/ exists databaseId seqNo bundle M,
            c = BundleTransactionLog databaseId seqNo bundle
            /\ k = getS3DbStateKey databaseId (VNum (Int M))
            /\ ge (read (found (ddb w !! (databaseTable, [marshal databaseId]))) "bundle-seq-no")
                 (VNum (Int M)) = false.
Proof.
  destruct c as [userId dbNameHash dbId encryptedDbName encryptedDbKey encryptedMetadata
                |dbId|userId connectionId dbNameHash|transaction|rq
                |databaseId seqNo bundle|databaseId bundleSeqNo]; cbn [serve].
  - split; [intros t key|intros k; left];
      destruct (createDatabase_changes userId dbNameHash dbId encryptedDbName
                  encryptedDbKey encryptedMetadata os w databaseTable [])
        as (_ & Hs3); [|rewrite Hs3; reflexivity].
    apply createDatabase_changes.
  - assert (Hsame : world_of (run (findDatabaseByDatabaseId dbId) os w)
                    = snd (do_io (database_lookup dbId) (hd Answer os) w)).
    { unfold findDatabaseByDatabaseId. fold (database_lookup dbId).
      cbn [run bind await]. rewrite do_io_unfold. cbn [snd].
      destruct (fst (settle (database_lookup dbId) (hd Answer os) w)) as [e|v];
        cbn [run bind]; [reflexivity|].
      destruct (falsy v || falsy (read v "Item")); reflexivity. }
    rewrite Hsame, do_io_unfold. cbn [snd ddb s3 emit].
    unfold database_lookup. rewrite get_leaves_the_world.
    split; intros; left; reflexivity.
  - destruct (truthy dbNameHash) eqn:Hhash.
    + destruct (openDatabase_symbolic userId connectionId dbNameHash os w Hhash)
        as (_ & Hd & Hs & _).
      rewrite Hd, Hs. split; intros; left; reflexivity.
    + unfold openDatabase, falsy. rewrite Hhash. split; intros; left; reflexivity.
  - split; [intros t key; apply rollback_changes|intros k; left].
    destruct (rollback_changes transaction os w databaseTable []) as (_ & Hs3).
    rewrite Hs3. reflexivity.
  - split; [intros t key; apply commit_changes|intros k; left].
    destruct (commit_changes rq os w databaseTable []) as (_ & Hs3).
    rewrite Hs3. reflexivity.
  - destruct (bundle_changes databaseId seqNo bundle os w) as (Hd & Hs).
    split; [exact Hd|]. intros k. destruct (Hs k) as [Hk|(M & Hk & Hge)]; [left; exact Hk|].
    right. exists databaseId, seqNo, bundle, M. auto.
  - destruct (getBundle_changes_nothing databaseId bundleSeqNo os w) as (Hd & Hs).
    rewrite Hd, Hs. split; intros; left; reflexivity.
Qed.

Lemma advanced_refl (fields : list (string * value)) : advanced fields fields.
Proof. split; [reflexivity|left; reflexivity]. Qed.

Lemma advanced_trans (a b c : list (string * value)) :
  advanced a b -> advanced b c -> advanced a c.
Proof.
  intros (Hab & Pab) (Hbc & Pbc). split.
  - intros attr Hattr. rewrite Hbc, Hab by exact Hattr. reflexivity.
  - destruct Pbc as [Pbc|(M' & Pc & Hbehind)].
    + rewrite Pbc. exact Pab.
    + right. exists M'. split; [exact Pc|].
      destruct Pab as [Pab|(M & Pb & Hbehind')]; [rewrite <- Pab; exact Hbehind|].
      rewrite Pb in Hbehind.
      destruct Hbehind as [Hundef|(N & [= <-] & Hlt)]; [discriminate|].
      destruct Hbehind' as [Hundef|(N & Pa & Hlt')]; [left; exact Hundef|].
      right. exists N. split; [exact Pa|lia].
Qed.

Lemma serve_all_cons (c : api_call * list outcome) (cs : list (api_call * list outcome))
    (w : world) :
  serve_all (c :: cs) w = serve_all cs (serve (fst c) (snd c) w).
Proof. reflexivity. Qed.

(** X28. The records of the identity registry are stable under any
    sequence of calls of the exported functions, however the store
    behaves: a UserDatabase record that is stored stays as it is, and a
    Database record that is stored stays stored with every attribute as
    it was, except that its bundle-seq-no may have been replaced by a
    greater number (or set, if it had none). *)
Theorem registry_records_only_advance (cs : list (api_call * list outcome)) (w : world) :
  let w' := serve_all cs w in
  (forall key record,
     ddb w !! (userDatabaseTable, key) = Some record ->
     ddb w' !! (userDatabaseTable, key) = Some record)
  /\ (forall key fields,
        ddb w !! (databaseTable, key) = Some (VObj fields) ->
        exists fields',
          ddb w' !! (databaseTable, key) = Some (VObj fields') /\ advanced fields fields').
Proof.
  revert w. induction cs as [|[c os] cs IH]; intros w; cbn zeta.
  { split; [auto|]. intros key fields Hdb. exists fields. split; [exact Hdb|].
    apply advanced_refl. }
  rewrite serve_all_cons. cbn [fst snd].
  destruct (IH (serve c os w)) as (IHalias & IHdb). cbn zeta in IHalias, IHdb.
  destruct (serve_changes c os w) as (Hchange & _).
  split.
  - intros key record Halias. apply IHalias.
    specialize (Hchange userDatabaseTable key). rewrite Halias in Hchange.
    destruct Hchange as [->|[Hnone|[(Ht & _)|(Ht & _)]]];
      [reflexivity|discriminate..].
  - intros key fields Hdb.
    specialize (Hchange databaseTable key). rewrite Hdb in Hchange.
    destruct Hchange
      as [Hsame|[Hnone|[(Ht & _)|(_ & existing & k & M & Hex & Hbehind & Hafter)]]];
      [|discriminate..|].
    + destruct (IHdb key fields Hsame) as (fields' & Hdb' & Hadv). eauto.
    + injection Hex as <-. cbn [set_attribute default] in Hafter.
      destruct (IHdb key _ Hafter) as (fields' & Hdb' & Hadv).
      exists fields'. split; [exact Hdb'|].
      eapply advanced_trans; [|exact Hadv]. split.
      * intros attr Hattr. apply assoc_rebind_other. congruence.
      * right. exists M. split; [apply assoc_rebind_same|exact Hbehind].
Qed.

(** X29. A record of the log that is not a rollback marker is never
    replaced: whatever calls of the exported functions follow and
    however the store behaves, the slot keeps holding that record. *)
Theorem logged_transaction_is_never_replaced
    (cs : list (api_call * list outcome)) (w : world) (key : list value) (item : value) :
  ddb w !! (transactionsTable, key) = Some item ->
  read item "command" <> VStr "rollback" ->
  ddb (serve_all cs w) !! (transactionsTable, key) = Some item.
Proof.
  revert w. induction cs as [|[c os] cs IH]; intros w Hitem Hgenuine; [exact Hitem|].
  rewrite serve_all_cons. cbn [fst snd]. apply IH; [|exact Hgenuine].
  destruct (serve_changes c os w) as (Hchange & _).
  specialize (Hchange transactionsTable key). rewrite Hitem in Hchange.
  destruct Hchange as [->|[Hnone|[(_ & item' & [= <-] & Hcommand)|(Ht & _)]]];
    [reflexivity|discriminate|contradiction|discriminate].
Qed.

(** X30. A snapshot at or below the pointer stays as it is: once the
    stored bundle-seq-no of a database is [P], what the bucket holds
    under the key of a number [N <= P] is not changed by any sequence
    of calls of the exported functions, however the store behaves (the
    calls not bundling for another database whose id prints like this
    one's). *)
Theorem snapshot_below_the_pointer_is_kept
    (cs : list (api_call * list outcome)) (w : world) (databaseId : value)
    (fields : list (string * value)) (P N : Z) :
  ddb w !! (databaseTable, [marshal databaseId]) = Some (VObj fields) ->
  assoc "bundle-seq-no" fields = VNum (Int P) ->
  N <= P ->
  Forall (apart databaseId) cs ->
  s3 (serve_all cs w) !! getS3DbStateKey databaseId (VNum (Int N))
  = s3 w !! getS3DbStateKey databaseId (VNum (Int N)).
Proof.
  revert w fields P. induction cs as [|[c os] cs IH]; intros w fields P Hdb Hptr Hle Hapart;
    [reflexivity|].
  rewrite serve_all_cons. cbn [fst snd].
  apply Forall_cons in Hapart as [Hc Hapart].
  destruct (serve_changes c os w) as (Hchange & Hbucket).
  assert (Hnext : exists fields' P',
            ddb (serve c os w) !! (databaseTable, [marshal databaseId]) = Some (VObj fields')
            /\ assoc "bundle-seq-no" fields' = VNum (Int P') /\ N <= P').
  { specialize (Hchange databaseTable [marshal databaseId]). rewrite Hdb in Hchange.
    destruct Hchange
      as [Hsame|[Hnone|[(Ht & _)|(_ & existing & k & M & Hex & Hbehind & Hafter)]]];
      [eauto|discriminate..|].
    injection Hex as <-. cbn [set_attribute default] in Hafter.
    cbn [read] in Hbehind. rewrite Hptr in Hbehind.
    destruct Hbehind as [Hundef|(N0 & [= <-] & Hlt)]; [discriminate|].
    eexists _, M. split; [exact Hafter|]. split; [apply assoc_rebind_same|lia]. }
  destruct Hnext as (fields' & P' & Hdb' & Hptr' & Hle').
  rewrite (IH _ fields' P' Hdb' Hptr' Hle' Hapart).
  destruct (Hbucket (getS3DbStateKey databaseId (VNum (Int N))))
    as [Hkept|(other & seqNo & bundle & M & -> & Hkey & Hge)]; [exact Hkept|].
  exfalso. unfold getS3DbStateKey in Hkey. cbn [ToString] in Hkey.
  apply split_at_last_slash in Hkey as [Hid Hnum]; try apply no_slash_in_number.
  apply (inj pretty) in Hnum. subst M.
  unfold apart in Hc. cbn [fst] in Hc. destruct Hc as [->|Hc]; [|congruence].
  rewrite Hdb in Hge. cbn [found truthy read] in Hge. rewrite Hptr in Hge.
  cbn in Hge. apply Z.leb_gt in Hge. lia.
Qed.
End Further.

(** * The further properties at concrete inputs *)

Lemma createDatabase_succeeds_exactly_on_free_keys_witness :
  result_of (run (createDatabase U1 (VStr "H1") D1 (VStr "name") (VStr "K1") VUndefined)
               [Answer] empty_world)
  = Returned (successResponse (VStr "Success!"))
  /\ result_of (run (createDatabase U1 (VStr "H1") (VStr "D2") (VStr "name") (VStr "K1")
                       VUndefined) [Answer] created_D1)
     = Returned (errorResponse Conflict "Database already exists").
Proof.
  pose proof (createDatabase_succeeds_exactly_on_free_keys U1 (VStr "H1") D1 (VStr "name")
                (VStr "K1") VUndefined [] empty_world
                eq_refl eq_refl eq_refl eq_refl) as Wfree.
  pose proof (createDatabase_succeeds_exactly_on_free_keys U1 (VStr "H1") (VStr "D2")
                (VStr "name") (VStr "K1") VUndefined [] created_D1
                eq_refl eq_refl eq_refl eq_refl) as Wtaken.
  cbv zeta in Wfree, Wtaken.
  rewrite bool_decide_eq_true_2 in Wfree by (split; reflexivity).
  rewrite bool_decide_eq_false_2 in Wtaken
    by (intros [_ Halias]; vm_compute in Halias; discriminate).
  split; [apply Wfree|apply Wtaken].
Defined.

Lemma createDatabase_lost_reply_is_not_repaired_witness :
  let create := createDatabase U1 (VStr "H1") D1 (VStr "name") (VStr "K1") VUndefined in
  let done := run create [Fault (Error "timeout") true] empty_world in
  result_of done
  = Returned (errorResponse Internal_Server_Error
                "Failed to create database with Error: timeout")
  /\ result_of (run create [Answer] (world_of done))
     = Returned (errorResponse Conflict "Database already exists").
Proof.
  pose proof (createDatabase_lost_reply_is_not_repaired U1 (VStr "H1") D1 (VStr "name")
                (VStr "K1") VUndefined (Error "timeout") [] [] empty_world
                eq_refl eq_refl eq_refl eq_refl eq_refl eq_refl eq_refl) as W.
  cbv zeta in W. destruct W as (Hfirst & _ & _ & Hagain & _).
  split; [exact Hfirst|exact Hagain].
Defined.

Lemma getDatabase_merges_with_the_database_record_on_top_witness :
  exists merged,
    result_of (run (getDatabase U1 (VStr "H1")) [Answer; Answer] created_D1)
    = Returned merged
    /\ read merged "owner-id" = U1 /\ read merged "encrypted-db-key" = VStr "K1".
Proof.
  destruct (getDatabase_merges_with_the_database_record_on_top U1 (VStr "H1")
              D1_alias D1_record [] created_D1) as (merged & Hres & Hread).
  - vm_compute. reflexivity.
  - vm_compute. reflexivity.
  - exists merged. split; [exact Hres|]. rewrite !Hread. split; reflexivity.
Defined.

Lemma openDatabase_binds_with_the_merged_record_witness :
  result_of (run (@openDatabase accepting U1 (VStr "c1") (VStr "H1")) [Answer; Answer]
               created_D1)
  = Returned (successResponse (VStr "Success!")).
Proof.
  pose proof (openDatabase_binds_with_the_merged_record (H0 := accepting)
                U1 (VStr "c1") (VStr "H1") D1_alias D1_record [] created_D1 eq_refl) as W.
  apply W; vm_compute; reflexivity.
Defined.

Lemma created_database_is_found_witness :
  result_of (run (findDatabaseByDatabaseId D1) [Answer] created_D1)
  = Returned (VObj D1_record).
Proof.
  destruct (created_database_is_found U1 (VStr "H1") D1 (VStr "name") (VStr "K1")
              VUndefined (VStr "Success!") Answer [] [] [] empty_world) as (Hfound & _).
  - vm_compute. reflexivity.
  - exact Hfound.
Defined.

Lemma created_database_opens_without_a_bundle_witness :
  result_of (run (@openDatabase accepting U1 (VStr "c1") (VStr "H1")) [Answer; Answer]
               created_D1)
  = Returned (successResponse (VStr "Success!")).
Proof.
  apply (created_database_opens_without_a_bundle (H0 := accepting)
           U1 (VStr "H1") D1 (VStr "name") (VStr "K1") VUndefined (VStr "Success!")
           (VStr "c1") Answer [] [] empty_world).
  vm_compute. reflexivity.
Defined.

Lemma batch_reports_the_first_incomplete_operation_witness :
  run (batch U1 D1 (VArr [insert_a; keyless; VNull])) [] created_D1
  = (Returned (errorResponse Bad_Request "Operation 1 missing item key"), created_D1, []).
Proof.
  apply (batch_reports_the_first_incomplete_operation U1 D1 [insert_a] keyless [VNull]
           [] created_D1); reflexivity.
Defined.

Lemma batch_rejects_on_a_null_operation_witness :
  exists msg,
    run (batch U1 D1 (VArr [insert_a; VNull; keyless])) [] created_D1
    = (Thrown (TypeError msg), created_D1, []).
Proof.
  apply (batch_rejects_on_a_null_operation U1 D1 [insert_a] VNull [keyless]
           [] created_D1); reflexivity.
Defined.

Lemma commit_into_a_taken_slot_is_reported_persisted_witness :
  let s := steps (idle restarted_D1) [Invoke insert_k; Complete 0 Answer; Complete 0 Answer] in
  ddb (env s) = ddb restarted_D1
  /\ waiting s = [].
Proof.
  pose proof (commit_into_a_taken_slot_is_reported_persisted insert_k "Insert"
                insert_k_transaction U1 insert_k_numbered restarted_D1 eq_refl) as W.
  cbv zeta in W. destruct W as (_ & Hwaiting & Hddb & _).
  - vm_compute. reflexivity.
  - vm_compute. discriminate.
  - split; [exact Hddb|exact Hwaiting].
Defined.

Lemma failed_commit_leaves_a_rollback_marker_witness :
  let s := steps (idle created_D1)
             [Invoke insert_k; Complete 0 (Fault (Error "timeout") false);
              Complete 0 Answer] in
  ddb (env s) !! (transactionsTable, [D1; VNum (Int 1)])
  = Some (VObj [ ("database-id", D1); ("sequence-no", VNum (Int 1));
                 ("command", VStr "rollback") ]).
Proof.
  pose proof (failed_commit_leaves_a_rollback_marker insert_k "Insert"
                insert_k_transaction U1 (Error "timeout") created_D1 eq_refl) as W.
  cbv zeta in W. destruct W as (_ & _ & Hddb & _).
  - vm_compute. reflexivity.
  - cbv zeta. rewrite Hddb. apply lookup_insert_eq.
Defined.

Lemma bundle_of_an_unknown_database_is_not_found_witness :
  result_of (run (bundleTransactionLog (VStr "D9") (VNum (Int 5)) (VStr "snapshot"))
               [Answer] created_D1)
  = Returned (errorResponse Not_Found "Database not found").
Proof.
  destruct (bundle_of_an_unknown_database_is_not_found (VStr "D9") (VNum (Int 5))
              (VStr "snapshot") 5 [] created_D1) as (Hres & _).
  - reflexivity.
  - vm_compute. reflexivity.
  - exact Hres.
Defined.

Lemma bundle_uploads_then_advances_the_pointer_witness :
  s3 (world_of (run (bundleTransactionLog D1 (VNum (Int 5)) (VStr "snapshotA"))
                  [Answer; Answer; Answer] created_D1))
  = <["D1/5" := "snapshotA"]> (s3 created_D1).
Proof.
  pose proof (bundle_uploads_then_advances_the_pointer D1 (VNum (Int 5)) "snapshotA"
                D1_record 5 [] created_D1 eq_refl) as W.
  cbv zeta in W. destruct W as (_ & Hs3 & _).
  - vm_compute. reflexivity.
  - left. reflexivity.
  - exact Hs3.
Defined.

Lemma failed_pointer_update_leaves_the_snapshot_behind_witness :
  let done := run (bundleTransactionLog D1 (VNum (Int 5)) (VStr "snapshotA"))
                [Answer; Answer; Fault (Error "timeout") false] created_D1 in
  ddb (world_of done) = ddb created_D1
  /\ s3 (world_of done) = <["D1/5" := "snapshotA"]> (s3 created_D1).
Proof.
  pose proof (failed_pointer_update_leaves_the_snapshot_behind D1 (VNum (Int 5))
                "snapshotA" D1_record 5 (Error "timeout") [] created_D1 eq_refl) as W.
  cbv zeta in W. destruct W as (_ & Hddb & Hs3 & _).
  - vm_compute. reflexivity.
  - left. reflexivity.
  - split; [exact Hddb|exact Hs3].
Defined.

Lemma stored_pointer_never_decreases_witness :
  exists database N',
    ddb (world_of (run (bundleTransactionLog D1 (VNum (Int 10)) (VStr "snapshotB"))
                     [] bundled_D1))
    = <[(databaseTable, [D1]) := database]> (ddb bundled_D1)
    /\ read database "bundle-seq-no" = VNum (Int N') /\ 5 <= N'.
Proof.
  destruct (stored_pointer_never_decreases D1 (VNum (Int 10)) (VStr "snapshotB")
              (D1_record ++ [("bundle-seq-no", VNum (Int 5))]) 5 [] bundled_D1)
    as (database & N' & Hddb & Hptr & Hle & _).
  - vm_compute. reflexivity.
  - reflexivity.
  - exists database, N'. auto.
Defined.

Lemma snapshot_keys_do_not_collide_witness :
  getS3DbStateKey D1 (VNum (Int 5)) <> getS3DbStateKey D1 (VNum (Int 10)).
Proof. apply snapshot_keys_do_not_collide. right. lia. Defined.

Lemma bundled_snapshot_is_never_overwritten_witness :
  s3 (world_of (run (bundleTransactionLog D1 (VNum (Int 10)) (VStr "snapshotB"))
                  [] bundled_D1)) !! "D1/5"
  = Some "snapshotA".
Proof.
  pose proof (bundled_snapshot_is_never_overwritten D1 (VNum (Int 10)) (VStr "snapshotB")
                (D1_record ++ [("bundle-seq-no", VNum (Int 5))]) 5 5 [] bundled_D1) as W.
  cbv zeta in W. etrans; [apply W|].
  - vm_compute. reflexivity.
  - reflexivity.
  - lia.
  - vm_compute. reflexivity.
Defined.

Lemma batch_is_stored_as_one_transaction_witness :
  result_of (run (batch U1 D1 (VArr [insert_a; insert_a])) [Answer] created_D1)
  = Returned (successResponse (VObj [("sequenceNo", VNum (Int 1))])).
Proof.
  destruct (batch_is_stored_as_one_transaction U1 D1 insert_a [insert_a] [] created_D1)
    as (Hres & _).
  - reflexivity.
  - reflexivity.
  - vm_compute. reflexivity.
  - exact Hres.
Defined.

Lemma opened_database_is_handed_the_new_bundle_number_witness :
  exists dbId dbKey,
    result_of (run (@openDatabase accepting U1 (VStr "c1") (VStr "H1")) [Answer; Answer]
                 bundled_D1)
    = Returned
        (if truthy (@connections_openDatabase accepting U1 (VStr "c1") dbId
                      (VNum (Int 5)) (VStr "H1") dbKey)
         then successResponse (VStr "Success!")
         else errorResponse Internal_Server_Error
                "Failed to create database with Error: Unable to open database").
Proof.
  assert (Halias : ddb created_D1 !! (userDatabaseTable, [U1; VStr "H1"])
                   = Some (VObj D1_alias)) by (vm_compute; reflexivity).
  assert (Hok : result_of (run (bundleTransactionLog D1 (VNum (Int 5)) (VStr "snapshotA"))
                             [] created_D1)
                = Returned (successResponse (VObj []))) by (vm_compute; reflexivity).
  exact (opened_database_is_handed_the_new_bundle_number (H0 := accepting)
           U1 (VStr "c1") (VStr "H1") (VNum (Int 5)) (VStr "snapshotA") (VObj [])
           D1_alias [] [] created_D1 eq_refl Halias Hok).
Defined.

Lemma logged_transaction_is_never_replaced_witness :
  ddb (serve_all (H0 := accepting)
         [ (RollbackTransaction insert_k_numbered, [Answer]);
           (Commit insert_k, [Answer]);
           (CreateDatabase U1 (VStr "H1") D1 (VStr "name") (VStr "K1") VUndefined, []) ]
         restarted_D1)
    !! (transactionsTable, [D1; VNum (Int 1)])
  = Some insert_k_numbered.
Proof.
  apply logged_transaction_is_never_replaced.
  - vm_compute. reflexivity.
  - vm_compute. discriminate.
Defined.

Lemma snapshot_below_the_pointer_is_kept_witness :
  s3 (serve_all (H0 := accepting)
        [ (BundleTransactionLog D1 (VNum (Int 10)) (VStr "snapshotB"), []);
          (BundleTransactionLog (VStr "D2") (VNum (Int 5)) (VStr "other"), []);
          (GetBundle D1 (VNum (Int 5)), []) ]
        bundled_D1) !! "D1/5"
  = Some "snapshotA".
Proof.
  etrans; [apply (snapshot_below_the_pointer_is_kept (H0 := accepting) _ bundled_D1 D1
                    (D1_record ++ [("bundle-seq-no", VNum (Int 5))]) 5 5)|].
  - vm_compute. reflexivity.
  - reflexivity.
  - lia.
  - apply Forall_cons. split; [left; reflexivity|].
    apply Forall_cons. split; [right; vm_compute; discriminate|].
    apply Forall_cons. split; [exact I|apply Forall_nil; exact I].
  - vm_compute. reflexivity.
Defined.
